(** * ChatWave: the understanding-and-decision pipeline

    A shallow embedding of the rule-based NLP engine ([nlp/engine.js]), the
    route scorer ([services/routePlanner.js]) and the dialogue orchestrator
    ([services/chatService.js]), with the properties of the specification,
    and further properties of the code, stated and proved against it.

    Conventions of the embedding:
    - a text is a [string] whose characters are code units below 256;
      [toLowerCase], [trim] and the regular-expression classes are the
      ECMAScript ones restricted to that range;
    - a JavaScript number is an exact rational ([Q]) or an integer ([Z])
      where the schema says INTEGER, and a score is such a rational or NaN;
    - an object used as a dictionary is a [gmap string _] of its own keys,
      or an association list where the order of the keys is read; where the
      source looks a text up in an object literal, the members the literal
      inherits from [Object.prototype] are found too;
    - the regular expressions of the source are kept as their source text
      and run by a backtracking matcher with the ECMAScript priorities. *)

From Stdlib Require Import ZArith QArith Qminmax Qround Lia Lqa List Bool Ascii String DecimalString.
From Stdlib Require Import Sorted Permutation.
From stdpp Require Import base option list gmap strings.

Local Open Scope string_scope.
Local Open Scope list_scope.

(* ====================================================================== *)
(** ** Characters and strings of the host language *)
(* ====================================================================== *)

Module Js.

Definition code (c : ascii) : N := N_of_ascii c.

Definition between (lo hi : N) (c : ascii) : bool :=
  ((lo <=? code c) && (code c <=? hi))%N.

(** [\s]: TAB, LF, VT, FF, CR, SPACE, NBSP. *)
Definition isSpace (c : ascii) : bool :=
  between 9 13 c || (code c =? 32)%N || (code c =? 160)%N.

Definition isDigit (c : ascii) : bool := between 48 57 c.

(** [\w]: [A-Za-z0-9_]. *)
Definition isWordChar (c : ascii) : bool :=
  between 97 122 c || between 65 90 c || isDigit c || (code c =? 95)%N.

Definition isLineTerminator (c : ascii) : bool :=
  (code c =? 10)%N || (code c =? 13)%N.

(** [String.prototype.toLowerCase] on one code unit. *)
Definition lowerChar (c : ascii) : ascii :=
  if between 65 90 c || (between 192 222 c && negb (code c =? 215)%N)
  then ascii_of_N (code c + 32) else c.

(** Canonicalize of the [i] flag (simple upper-casing; a code unit whose
    upper-case form leaves the range stays as it is). *)
Definition canon (c : ascii) : ascii :=
  if between 97 122 c || (between 224 254 c && negb (code c =? 247)%N)
  then ascii_of_N (code c - 32) else c.

Fixpoint toLowerCase (s : string) : string :=
  match s with
  | EmptyString => EmptyString
  | String c s' => String (lowerChar c) (toLowerCase s')
  end.

Fixpoint trimStart (s : string) : string :=
  match s with
  | String c s' => if isSpace c then trimStart s' else s
  | EmptyString => EmptyString
  end.

Fixpoint trimEnd (s : string) : string :=
  match s with
  | EmptyString => EmptyString
  | String c s' =>
      match trimEnd s' with
      | EmptyString => if isSpace c then EmptyString else String c EmptyString
      | t => String c t
      end
  end.

Definition trim (s : string) : string := trimEnd (trimStart s).

Fixpoint startsWith (s p : string) : bool :=
  match p, s with
  | EmptyString, _ => true
  | String a p', String b s' => Ascii.eqb a b && startsWith s' p'
  | String _ _, EmptyString => false
  end.

(** [s.includes(p)]. *)
Fixpoint includes (s p : string) : bool :=
  startsWith s p ||
  match s with
  | EmptyString => false
  | String _ s' => includes s' p
  end.

Fixpoint filterChars (keep : ascii -> bool) (s : string) : string :=
  match s with
  | EmptyString => EmptyString
  | String c s' =>
      if keep c then String c (filterChars keep s') else filterChars keep s'
  end.

(** Truthiness of a string: only the empty string is falsy. *)
Definition nonEmpty (s : string) : bool :=
  match s with EmptyString => false | _ => true end.

(** *** Object literals read as dictionaries

    [table[key]] on an object literal finds the literal's own property of
    that name, or else the property of that name that every object inherits
    from [Object.prototype]: eleven functions and the accessor [__proto__]. *)
Definition prototypeNames : list string :=
  [ "constructor"; "__defineGetter__"; "__defineSetter__"; "hasOwnProperty";
    "__lookupGetter__"; "__lookupSetter__"; "isPrototypeOf";
    "propertyIsEnumerable"; "toString"; "valueOf"; "__proto__"; "toLocaleString" ].

Inductive Member (A : Type) : Type :=
| Own (a : A)                  (* a property of the literal *)
| Inherited (name : string)    (* a member of [Object.prototype]: an object *)
| Missing.                     (* [undefined] *)

Arguments Own {A} a.
Arguments Inherited {A} name.
Arguments Missing {A}.

Definition member {A : Type} (table : list (string * A)) (key : string) : Member A :=
  match List.find (fun kv => String.eqb (fst kv) key) table with
  | Some (_, a) => Own a
  | None => if existsb (String.eqb key) prototypeNames then Inherited key else Missing
  end.

End Js.

(* ====================================================================== *)
(** ** Regular expressions *)
(* ====================================================================== *)

Module RegExp.

Inductive citem : Type :=
| CChar (c : ascii)
| CRange (lo hi : ascii)
| CSpace
| CDigit
| CWord.

Inductive regex : Type :=
| Empty
| Char (c : ascii)
| AnyChar
| Class (neg : bool) (items : list citem)
| Seq (r1 r2 : regex)
| Alt (r1 r2 : regex)
| Repeat (lo : nat) (hi : option nat) (greedy : bool) (r : regex)
| Group (n : nat) (r : regex)
| AssertStart
| AssertEnd
| WordBoundary.

(** *** Reading the source text of a pattern *)

Definition digitVal (c : ascii) : nat := N.to_nat (Js.code c - 48).

Fixpoint readNat (acc : nat) (s : string) : nat * string :=
  match s with
  | String c s' => if Js.isDigit c then readNat (10 * acc + digitVal c) s' else (acc, s)
  | EmptyString => (acc, s)
  end.

Definition classAtom (s : string) : option (citem * string) :=
  match s with
  | String "\" (String c s') =>
      Some (if Ascii.eqb c "s" then CSpace
            else if Ascii.eqb c "d" then CDigit
            else if Ascii.eqb c "w" then CWord
            else CChar c, s')
  | String c s' => Some (CChar c, s')
  | EmptyString => None
  end.

Fixpoint parseClass (fuel : nat) (s : string) : option (list citem * string) :=
  match fuel with
  | O => None
  | S fuel' =>
      match s with
      | String "]" s' => Some ([], s')
      | _ =>
          match classAtom s with
          | Some (CChar lo, String "-" s1) =>
              match s1 with
              | String "]" _ =>
                  '(rest, s2) ← parseClass fuel' s1; Some (CChar lo :: rest, s2)
              | _ =>
                  match classAtom s1 with
                  | Some (CChar hi, s2) =>
                      '(rest, s3) ← parseClass fuel' s2; Some (CRange lo hi :: rest, s3)
                  | _ => None
                  end
              end
          | Some (it, s1) =>
              '(rest, s2) ← parseClass fuel' s1; Some (it :: rest, s2)
          | None => None
          end
      end
  end.

(** The quantifier, if any, that follows an atom. *)
Definition parseQuantifier (r : regex) (s : string) : regex * string :=
  let lazy (lo : nat) (hi : option nat) (s' : string) :=
    match s' with
    | String "?" s'' => (Repeat lo hi false r, s'')
    | _ => (Repeat lo hi true r, s')
    end in
  match s with
  | String "*" s' => lazy 0 None s'
  | String "+" s' => lazy 1 None s'
  | String "?" s' => lazy 0 (Some 1) s'
  | String "{" s' =>
      let '(lo, s1) := readNat 0 s' in
      match s1 with
      | String "}" s2 => lazy lo (Some lo) s2
      | String "," (String "}" s2) => lazy lo None s2
      | String "," s2 =>
          let '(hi, s3) := readNat 0 s2 in
          match s3 with
          | String "}" s4 => lazy lo (Some hi) s4
          | _ => (r, s)
          end
      | _ => (r, s)
      end
  | _ => (r, s)
  end.

(** Disjunction, alternative and term of the ECMAScript pattern grammar;
    [n] counts the capturing parentheses opened so far. *)
Fixpoint parseAlt (fuel : nat) (s : string) (n : nat) : option (regex * string * nat) :=
  match fuel with
  | O => None
  | S fuel' =>
      '(r1, s1, n1) ← parseSeq fuel' s n;
      match s1 with
      | String "|" s2 =>
          '(r2, s3, n2) ← parseAlt fuel' s2 n1; Some (Alt r1 r2, s3, n2)
      | _ => Some (r1, s1, n1)
      end
  end
with parseSeq (fuel : nat) (s : string) (n : nat) : option (regex * string * nat) :=
  match fuel with
  | O => None
  | S fuel' =>
      match s with
      | EmptyString | String "|" _ | String ")" _ => Some (Empty, s, n)
      | _ =>
          '(r1, s1, n1) ← parseTerm fuel' s n;
          '(r2, s2, n2) ← parseSeq fuel' s1 n1;
          Some (match r2 with Empty => r1 | _ => Seq r1 r2 end, s2, n2)
      end
  end
with parseTerm (fuel : nat) (s : string) (n : nat) : option (regex * string * nat) :=
  match fuel with
  | O => None
  | S fuel' =>
      let quantified (r : regex) (s' : string) (n' : nat) :=
        let '(q, s'') := parseQuantifier r s' in Some (q, s'', n') in
      match s with
      | EmptyString => None
      | String "(" (String "?" (String ":" s1)) =>
          '(r, s2, n1) ← parseAlt fuel' s1 n;
          match s2 with
          | String ")" s3 => quantified r s3 n1
          | _ => None
          end
      | String "(" s1 =>
          '(r, s2, n1) ← parseAlt fuel' s1 (S n);
          match s2 with
          | String ")" s3 => quantified (Group (S n) r) s3 n1
          | _ => None
          end
      | String "[" (String "^" s1) =>
          '(items, s2) ← parseClass (String.length s1 + 1) s1;
          quantified (Class true items) s2 n
      | String "[" s1 =>
          '(items, s2) ← parseClass (String.length s1 + 1) s1;
          quantified (Class false items) s2 n
      | String "\" (String c s1) =>
          if Ascii.eqb c "b" then Some (WordBoundary, s1, n)
          else if Ascii.eqb c "s" then quantified (Class false [CSpace]) s1 n
          else if Ascii.eqb c "d" then quantified (Class false [CDigit]) s1 n
          else if Ascii.eqb c "w" then quantified (Class false [CWord]) s1 n
          else quantified (Char c) s1 n
      | String "^" s1 => Some (AssertStart, s1, n)
      | String "$" s1 => Some (AssertEnd, s1, n)
      | String "." s1 => quantified AnyChar s1 n
      | String c s1 => quantified (Char c) s1 n
      end
  end.

Definition parse (src : string) : option regex :=
  match parseAlt (3 * String.length src + 8) src 0 with
  | Some (r, EmptyString, _) => Some r
  | _ => None
  end.

(** *** Matching *)

Record mstate : Type := MState {
  m_prev : option ascii;      (* the character before the current position *)
  m_rest : string;            (* the text from the current position on *)
  m_pos : nat;                (* the current position *)
  m_caps : list (nat * string) (* the captures set so far *)
}.

Definition itemMem (it : citem) (c : ascii) : bool :=
  match it with
  | CChar a => Ascii.eqb a c
  | CRange lo hi => Js.between (Js.code lo) (Js.code hi) c
  | CSpace => Js.isSpace c
  | CDigit => Js.isDigit c
  | CWord => Js.isWordChar c
  end.

(** Membership up to the canonicalisation of the [i] flag: some member of
    the item has the canonical form of [c]. *)
Definition itemMatches (ci : bool) (it : citem) (c : ascii) : bool :=
  itemMem it c ||
  (ci && (itemMem it (Js.canon c) || itemMem it (Js.lowerChar (Js.canon c)))).

Definition charMatches (ci : bool) (a c : ascii) : bool :=
  if ci then Ascii.eqb (Js.canon a) (Js.canon c) else Ascii.eqb a c.

Definition step (st : mstate) (c : ascii) (rest : string) : mstate :=
  MState (Some c) rest (S (m_pos st)) (m_caps st).

Definition isWordAt (o : option ascii) : bool :=
  match o with Some c => Js.isWordChar c | None => false end.

Definition nextChar (st : mstate) : option ascii :=
  match m_rest st with String c _ => Some c | EmptyString => None end.

Fixpoint groupsOf (r : regex) : list nat :=
  match r with
  | Seq r1 r2 | Alt r1 r2 => groupsOf r1 ++ groupsOf r2
  | Repeat _ _ _ r1 => groupsOf r1
  | Group n r1 => n :: groupsOf r1
  | _ => []
  end.

Definition clearCaps (gs : list nat) (st : mstate) : mstate :=
  MState (m_prev st) (m_rest st) (m_pos st)
         (List.filter (fun kv => negb (existsb (Nat.eqb (fst kv)) gs)) (m_caps st)).

Definition setCap (n : nat) (from to : mstate) : mstate :=
  MState (m_prev to) (m_rest to) (m_pos to)
         ((n, String.substring 0 (m_pos to - m_pos from) (m_rest from))
            :: List.filter (fun kv => negb (Nat.eqb (fst kv) n)) (m_caps to)).

Definition belowMax (count : nat) (hi : option nat) : bool :=
  match hi with Some h => Nat.ltb count h | None => true end.

(** A matcher takes the state and the rest of the pattern, as a
    continuation, and returns the final state of the first way to match. *)
Definition Matcher : Type := mstate -> (mstate -> option mstate) -> option mstate.

(** Repetition of [body] between [lo] and [hi] times. A greedy repetition
    tries one more iteration before it tries to stop, a lazy one the other
    way round; the captures of the body are reset at each iteration, and an
    iteration that consumes nothing once the minimum is reached fails. *)
Fixpoint repeatLoop (body : Matcher) (lo : nat) (hi : option nat) (greedy : bool)
    (gs : list nat) (k : mstate -> option mstate) (fuel count : nat) (st : mstate)
    {struct fuel} : option mstate :=
  match fuel with
  | O => None
  | S fuel' =>
      let more (_ : unit) :=
        if belowMax count hi then
          body (clearCaps gs st) (fun st' =>
            if Nat.ltb count lo || Nat.ltb (m_pos st) (m_pos st')
            then repeatLoop body lo hi greedy gs k fuel' (S count) st' else None)
        else None in
      let stop (_ : unit) := if Nat.leb lo count then k st else None in
      if greedy
      then match more tt with Some res => Some res | None => stop tt end
      else match stop tt with Some res => Some res | None => more tt end
  end.

(** The backtracking matcher, in continuation-passing style: [k] is the
    rest of the pattern; the alternatives are tried in the order of the
    ECMAScript semantics, the left one first. *)
Fixpoint run (ci : bool) (r : regex) (st : mstate)
    (k : mstate -> option mstate) {struct r} : option mstate :=
  match r with
  | Empty => k st
  | Char a =>
      match m_rest st with
      | String c rest => if charMatches ci a c then k (step st c rest) else None
      | EmptyString => None
      end
  | AnyChar =>
      match m_rest st with
      | String c rest => if Js.isLineTerminator c then None else k (step st c rest)
      | EmptyString => None
      end
  | Class neg items =>
      match m_rest st with
      | String c rest =>
          if xorb neg (existsb (fun it => itemMatches ci it c) items)
          then k (step st c rest) else None
      | EmptyString => None
      end
  | Seq r1 r2 => run ci r1 st (fun st' => run ci r2 st' k)
  | Alt r1 r2 =>
      match run ci r1 st k with
      | Some res => Some res
      | None => run ci r2 st k
      end
  | Group n r1 => run ci r1 st (fun st' => k (setCap n st st'))
  | AssertStart => match m_prev st with None => k st | Some _ => None end
  | AssertEnd => match m_rest st with EmptyString => k st | _ => None end
  | WordBoundary =>
      if xorb (isWordAt (m_prev st)) (isWordAt (nextChar st)) then k st else None
  | Repeat lo hi greedy r1 =>
      repeatLoop (fun st' k' => run ci r1 st' k') lo hi greedy (groupsOf r1) k
                 (lo + String.length (m_rest st) + 1) 0 st
  end.

Record MatchResult : Type := Match {
  index : nat;
  matched : string;
  captures : list (nat * string)
}.

(** The match that starts at the current position, if there is one. *)
Definition matchHere (ci : bool) (r : regex) (st : mstate) : option MatchResult :=
  match run ci r st Some with
  | Some st' =>
      Some (Match (m_pos st)
                  (String.substring 0 (m_pos st' - m_pos st) (m_rest st))
                  (m_caps st'))
  | None => None
  end.

(** The leftmost match: every start position in turn, the end included. *)
Fixpoint search (ci : bool) (r : regex) (prev : option ascii) (s : string) (pos : nat)
    : option MatchResult :=
  match matchHere ci r (MState prev s pos []) with
  | Some res => Some res
  | None =>
      match s with
      | String c s' => search ci r (Some c) s' (S pos)
      | EmptyString => None
      end
  end.

(** A compiled pattern: the pattern and its [i] flag. *)
Record t : Type := Pattern { ast : regex; ignoreCase : bool }.

(** [/src/] and [/src/i]; a text that is not a pattern matches nothing. *)
Definition compile (ci : bool) (src : string) : t :=
  Pattern (match parse src with Some r => r | None => Class false [] end) ci.

(** [re.exec(s)] for a pattern without the [g] flag, and [s.match(re)]. *)
Definition exec (re : t) (s : string) : option MatchResult :=
  search (ignoreCase re) (ast re) None s 0.

(** [re.test(s)]. *)
Definition test (re : t) (s : string) : bool :=
  match exec re s with Some _ => true | None => false end.

(** [m[n]] for a capture group: [None] is [undefined]. *)
Definition group (m : MatchResult) (n : nat) : option string :=
  match n with
  | O => Some (matched m)
  | _ => snd <$> List.find (fun kv => Nat.eqb (fst kv) n) (captures m)
  end.

End RegExp.

(* ====================================================================== *)
(** ** Numbers read from and written to text *)
(* ====================================================================== *)

Module Num.

Definition hexVal (c : ascii) : option Z :=
  if Js.isDigit c then Some (Z.of_N (Js.code c - 48))
  else if Js.between 97 102 c then Some (Z.of_N (Js.code c - 87))
  else if Js.between 65 70 c then Some (Z.of_N (Js.code c - 55))
  else None.

(** The digits of radix [radix] at the head of [s], most significant first;
    [None] when there is none. *)
Fixpoint digits (radix : Z) (acc : option Z) (s : string) : option Z :=
  match s with
  | String c s' =>
      match hexVal c with
      | Some d =>
          if (d <? radix)%Z
          then digits radix (Some (radix * default 0%Z acc + d)%Z) s'
          else acc
      | None => acc
      end
  | EmptyString => acc
  end.

(** [parseInt(s)]: leading white space, a sign, a [0x] prefix, then the
    longest run of digits; [None] is [NaN]. *)
Definition parseInt (s : string) : option Z :=
  let s := Js.trimStart s in
  let '(sign, s) :=
    match s with
    | String "-" s' => ((-1)%Z, s')
    | String "+" s' => (1%Z, s')
    | _ => (1%Z, s)
    end in
  match s with
  | String "0" (String "x" s') | String "0" (String "X" s') =>
      Z.mul sign <$> digits 16 None s'
  | _ => Z.mul sign <$> digits 10 None s
  end.

(** [String(n)] for an integer. *)
Definition toString (n : Z) : string :=
  match n with
  | Z0 => "0"
  | Zpos p => NilEmpty.string_of_uint (Pos.to_uint p)
  | Zneg p => "-" +:+ NilEmpty.string_of_uint (Pos.to_uint p)
  end.

Fixpoint repeatChar (c : ascii) (n : nat) : string :=
  match n with O => EmptyString | S n' => String c (repeatChar c n') end.

(** [s.padStart(width, c)] for a one-character filler. *)
Definition padStart (width : nat) (c : ascii) (s : string) : string :=
  repeatChar c (width - String.length s) +:+ s.

End Num.

(* ====================================================================== *)
(** ** nlp/engine.js *)
(* ====================================================================== *)

(** *** Intent definitions *)

Inductive Intent : Type :=
| TRAVEL_SEARCH
| GREETING
| HELP
| ROUTE_PREFERENCE
| SCHEDULE_QUERY
| PRICE_QUERY
| COMPARE_ROUTES
| SELECT_ROUTE
| GOODBYE
| THANKS
| UNKNOWN.

#[global] Instance Intent_eq_dec : EqDecision Intent.
Proof. solve_decision. Defined.

(** The string each member of [INTENTS] stands for. *)
Definition INTENTS (i : Intent) : string :=
  match i with
  | TRAVEL_SEARCH => "travel_search"
  | GREETING => "greeting"
  | HELP => "help"
  | ROUTE_PREFERENCE => "route_preference"
  | SCHEDULE_QUERY => "schedule_query"
  | PRICE_QUERY => "price_query"
  | COMPARE_ROUTES => "compare_routes"
  | SELECT_ROUTE => "select_route"
  | GOODBYE => "goodbye"
  | THANKS => "thanks"
  | UNKNOWN => "unknown"
  end.

(** *** Pattern databases *)

(** [re_i "src"] is the literal [/src/i], [re "src"] the literal [/src/]. *)
Definition re_i (src : string) : RegExp.t := RegExp.compile true src.
Definition re (src : string) : RegExp.t := RegExp.compile false src.

(** In declaration order, which is the order [Object.entries] visits. *)
Definition INTENT_PATTERNS : list (Intent * list RegExp.t) := Eval vm_compute in
  [ (GREETING,
      [ (re_i "^(hi|hello|hey|howdy|hola|good\s*(morning|afternoon|evening|day)|namaste|namaskar)");
        (re_i "^(what'?s?\s*up|yo|sup)") ]);
    (GOODBYE,
      [ (re_i "\b(bye|goodbye|see\s*you|take\s*care|ciao|later|ttyl)\b") ]);
    (THANKS,
      [ (re_i "\b(thanks?|thank\s*you|thx|ty|appreciate|grateful|dhanyavaad)\b") ]);
    (HELP,
      [ (re_i "\b(help|assist|support|how\s*(do|can|to)|what\s*can\s*you|guide|tutorial)\b");
        (re_i "\bwhat\s*(do|can)\s*you\s*do\b") ]);
    (PRICE_QUERY,
      [ (re_i "\b(how\s*much|price|cost|fare|charge|rate|ticket\s*price|expensive|cheap|budget)\b") ]);
    (SCHEDULE_QUERY,
      [ (re_i "\b(when|what\s*time|schedule|timing|departure|arrival|next\s*(train|bus)|timetable)\b") ]);
    (COMPARE_ROUTES,
      [ (re_i "\b(compare|comparison|difference|vs|versus|which\s*is\s*(better|faster|cheaper)|between)\b") ]);
    (SELECT_ROUTE,
      [ (re_i "\b(select|choose|book|pick|go\s*with|option\s*\d|i('ll|\s*will)\s*(take|choose|go\s*with))\b");
        (re_i "\b(number|#)\s*\d\b") ]);
    (ROUTE_PREFERENCE,
      [ (re_i "\b(prefer|want|looking\s*for|need\s*a?|fastest|cheapest|quickest|comfortable|direct)\b") ]);
    (TRAVEL_SEARCH,
      [ (re_i "\b(travel|go|going|trip|journey|route|from|to\b.*\bto\b|book|find\s*(a\s*)?(bus|train|route|trip))");
        (re_i "\b(bus|train|flight)\s*(from|to|between)\b");
        (re_i "\bfrom\s+\w+\s+to\s+\w+");
        (re_i "\b(i\s*(want|need|have)\s*to\s*(go|travel|reach|visit|get\s*to))\b");
        (re_i "\btake\s*me\s*(to|from)\b") ]) ].

(** *** City name database (with aliases), in declaration order *)

Definition CITY_ALIASES : list (string * string) :=
  [ ("mumbai", "Mumbai"); ("bombay", "Mumbai"); ("bom", "Mumbai");
    ("delhi", "Delhi"); ("new delhi", "Delhi"); ("dilli", "Delhi");
    ("pune", "Pune"); ("poona", "Pune");
    ("bangalore", "Bangalore"); ("bengaluru", "Bangalore"); ("blr", "Bangalore");
    ("chennai", "Chennai"); ("madras", "Chennai");
    ("hyderabad", "Hyderabad"); ("hyd", "Hyderabad");
    ("kolkata", "Kolkata"); ("calcutta", "Kolkata"); ("cal", "Kolkata");
    ("jaipur", "Jaipur");
    ("ahmedabad", "Ahmedabad"); ("amd", "Ahmedabad");
    ("goa", "Goa"); ("panaji", "Goa");
    ("lucknow", "Lucknow") ].

(** *** Time and date patterns *)

Record TimeRange : Type := mkTimeRange {
  start : string;
  end_ : option string;     (* [None] is [null] *)
  label : string
}.

Definition TIME_PATTERNS : list (string * TimeRange) :=
  [ ("morning", mkTimeRange "06:00" (Some "12:00") "morning");
    ("afternoon", mkTimeRange "12:00" (Some "17:00") "afternoon");
    ("evening", mkTimeRange "17:00" (Some "21:00") "evening");
    ("night", mkTimeRange "21:00" (Some "06:00") "night");
    ("early", mkTimeRange "04:00" (Some "08:00") "early morning");
    ("late", mkTimeRange "20:00" (Some "23:59") "late night") ].

(** [None] is the [null] of "this weekend", calculated dynamically. *)
Definition DATE_ALIASES : list (string * option Z) :=
  [ ("today", Some 0%Z); ("tomorrow", Some 1%Z);
    ("day after tomorrow", Some 2%Z); ("day after", Some 2%Z);
    ("next week", Some 7%Z); ("this weekend", None) ].

Definition DAY_NAMES : list string :=
  [ "sunday"; "monday"; "tuesday"; "wednesday"; "thursday"; "friday"; "saturday" ].

(** What the code reads from the host's [Date]: the calendar itself is the
    runtime's, so each use of it is a field of the clock reading [now]. *)
Record Clock : Type := mkClock {
  (** [now.getDay()] *)
  getDay : Z;
  (** [d = new Date(now); d.setDate(now.getDate() + n);
      d.toISOString().split('T')[0]] *)
  isoDateAfter : Z -> string;
  (** [d = new Date(now.getFullYear(), month, day);
      if (d < now) d.setFullYear(d.getFullYear() + 1);
      d.toISOString().split('T')[0]] *)
  isoDateOf : Z -> Z -> string;
  (** [new Date().toISOString()] *)
  isoNow : string
}.

(** *** Entity values *)

Inductive value : Type :=
| VNull
| VUndefined
| VStr (s : string)
| VTime (t : TimeRange)
| VInherited (name : string).   (* the member [name] of [Object.prototype] *)

(** JavaScript truthiness: an object is truthy, a string unless empty. *)
Definition truthy (v : value) : bool :=
  match v with
  | VNull | VUndefined => false
  | VStr s => Js.nonEmpty s
  | VTime _ | VInherited _ => true
  end.

(** [o.key] read for its truthiness: a missing key is [undefined]. *)
Definition truthyAt (o : gmap string value) (key : string) : bool :=
  match o !! key with Some v => truthy v | None => false end.

(** [o.key === s] for a string [s]. *)
Definition isString (o : gmap string value) (key s : string) : bool :=
  match o !! key with Some (VStr x) => String.eqb x s | _ => false end.

(** [value !== null && value !== undefined] *)
Definition defined (v : value) : bool :=
  match v with VNull | VUndefined => false | _ => true end.

(** [if (v) o.key = v] for a string-or-null [v]. *)
Definition setIfTruthy (key : string) (v : option value) (o : gmap string value)
    : gmap string value :=
  match v with
  | Some x => if truthy x then <[key := x]> o else o
  | None => o
  end.

(** *** Entity extraction *)

(** [CITY_ALIASES[cleaned]]: a canonical name, a member every object
    inherits (for "constructor", the function [Object]), or [undefined]. *)
Definition cityAlias (cleaned : string) : value :=
  match Js.member CITY_ALIASES cleaned with
  | Js.Own city => VStr city
  | Js.Inherited name => VInherited name
  | Js.Missing => VUndefined
  end.

Definition resolveCity (text : string) : value :=
  if negb (Js.nonEmpty text) then VNull else
  let cleaned :=
    Js.toLowerCase (Js.trim (Js.filterChars
      (fun c => negb (RegExp.test (re_i "[^a-z\s]") (String c EmptyString))) text)) in
  (* Direct match *)
  if truthy (cityAlias cleaned) then cityAlias cleaned else
  (* Partial match (check if any city name is contained in the text) *)
  match List.find (fun kv => Js.includes cleaned (fst kv) || Js.includes (fst kv) cleaned)
                  CITY_ALIASES with
  | Some (_, city) => VStr city
  | None => VNull
  end.

(** A property that was not set reads [undefined]. *)
Record Locations : Type := mkLocations {
  loc_origin : value;
  loc_destination : value
}.

(** [resolveCity(m[n].trim())] *)
Definition resolveGroup (m : RegExp.MatchResult) (n : nat) : value :=
  resolveCity (Js.trim (default "" (RegExp.group m n))).

Definition extractLocations (text : string) : Locations :=
  (* Pattern: "from X to Y" *)
  match RegExp.exec
    (re_i "from\s+([a-z\s]+?)\s+to\s+([a-z\s]+?)(?:\s+(?:by|on|in|at|tomorrow|today|next|this|$)|\s*$)")
    text with
  | Some fromTo => mkLocations (resolveGroup fromTo 1) (resolveGroup fromTo 2)
  | None =>
  (* Pattern: "X to Y" *)
  let xToY := RegExp.exec
    (re_i "([a-z\s]+?)\s+to\s+([a-z\s]+?)(?:\s+(?:by|on|in|at|tomorrow|today|next|this|$)|\s*$)")
    text in
  match (m ← xToY;
         let origin := resolveGroup m 1 in
         let dest := resolveGroup m 2 in
         if truthy origin && truthy dest
         then Some (mkLocations origin dest) else None) with
  | Some result => result
  | None =>
  (* Pattern: "to Y from X" *)
  match RegExp.exec (re_i "to\s+([a-z\s]+?)\s+from\s+([a-z\s]+?)(?:\s|$)") text with
  | Some toFrom => mkLocations (resolveGroup toFrom 2) (resolveGroup toFrom 1)
  | None =>
  (* Pattern: "go to Y" or "reach Y" or "visit Y" *)
  let goTo := RegExp.exec
    (re_i "(?:go|going|travel|reach|visit|get)\s+(?:to\s+)?([a-z\s]+?)(?:\s+(?:by|on|in|at|from|tomorrow|today)|\s*$)")
    text in
  (* Pattern: "from X" *)
  let from := RegExp.exec
    (re_i "from\s+([a-z\s]+?)(?:\s+(?:by|on|in|at|to|tomorrow|today)|\s*$)") text in
  mkLocations (match from with Some m => resolveGroup m 1 | None => VUndefined end)
              (match goTo with Some m => resolveGroup m 1 | None => VUndefined end)
  end end end.

Definition extractMode (text : string) : option string :=
  if RegExp.test (re_i "\b(train|railway|rail|express|rajdhani|shatabdi)\b") text then Some "train"
  else if RegExp.test (re_i "\b(bus|volvo|sleeper|msrtc|rsrtc|ksrtc)\b") text then Some "bus"
  else if RegExp.test (re_i "\b(any|both|either|all)\s*(mode|transport|option)?\b") text then Some "any"
  else None.

Definition monthNames : list string :=
  [ "jan"; "feb"; "mar"; "apr"; "may"; "jun"; "jul"; "aug"; "sep"; "oct"; "nov"; "dec" ].

(** [xs.findIndex(p)]: [None] is [-1]. *)
Fixpoint findIndex {A : Type} (p : A -> bool) (xs : list A) : option nat :=
  match xs with
  | [] => None
  | x :: xs' => if p x then Some O else S <$> findIndex p xs'
  end.

Definition extractDate (now : Clock) (text : string) : option string :=
  (* Check for relative dates *)
  match List.find (fun kv => Js.includes text (fst kv)) DATE_ALIASES with
  | Some (_, None) =>
      (* Handle "this weekend" *)
      let dayOfWeek := getDay now in
      let r := Z.rem (6 - dayOfWeek + 7) 7 in
      let daysUntilSat := if (r =? 0)%Z then 7%Z else r in
      Some (isoDateAfter now daysUntilSat)
  | Some (_, Some offset) => Some (isoDateAfter now offset)
  | None =>
  (* Check for day names *)
  match findIndex (fun name => Js.includes text name) DAY_NAMES with
  | Some i =>
      let dayOfWeek := getDay now in
      let daysAhead := (Z.of_nat i - dayOfWeek)%Z in
      let daysAhead := if (daysAhead <=? 0)%Z then (daysAhead + 7)%Z else daysAhead in
      Some (isoDateAfter now daysAhead)
  | None =>
  (* Check for explicit dates (DD/MM, DD-MM, DD MMM) *)
  match RegExp.exec
    (re_i "(\d{1,2})[\/\-\s]((?:\d{1,2}|jan|feb|mar|apr|may|jun|jul|aug|sep|oct|nov|dec)[a-z]*)")
    text with
  | Some explicitDate =>
      let day := Num.parseInt (default "" (RegExp.group explicitDate 1)) in
      let monthStr := Js.toLowerCase (default "" (RegExp.group explicitDate 2)) in
      let month :=
        match findIndex (fun m => Js.startsWith monthStr m) monthNames with
        | Some monthIndex => Some (Z.of_nat monthIndex)
        | None => (fun n => n - 1)%Z <$> Num.parseInt monthStr
        end in
      match day, month with
      | Some day, Some month =>
          if (0 <=? month)%Z && (month <=? 11)%Z
          then Some (isoDateOf now month day) else None
      | _, _ => None
      end
  | None => None
  end end end.

Definition extractTime (text : string) : option TimeRange :=
  (* Check for time-of-day keywords *)
  match List.find (fun kv => Js.includes text (fst kv)) TIME_PATTERNS with
  | Some (_, timeRange) => Some timeRange
  | None =>
  (* Check for explicit time (e.g., "at 3pm", "around 14:00") *)
  match RegExp.exec (re_i "(?:at|around|by|before|after)\s*(\d{1,2})(?::(\d{2}))?\s*(am|pm)?") text with
  | Some explicitTime =>
      let hour := default 0%Z (Num.parseInt (default "" (RegExp.group explicitTime 1))) in
      let minutes :=
        match RegExp.group explicitTime 2 with
        | Some m => if Js.nonEmpty m then m else "00"
        | None => "00"
        end in
      let ampm := Js.toLowerCase <$> RegExp.group explicitTime 3 in
      let hour := if bool_decide (ampm = Some "pm") && (hour <? 12)%Z then (hour + 12)%Z else hour in
      let hour := if bool_decide (ampm = Some "am") && (hour =? 12)%Z then 0%Z else hour in
      Some (mkTimeRange (Num.padStart 2 "0" (Num.toString hour) +:+ ":" +:+ minutes)
                        None
                        ("around " +:+ Num.toString hour +:+ ":" +:+ minutes))
  | None => None
  end end.

Definition extractClass (text : string) : option string :=
  if RegExp.test (re_i "\b(first\s*class|1st\s*class|fc|1ac)\b") text then Some "first"
  else if RegExp.test (re_i "\b(second\s*class|2nd\s*class|2ac)\b") text then Some "second"
  else if RegExp.test (re_i "\b(sleeper|sl|3ac)\b") text then Some "sleeper"
  else if RegExp.test (re_i "\b(ac|air\s*condition)\b") text then Some "ac"
  else if RegExp.test (re_i "\b(general|gen|unreserved)\b") text then Some "general"
  else None.

Definition extractBudget (text : string) : option string :=
  if RegExp.test (re_i "\b(cheap|budget|low\s*cost|affordable|economy|economical)\b") text then Some "budget"
  else if RegExp.test (re_i "\b(premium|luxury|comfortable|best|top|vip)\b") text then Some "premium"
  else if RegExp.test (re_i "\b(moderate|balanced|mid|medium)\b") text then Some "balanced"
  else None.

(** [{ ...context }], then every entry of [entities] that is neither [null]
    nor [undefined] written over it. *)
Definition mergeWithContext (entities context : gmap string value) : gmap string value :=
  map_fold (fun key v merged => if defined v then <[key := v]> merged else merged)
           context entities.

Definition extractEntities (now : Clock) (message : string) (context : gmap string value)
    : gmap string value :=
  let normalized := Js.trim (Js.toLowerCase message) in
  let entities : gmap string value := ∅ in
  (* Extract origin and destination *)
  let locations := extractLocations normalized in
  let entities := setIfTruthy "origin" (Some (loc_origin locations)) entities in
  let entities := setIfTruthy "destination" (Some (loc_destination locations)) entities in
  (* Extract transport mode *)
  let entities := setIfTruthy "mode" (VStr <$> extractMode normalized) entities in
  (* Extract date *)
  let entities := setIfTruthy "date" (VStr <$> extractDate now normalized) entities in
  (* Extract time preference *)
  let entities := setIfTruthy "timePreference" (VTime <$> extractTime normalized) entities in
  (* Extract class preference *)
  let entities := setIfTruthy "seatClass" (VStr <$> extractClass normalized) entities in
  (* Extract budget preference *)
  let entities := setIfTruthy "budgetPreference" (VStr <$> extractBudget normalized) entities in
  (* Merge with context (existing entities fill in missing ones) *)
  mergeWithContext entities context.

(** *** Intent detection *)

(** The [scores] object: its keys in insertion order. *)
Definition Scores : Type := list (Intent * Z).

Definition getScore (intent : Intent) (scores : Scores) : option Z :=
  snd <$> List.find (fun kv => bool_decide (fst kv = intent)) scores.

(** [scores[intent] = v]: an existing key keeps its place, a new one goes last. *)
Fixpoint setScore (intent : Intent) (v : Z) (scores : Scores) : Scores :=
  match scores with
  | [] => [(intent, v)]
  | (i, x) :: rest =>
      if bool_decide (i = intent) then (i, v) :: rest else (i, x) :: setScore intent v rest
  end.

(** The number of patterns of the list that match. *)
Definition countMatches (patterns : list RegExp.t) (normalized : string) : Z :=
  fold_left (fun n pattern => if RegExp.test pattern normalized then (n + 1)%Z else n)
            patterns 0%Z.

Definition patternScores (normalized : string) : Scores :=
  List.map (fun '(intent, patterns) => (intent, countMatches patterns normalized))
           INTENT_PATTERNS.

(** Boost travel_search if we found location entities. *)
Definition boostedScores (normalized : string) (entities : gmap string value) : Scores :=
  let scores := patternScores normalized in
  if truthyAt entities "origin" || truthyAt entities "destination"
  then setScore TRAVEL_SEARCH (default 0%Z (getScore TRAVEL_SEARCH scores) + 2)%Z scores
  else scores.

(** Find the intent with highest score. *)
Definition bestOf (scores : Scores) : Z * Intent :=
  fold_left (fun '(maxScore, bestIntent) '(intent, score) =>
               if (maxScore <? score)%Z then (score, intent) else (maxScore, bestIntent))
            scores (0%Z, UNKNOWN).

Record Detection : Type := mkDetection {
  intent : Intent;
  confidence : Q
}.

Definition detectIntent (message : string) (entities : gmap string value) : Detection :=
  let normalized := Js.trim (Js.toLowerCase message) in
  let scores := boostedScores normalized entities in
  let '(maxScore, bestIntent) := bestOf scores in
  (* If score is very low and we have entities, default to travel search *)
  let bestIntent :=
    if (maxScore <=? 0)%Z && (truthyAt entities "origin" || truthyAt entities "destination")
    then TRAVEL_SEARCH else bestIntent in
  mkDetection bestIntent (Qmin (inject_Z maxScore / 3) 1).

(* ====================================================================== *)
(** ** Candidate routes (the rows of [TransportService.searchRoutes]) *)
(* ====================================================================== *)

Record Schedule : Type := mkSchedule {
  departure_time : string;
  arrival_time : string;
  platform : option string
}.

(** A number as the scorer computes it: the arithmetic is exact, and [NaN]
    is what it gives once an operand is not a number. *)
Inductive number : Type :=
| Finite (q : Q)
| NaN.

Module Route.
Record t : Type := mk {
  id : string;
  mode : string;
  operator : string;
  route_name : string;
  base_price : Q;                       (* REAL NOT NULL *)
  duration_minutes : Z;                 (* INTEGER NOT NULL *)
  distance_km : option Q;               (* REAL *)
  origin_station : string;
  dest_station : string;
  schedules : option (list Schedule);   (* attached by the lookup *)
  _score : option number;               (* set by the scorer *)
  _tags : option (list string)          (* set by the scorer *)
}.
End Route.

(* ====================================================================== *)
(** ** Conversation context manager *)
(* ====================================================================== *)

Inductive Phase : Type := idle | collecting_info | showing_results | confirming.

Record Message : Type := mkMessage {
  role : string;
  content : string;
  timestamp : string
}.

Module Session.
Record t : Type := mk {
  entities : gmap string value;
  lastIntent : option Intent;
  turnCount : nat;
  history : list Message;
  lastRoutes : option (list Route.t);   (* [None] is [null] *)
  state : Phase
}.
End Session.

(** The argument of [updateContext]: a key that is left out is [None]. *)
Record Updates : Type := mkUpdates {
  u_entities : option (gmap string value);
  u_lastIntent : option Intent;
  u_state : option Phase;
  u_lastRoutes : option (list Route.t);
  u_message : option Message
}.

Definition noUpdates : Updates := mkUpdates None None None None None.

Module ConversationContext.

(** [this.sessions], a [Map] keyed by session id. *)
Abbreviation t := (gmap string Session.t).

Definition newSession : Session.t :=
  Session.mk ∅ None 0 [] None idle.

Definition getContext (sessionId : string) (sessions : t) : Session.t * t :=
  match sessions !! sessionId with
  | Some ctx => (ctx, sessions)
  | None => (newSession, <[sessionId := newSession]> sessions)
  end.

(** [history.push(message)], keeping only the last 20 messages. *)
Definition pushHistory (message : Message) (history : list Message) : list Message :=
  let history := history ++ [message] in
  if Nat.ltb 20 (length history) then drop (length history - 20) history else history.

Definition updateContext (sessionId : string) (updates : Updates) (sessions : t)
    : Session.t * t :=
  let '(ctx, sessions) := getContext sessionId sessions in
  let entities :=
    match u_entities updates with
    | Some e => e ∪ Session.entities ctx        (* { ...ctx.entities, ...updates.entities } *)
    | None => Session.entities ctx
    end in
  let lastIntent :=
    match u_lastIntent updates with
    | Some i => if Js.nonEmpty (INTENTS i) then Some i else Session.lastIntent ctx
    | None => Session.lastIntent ctx
    end in
  let state := default (Session.state ctx) (u_state updates) in
  let lastRoutes :=
    match u_lastRoutes updates with
    | Some rs => Some rs                        (* an array is truthy, empty or not *)
    | None => Session.lastRoutes ctx
    end in
  let turnCount := S (Session.turnCount ctx) in
  let history :=
    match u_message updates with
    | Some message => pushHistory message (Session.history ctx)
    | None => Session.history ctx
    end in
  let ctx := Session.mk entities lastIntent turnCount history lastRoutes state in
  (ctx, <[sessionId := ctx]> sessions).

Definition clearContext (sessionId : string) (sessions : t) : t :=
  delete sessionId sessions.

(** Determine what information is still missing for a travel search. *)
Definition getMissingEntities (sessionId : string) (sessions : t) : list string * t :=
  let '(ctx, sessions) := getContext sessionId sessions in
  let missing := [] in
  let missing := if truthyAt (Session.entities ctx) "origin" then missing else missing ++ ["origin"] in
  let missing := if truthyAt (Session.entities ctx) "destination" then missing else missing ++ ["destination"] in
  (missing, sessions).

End ConversationContext.

(* ====================================================================== *)
(** ** services/routePlanner.js *)
(* ====================================================================== *)

(** [x < y] on numbers. *)
Definition Qlt_bool (x y : Q) : bool := negb (Qle_bool y x).

Module RoutePlanner.

Local Open Scope Q_scope.

Record Weights : Type := mkWeights {
  price : Q;
  duration : Q;
  schedule : Q;
  operator : Q
}.

(** [Math.min(...xs)] and [Math.max(...xs)] of a list that is not empty. *)
Definition minOf (xs : list Q) : Q :=
  match xs with
  | [] => 0
  | x :: rest => fold_left Qmin rest x
  end.

Definition maxOf (xs : list Q) : Q :=
  match xs with
  | [] => 0
  | x :: rest => fold_left Qmax rest x
  end.

(** Determine weights based on user preference. *)
Definition weightsFor (entities : gmap string value) : Weights :=
  if isString entities "budgetPreference" "budget"
  then mkWeights (5#10) (25#100) (15#100) (1#10)
  else if isString entities "budgetPreference" "premium"
  then mkWeights (1#10) (3#10) (2#10) (4#10)
  else mkWeights (3#10) (3#10) (2#10) (2#10).

Definition operatorScores : list (string * Q) :=
  [ ("Indian Railways", 85#100);
    ("MSRTC", 7#10);
    ("RSRTC", 65#100);
    ("KSRTC", 75#100);
    ("APSRTC", 7#10);
    ("UPSRTC", 6#10);
    ("Neeta Travels", 8#10);
    ("Paulo Travels", 85#100);
    ("VRL Travels", 8#10);
    ("Eagle Travels", 7#10);
    ("Orange Travels", 75#100) ].

(** What [scores[operator] || 0.5] evaluates to: a rating, or the member of
    [Object.prototype] the name of the operator finds (a truthy object). *)
Inductive Reputation : Type :=
| Rating (q : Q)
| Member (name : string).

(** Operator reputation scoring: [scores[operator] || 0.5]. *)
Definition getOperatorScore (operator : string) : Reputation :=
  match Js.member operatorScores operator with
  | Js.Own sc => Rating (if Qeq_bool sc 0 then 5#10 else sc)
  | Js.Inherited name => Member name
  | Js.Missing => Rating (5#10)
  end.

(** [ToNumber] of an operand of [*]: a function or a plain object is not a
    number. *)
Definition toNumber (r : Reputation) : number :=
  match r with
  | Rating q => Finite q
  | Member _ => NaN
  end.

(** [x + y] and [x * y] *)
Definition add (x y : number) : number :=
  match x, y with
  | Finite a, Finite b => Finite (a + b)
  | _, _ => NaN
  end.

Definition mul (x y : number) : number :=
  match x, y with
  | Finite a, Finite b => Finite (a * b)
  | _, _ => NaN
  end.

Definition durationOf (route : Route.t) : Q := inject_Z (Route.duration_minutes route).

(** [route.schedules?.length || 0] *)
Definition scheduleCountOf (route : Route.t) : nat :=
  match Route.schedules route with Some ss => length ss | None => O end.

(** Normalize price (0-1, lower is better, inverted). *)
Definition priceScoreOf (minPrice maxPrice : Q) (route : Route.t) : Q :=
  if Qeq_bool maxPrice minPrice then 1
  else 1 - (Route.base_price route - minPrice) / (maxPrice - minPrice).

(** Normalize duration (0-1, shorter is better, inverted). *)
Definition durationScoreOf (minDuration maxDuration : Q) (route : Route.t) : Q :=
  if Qeq_bool maxDuration minDuration then 1
  else 1 - (durationOf route - minDuration) / (maxDuration - minDuration).

(** Schedule score (more departures = more convenient), capped at 5. *)
Definition scheduleScoreOf (route : Route.t) : Q :=
  Qmin (inject_Z (Z.of_nat (scheduleCountOf route)) / 5) 1.

Definition tagsOf (minPrice minDuration : Q) (route : Route.t) : list string :=
  let tags := [] in
  let tags := if Qeq_bool (Route.base_price route) minPrice then tags ++ ["cheapest"] else tags in
  let tags := if Qeq_bool (durationOf route) minDuration then tags ++ ["fastest"] else tags in
  let tags := if Nat.leb 4 (scheduleCountOf route) then tags ++ ["frequent"] else tags in
  tags.

(** Score routes using a multi-factor algorithm. *)
Definition scoreRoutes (routes : list Route.t) (entities : gmap string value)
    : list Route.t :=
  if Nat.eqb (length routes) 0 then routes else
  (* Find min/max for normalization *)
  let prices := List.map Route.base_price routes in
  let durations := List.map durationOf routes in
  let minPrice := minOf prices in
  let maxPrice := maxOf prices in
  let minDuration := minOf durations in
  let maxDuration := maxOf durations in
  let weights := weightsFor entities in
  List.map (fun route =>
    let priceScore := priceScoreOf minPrice maxPrice route in
    let durationScore := durationScoreOf minDuration maxDuration route in
    let scheduleScore := scheduleScoreOf route in
    let operatorScore := getOperatorScore (Route.operator route) in
    (* Calculate weighted score *)
    let score :=
      add (add (add (Finite (price weights * priceScore))
                    (Finite (duration weights * durationScore)))
               (Finite (schedule weights * scheduleScore)))
          (mul (Finite (operator weights)) (toNumber operatorScore)) in
    Route.mk (Route.id route) (Route.mode route) (Route.operator route)
             (Route.route_name route) (Route.base_price route)
             (Route.duration_minutes route) (Route.distance_km route)
             (Route.origin_station route) (Route.dest_station route)
             (Route.schedules route)
             (Some score)
             (Some (tagsOf minPrice minDuration route)))
    routes.

(** The score of a route that has a number for it. *)
Definition scoreOf (route : Route.t) : Q :=
  match Route._score route with
  | Some (Finite q) => q
  | _ => 0
  end.

Definition hasScore (route : Route.t) : bool :=
  match Route._score route with
  | Some (Finite _) => true
  | _ => false
  end.

Fixpoint insertByScore (route : Route.t) (sorted : list Route.t) : list Route.t :=
  match sorted with
  | [] => [route]
  | r :: rest =>
      if Qlt_bool (scoreOf route) (scoreOf r)
      then r :: insertByScore route rest
      else route :: sorted
  end.

(** [routes.sort((a, b) => b._score - a._score)].  Where every score is a
    number the comparator is consistent, and the sort, which is stable, leaves
    the routes descending by score, those of equal score in their input
    order.  Where a score is [NaN] or missing, the differences with it are
    [NaN]: the comparator is not consistent and the language leaves the order
    to the engine, [engineOrder]. *)
Definition sortByScore (engineOrder : list Route.t -> list Route.t)
    (routes : list Route.t) : list Route.t :=
  if forallb hasScore routes then fold_right insertByScore [] routes
  else engineOrder routes.

End RoutePlanner.

(* ====================================================================== *)
(** ** Response generator *)
(* ====================================================================== *)

(** The double quote and the line feed, which a literal here cannot hold. *)
Definition dq : string := String (ascii_of_nat 34) EmptyString.
Definition nl : string := String (ascii_of_nat 10) EmptyString.

(** What the templates ask of the runtime. *)
Record Runtime : Type := mkRuntime {
  (** [String(x)] for a number *)
  numberToString : Q -> string;
  (** [new Date(dateStr + 'T00:00:00').toLocaleDateString('en-IN', ...)] *)
  formatDate : value -> string;
  (** [Math.floor(Math.random() * n)] *)
  random : nat -> nat
}.

(** [`${v}`] for the value read at a key: a missing key is [undefined]. *)
Definition show (v : option value) : string :=
  match v with
  | Some (VStr s) => s
  | Some (VTime _) => "[object Object]"
  | Some VNull => "null"
  | Some VUndefined | None => "undefined"
  | Some (VInherited name) =>
      (* [Object.prototype] itself, or a built-in function as V8 prints it *)
      if String.eqb name "__proto__" then "[object Object]"
      else "function " +:+ (if String.eqb name "constructor" then "Object" else name)
             +:+ "() { [native code] }"
  end.

Definition formatDuration (minutes : Z) : string :=
  let hours := (minutes / 60)%Z in
  let mins := Z.rem minutes 60 in
  if (hours =? 0)%Z then Num.toString mins +:+ "min"
  else if (mins =? 0)%Z then Num.toString hours +:+ "h"
  else Num.toString hours +:+ "h " +:+ Num.toString mins +:+ "min".

(** [xs.reduce((a, b) => better(a, b) ? a : b)] on a list that is not empty. *)
Definition reduceBest (better : Route.t -> Route.t -> bool) (first : Route.t)
    (rest : list Route.t) : Route.t :=
  fold_left (fun a b => if better a b then a else b) rest first.

(** [xs.join(sep)] *)
Fixpoint join (sep : string) (xs : list string) : string :=
  match xs with
  | [] => ""
  | [x] => x
  | x :: rest => x +:+ sep +:+ join sep rest
  end.

Module ResponseGenerator.

Definition greetings : list string :=
  [ "Hello! 👋 I'm ChatWave, your travel planning assistant. I can help you find bus and train routes across India. Where would you like to go?";
    "Hey there! 🌊 Welcome to ChatWave! Tell me about your travel plans — I'll find the best routes for you.";
    "Hi! 🚂🚌 I'm here to help you plan your journey. Just tell me where you're traveling from and to, and I'll find the best options!";
    "Namaste! 🙏 I'm ChatWave, your smart travel companion. Where are you headed today?" ].

Definition goodbyes : list string :=
  [ "Safe travels! 🌊 Feel free to chat anytime you need travel help. Bye!";
    "Goodbye! Have a wonderful journey! 🚂✨";
    "Take care! Come back whenever you need to plan another trip. 👋" ].

Definition thanks : list string :=
  [ "You're welcome! 😊 Let me know if you need anything else for your trip.";
    "Happy to help! 🌟 Have a great journey!";
    "My pleasure! Feel free to ask if you have more travel questions. 🚌🚂" ].

Definition helpMessages : list string :=
  [ "I can help you with:" +:+ nl +:+
    "🔍 **Finding routes** — " +:+ dq +:+ "Find a train from Mumbai to Pune tomorrow" +:+ dq +:+ nl +:+
    "🚂 **Train schedules** — " +:+ dq +:+ "What trains go to Delhi?" +:+ dq +:+ nl +:+
    "🚌 **Bus options** — " +:+ dq +:+ "Show me buses from Bangalore to Chennai" +:+ dq +:+ nl +:+
    "💰 **Price comparison** — " +:+ dq +:+ "What's the cheapest way to get to Goa?" +:+ dq +:+ nl +:+
    "⚡ **Quick search** — " +:+ dq +:+ "Mumbai to Pune tomorrow morning by train" +:+ dq +:+ nl +:+
    nl +:+ "Just type naturally — I understand conversational language! Try something like:" +:+ nl +:+
    "• " +:+ dq +:+ "I want to go from Mumbai to Pune tomorrow morning" +:+ dq +:+ nl +:+
    "• " +:+ dq +:+ "Find buses to Chennai from Bangalore" +:+ dq +:+ nl +:+
    "• " +:+ dq +:+ "What's the fastest train to Delhi?" +:+ dq ].

(** [xs[Math.floor(Math.random() * xs.length)]] *)
Definition pick (rt : Runtime) (xs : list string) : string :=
  default "undefined" (xs !! random rt (length xs)).

Definition generateGreeting (rt : Runtime) : string := pick rt greetings.
Definition generateGoodbye (rt : Runtime) : string := pick rt goodbyes.
Definition generateThanks (rt : Runtime) : string := pick rt thanks.
Definition generateHelp : string := default "undefined" (helpMessages !! 0%nat).

Definition includes (xs : list string) (x : string) : bool :=
  existsb (String.eqb x) xs.

Definition generateMissingInfo (missing : list string) (entities : gmap string value)
    : string :=
  if includes missing "origin" && includes missing "destination" then
    "I'd love to help you plan your trip! 🗺️ Where are you traveling **from** and **to**?"
  else if includes missing "origin" then
    "Great, you want to go to **" +:+ show (entities !! "destination") +:+ "**! Where will you be starting from?"
  else if includes missing "destination" then
    "Got it, you're starting from **" +:+ show (entities !! "origin") +:+ "**! Where would you like to go?"
  else "Could you tell me more about your travel plans?".

Definition generateNoResults (entities : gmap string value) : string :=
  let response := "😔 I couldn't find any direct routes from **" +:+ (if truthyAt entities "origin" then show (entities !! "origin") else "your origin") +:+ "** to **" +:+ (if truthyAt entities "destination" then show (entities !! "destination") else "your destination") +:+ "**" in
  let response :=
    match entities !! "mode" with
    | Some m =>
        if truthy m && negb (isString entities "mode" "any")
        then response +:+ " by " +:+ show (Some m) else response
    | None => response
    end in
  let response := response +:+ "." +:+ nl +:+ nl in
  let response := response +:+ "Here are some suggestions:" +:+ nl in
  let response := response +:+ "• Try searching without specifying a transport mode" +:+ nl in
  let response := response +:+ "• Check if the city names are correct" +:+ nl in
  let response := response +:+ "• Look for routes to nearby cities" +:+ nl +:+ nl in
  let response := response +:+ "Available cities: Mumbai, Delhi, Pune, Bangalore, Chennai, Hyderabad, Kolkata, Jaipur, Ahmedabad, Goa, Lucknow" in
  response.

Definition scheduleLine (s : Schedule) : string :=
  let platformStr :=
    match platform s with
    | Some p => if Js.nonEmpty p then " (Platform " +:+ p +:+ ")" else ""
    | None => ""
    end in
  departure_time s +:+ " → " +:+ arrival_time s +:+ platformStr.

Definition routeBlock (rt : Runtime) (index : nat) (route : Route.t) : string :=
  let modeIcon := if String.eqb (Route.mode route) "train" then "🚂" else "🚌" in
  let duration := formatDuration (Route.duration_minutes route) in
  let response := "**" +:+ Num.toString (Z.of_nat (index + 1)) +:+ ". " +:+ modeIcon +:+ " " +:+ Route.route_name route +:+ "** — " +:+ Route.operator route +:+ nl in
  let response := response +:+ "   ⏱️ Duration: " +:+ duration +:+ " | 💰 ₹" +:+ numberToString rt (Route.base_price route) +:+ nl in
  let response :=
    match Route.schedules route with
    | Some ((_ :: _) as ss) =>
        let scheduleStr := join " | " (List.map scheduleLine ss) in
        response +:+ "   🕐 Departures: " +:+ scheduleStr +:+ nl
    | _ => response
    end in
  let response :=
    match Route.distance_km route with
    | Some d => if Qeq_bool d 0 then response else response +:+ "   📏 Distance: " +:+ numberToString rt d +:+ " km" +:+ nl
    | None => response
    end in
  response +:+ nl.

Definition generateRouteResults (rt : Runtime) (routes : list Route.t)
    (entities : gmap string value) : string :=
  match routes with
  | [] => generateNoResults entities
  | first :: rest =>
      let origin := entities !! "origin" in
      let destination := entities !! "destination" in
      let dateStr :=
        match entities !! "date" with
        | Some d => if truthy d then " on **" +:+ formatDate rt d +:+ "**" else ""
        | None => ""
        end in
      let modeStr :=
        match entities !! "mode" with
        | Some m => if truthy m && negb (isString entities "mode" "any") then " by **" +:+ show (Some m) +:+ "**" else ""
        | None => ""
        end in
      let response := "🎯 Found **" +:+ Num.toString (Z.of_nat (length routes)) +:+ " route" +:+ (if Nat.ltb 1 (length routes) then "s" else "") +:+ "** from **" +:+ show origin +:+ "** to **" +:+ show destination +:+ "**" +:+ modeStr +:+ dateStr +:+ ":" +:+ nl +:+ nl in
      let response :=
        fold_left (fun response '(index, route) => response +:+ routeBlock rt index route)
                  (imap (fun index route => (index, route)) routes) response in
      (* Add recommendation *)
      let cheapest :=
        reduceBest (fun a b => Qlt_bool (Route.base_price a) (Route.base_price b)) first rest in
      let fastest :=
        reduceBest (fun a b => (Route.duration_minutes a <? Route.duration_minutes b)%Z) first rest in
      let response := response +:+ "---" +:+ nl in
      let response := response +:+ "💡 **Recommendation:** " in
      let response :=
        if String.eqb (Route.id cheapest) (Route.id fastest)
        then response +:+ "**" +:+ Route.route_name cheapest +:+ "** is both the cheapest (₹" +:+ numberToString rt (Route.base_price cheapest) +:+ ") and fastest (" +:+ formatDuration (Route.duration_minutes cheapest) +:+ ")!"
        else response +:+ "Cheapest: **" +:+ Route.route_name cheapest +:+ "** at ₹" +:+ numberToString rt (Route.base_price cheapest) +:+ " | Fastest: **" +:+ Route.route_name fastest +:+ "** in " +:+ formatDuration (Route.duration_minutes fastest) in
      response +:+ nl +:+ nl +:+ "Would you like more details about any route, or want to search for a different trip?"
  end.

Definition generateUnknown (rt : Runtime) : string :=
  pick rt
  [ "I'm not sure I understood that. Could you rephrase? I'm great at finding bus and train routes! Try: " +:+ dq +:+ "Find a train from Mumbai to Pune" +:+ dq;
    "Hmm, I didn't quite catch that. 🤔 Tell me where you'd like to travel, and I'll find the best routes for you!";
    "I specialize in travel planning! Try asking me something like " +:+ dq +:+ "What buses go from Delhi to Jaipur tomorrow?" +:+ dq ].

End ResponseGenerator.

(* ====================================================================== *)
(** ** services/chatService.js *)
(* ====================================================================== *)

(** The outcome of a call that may throw. *)
Inductive Result (A : Type) : Type :=
| Ok (a : A)
| Throw (error : string).
Arguments Ok {A} a.
Arguments Throw {A} error.

Record Metadata : Type := mkMetadata {
  md_intent : option Intent;
  md_confidence : option Q;
  md_entities : option (gmap string value);
  md_routes : option (option (list Route.t))   (* [Some None] is [routes: null] *)
}.

(** [{}] *)
Definition noMetadata : Metadata := mkMetadata None None None None.

(** The value [processMessage] resolves to. *)
Record Reply : Type := mkReply {
  text : string;
  metadata : Metadata;
  sessionId : string
}.

(** The options object of [searchRoutes]. *)
Record SearchOptions : Type := mkSearchOptions {
  timePreference : option value;
  date : option value;
  budgetPreference : option value
}.

(** The collaborators of the service, over a database state [D]: the route
    lookup of the transport service and the SQL helpers of [database/init.js],
    each of which may throw, and what the code draws from the runtime. *)
Record Host (D : Type) : Type := mkHost {
  runtime : Runtime;
  (** the clock reading when the message arrives *)
  now : Clock;
  (** [new Date().toISOString()] when the response is ready *)
  replyTime : string;
  uuidv4 : D -> string;
  (** [JSON.stringify(metadata)] *)
  stringify : Metadata -> string;
  (** [transportService.searchRoutes(origin, destination, mode, options)] *)
  searchRoutes : value -> value -> value -> SearchOptions -> D -> Result (list Route.t);
  (** [queryOne(sql, params)]: the id of the row found, or [null] *)
  queryOne : string -> list string -> D -> Result (option string);
  (** [runSql(sql, params)] *)
  runSql : string -> list string -> D -> Result () * D;
  (** [Array.prototype.sort] on routes whose scores are not all numbers *)
  engineSort : list Route.t -> list Route.t
}.
Arguments runtime {D} _.
Arguments now {D} _.
Arguments replyTime {D} _.
Arguments uuidv4 {D} _ _.
Arguments stringify {D} _ _.
Arguments searchRoutes {D} _ _ _ _ _ _.
Arguments queryOne {D} _ _ _ _.
Arguments runSql {D} _ _ _ _.
Arguments engineSort {D} _ _.

(** What a call of the service can read and change. *)
Record World (D : Type) : Type := mkWorld {
  sessions : gmap string Session.t;   (* [this.context.sessions] *)
  database : D;
  console : list string               (* the lines of [console.error] *)
}.
Arguments mkWorld {D} _ _ _.
Arguments sessions {D} _.
Arguments database {D} _.
Arguments console {D} _.

(** Computations of the service: they change the world and return or throw. *)
Definition M (D A : Type) : Type := World D -> Result A * World D.

Definition ret {D A : Type} (a : A) : M D A := fun w => (Ok a, w).

Definition bind {D A B : Type} (m : M D A) (k : A -> M D B) : M D B :=
  fun w =>
    match m w with
    | (Ok a, w') => k a w'
    | (Throw e, w') => (Throw e, w')
    end.

(** [try { body } catch (error) { handler(error.message) }] *)
Definition tryCatch {D A : Type} (body : M D A) (handler : string -> M D A) : M D A :=
  fun w =>
    match body w with
    | (Ok a, w') => (Ok a, w')
    | (Throw e, w') => handler e w'
    end.

Notation "'let*' x ':=' m 'in' k" := (bind m (fun x => k))
  (at level 10, x pattern, m at level 100, k at level 200, only parsing).

Module ChatService.
Section WithHost.

Context {D : Type} (host : Host D).

Let rt : Runtime := runtime host.

(** The methods of [this.context], run on the sessions of the world. *)
Definition onContext {A : Type}
    (f : gmap string Session.t -> A * gmap string Session.t) : M D A :=
  fun w => let '(a, s) := f (sessions w) in (Ok a, mkWorld s (database w) (console w)).

Definition getContext (sessionId : string) : M D Session.t :=
  onContext (ConversationContext.getContext sessionId).

Definition updateContext (sessionId : string) (updates : Updates) : M D Session.t :=
  onContext (ConversationContext.updateContext sessionId updates).

Definition clearContext (sessionId : string) : M D () :=
  onContext (fun s => (tt, ConversationContext.clearContext sessionId s)).

Definition getMissingEntities (sessionId : string) : M D (list string) :=
  onContext (ConversationContext.getMissingEntities sessionId).

(** The helpers of the database module. *)
Definition dbQueryOne (sql : string) (params : list string) : M D (option string) :=
  fun w => (queryOne host sql params (database w), w).

Definition dbRunSql (sql : string) (params : list string) : M D () :=
  fun w => let '(r, d) := runSql host sql params (database w) in
           (r, mkWorld (sessions w) d (console w)).

Definition consoleError (line : string) : M D () :=
  fun w => (Ok tt, mkWorld (sessions w) (database w) (console w ++ [line])).

(** [routePlanner.planRoutes(entities)], of which the service reads the
    ranked routes. *)
Definition planRoutes (entities : gmap string value) : M D (list Route.t) :=
  if negb (truthyAt entities "origin") || negb (truthyAt entities "destination")
  then ret []
  else
    let origin := default VUndefined (entities !! "origin") in
    let destination := default VUndefined (entities !! "destination") in
    let mode := if truthyAt entities "mode"
                then default VUndefined (entities !! "mode") else VStr "any" in
    let options := mkSearchOptions (entities !! "timePreference") (entities !! "date")
                                   (entities !! "budgetPreference") in
    (* Search for matching routes *)
    let* routes := (fun w => (searchRoutes host origin destination mode options (database w), w)) in
    (* Score and rank routes *)
    let routes := RoutePlanner.scoreRoutes routes entities in
    (* Sort by score (descending, higher is better) *)
    ret (RoutePlanner.sortByScore (engineSort host) routes).

Definition handleTravelQuery (sessionId : string) (entities : gmap string value)
    (intent : Intent) : M D string :=
  let* missing := getMissingEntities sessionId in
  if Nat.ltb 0 (length missing) then
    let* _ := updateContext sessionId (mkUpdates None None (Some collecting_info) None None) in
    ret (ResponseGenerator.generateMissingInfo missing entities)
  else
    let* _ := updateContext sessionId (mkUpdates None None (Some showing_results) None None) in
    let* routes := planRoutes entities in
    let* _ := updateContext sessionId (mkUpdates None None None (Some routes) None) in
    ret (ResponseGenerator.generateRouteResults rt routes entities).

Definition routeIcon (route : Route.t) : string :=
  if String.eqb (Route.mode route) "train" then "ðŸš‚" else "ðŸšŒ".

Definition comparisonRow (i : nat) (route : Route.t) : string :=
  let icon := routeIcon route in
  let dur := Num.toString (Route.duration_minutes route / 60)%Z +:+ "h " +:+ Num.toString (Z.rem (Route.duration_minutes route) 60) +:+ "m" in
  let deps := RoutePlanner.scheduleCountOf route in
  "| " +:+ Num.toString (Z.of_nat (i + 1)) +:+ " | " +:+ icon +:+ " " +:+ Route.route_name route +:+ " | " +:+ Route.mode route +:+ " | â‚¹" +:+ numberToString rt (Route.base_price route) +:+ " | " +:+ dur +:+ " | " +:+ Num.toString (Z.of_nat deps) +:+ "/day |" +:+ nl.

Definition generateComparison (routes : list Route.t) : string :=
  if Nat.ltb (length routes) 2 then
    "I only found one route, so there's nothing to compare. Would you like to search for a different trip?"
  else
    let response := "ðŸ“Š **Route Comparison:**" +:+ nl +:+ nl in
    let response := response +:+ "| # | Route | Mode | Price | Duration | Departures |" +:+ nl in
    let response := response +:+ "|---|-------|------|-------|----------|------------|" +:+ nl in
    let response :=
      fold_left (fun response '(i, route) => response +:+ comparisonRow i route)
                (imap (fun i route => (i, route)) routes) response in
    response +:+ nl +:+ "Which option interests you? Or would you like me to recommend the best one?".

Definition handleCompareRoutes (sessionId : string) (entities : gmap string value)
    : M D string :=
  let* ctx := getContext sessionId in
  match Session.lastRoutes ctx with
  | Some ((_ :: _) as routes) => ret (generateComparison routes)
  | _ =>
      if truthyAt entities "origin" && truthyAt entities "destination"
      then handleTravelQuery sessionId entities COMPARE_ROUTES
      else ret ("I don't have any routes to compare yet. Tell me where you'd like to go, and I'll find options to compare!")
  end.

Definition handlePreference (sessionId : string) (entities : gmap string value)
    : M D string :=
  let* ctx := getContext sessionId in
  if truthyAt entities "origin" && truthyAt entities "destination"
  then handleTravelQuery sessionId entities TRAVEL_SEARCH
  else
    let response := "Got it! I've noted your preferences" in
    let prefs := [] in
    let prefs := if truthyAt entities "mode" then prefs ++ ["transport: " +:+ show (entities !! "mode")] else prefs in
    let prefs := if truthyAt entities "budgetPreference" then prefs ++ ["budget: " +:+ show (entities !! "budgetPreference")] else prefs in
    let prefs := if truthyAt entities "seatClass" then prefs ++ ["class: " +:+ show (entities !! "seatClass")] else prefs in
    let response := if Nat.ltb 0 (length prefs) then response +:+ " (" +:+ join ", " prefs +:+ ")" else response in
    ret (response +:+ ". Now tell me where you'd like to travel!").

Definition departureLine (s : Schedule) : string :=
  let response := "   â€¢ " +:+ departure_time s +:+ " â†’ " +:+ arrival_time s in
  let response :=
    match platform s with
    | Some p => if Js.nonEmpty p then response +:+ " (Platform " +:+ p +:+ ")" else response
    | None => response
    end in
  response +:+ nl.

(** The detail card of a selected route. *)
Definition detailCard (route : Route.t) : string :=
  let icon := routeIcon route in
  let response := "Great choice! Here are the details for **" +:+ Route.route_name route +:+ "** " +:+ icon +:+ ":" +:+ nl +:+ nl in
  let response := response +:+ "ðŸ“ **Route:** " +:+ Route.origin_station route +:+ " â†’ " +:+ Route.dest_station route +:+ nl in
  let response := response +:+ "ðŸ¢ **Operator:** " +:+ Route.operator route +:+ nl in
  let response := response +:+ "ðŸ’° **Price:** â‚¹" +:+ numberToString rt (Route.base_price route) +:+ nl in
  let response := response +:+ "â±ï¸ **Duration:** " +:+ Num.toString (Route.duration_minutes route / 60)%Z +:+ "h " +:+ Num.toString (Z.rem (Route.duration_minutes route) 60) +:+ "m" +:+ nl in
  let response :=
    match Route.distance_km route with
    | Some d => if Qeq_bool d 0 then response else response +:+ "ðŸ“ **Distance:** " +:+ numberToString rt d +:+ " km" +:+ nl
    | None => response
    end in
  let response :=
    match Route.schedules route with
    | Some ((_ :: _) as ss) =>
        fold_left (fun response s => response +:+ departureLine s) ss
                  (response +:+ nl +:+ "ðŸ• **Available Departures:**" +:+ nl)
    | _ => response
    end in
  response +:+ nl +:+ "âœ¨ Would you like to plan another trip or need any other help?".

Definition nothingToSelect : string :=
  "I don't have any routes to select from. Would you like to search for a trip?".

(** The re-prompt, which states the valid range [1-n]. *)
Definition selectPrompt (n : nat) : string :=
  "Please select a valid option (1-" +:+ Num.toString (Z.of_nat n) +:+ "). Which route would you like?".

Definition handleRouteSelection (sessionId message : string) : M D string :=
  let* ctx := getContext sessionId in
  match Session.lastRoutes ctx with
  | None | Some [] => ret nothingToSelect
  | Some routes =>
      match RegExp.exec (re "(\d+)") message with
      | Some numMatch =>
          match Num.parseInt (default "" (RegExp.group numMatch 1)) with
          | Some n =>
              let idx := (n - 1)%Z in
              if (0 <=? idx)%Z && (idx <? Z.of_nat (length routes))%Z then
                match routes !! Z.to_nat idx with
                | Some route => ret (detailCard route)
                | None => ret (selectPrompt (length routes))
                end
              else ret (selectPrompt (length routes))
          | None => ret (selectPrompt (length routes))
          end
      | None => ret (selectPrompt (length routes))
      end
  end.

Definition saveMessage (sessionId role content : string) (metadata : Metadata) : M D () :=
  tryCatch
    (let* session := dbQueryOne "SELECT id FROM sessions WHERE id = ?" [sessionId] in
     let* _ :=
       match session with
       | Some _ => ret tt
       | None => dbRunSql "INSERT INTO sessions (id, title) VALUES (?, ?)" [sessionId; "Travel Planning"]
       end in
     let* id := (fun w => (Ok (uuidv4 host (database w)), w)) in
     dbRunSql "INSERT INTO messages (id, session_id, role, content, metadata) VALUES (?, ?, ?, ?, ?)"
              [id; sessionId; role; content; stringify host metadata])
    (fun message => consoleError ("Failed to save message:" +:+ " " +:+ message)).

Definition withRoutes (metadata : Metadata) (routes : option (list Route.t)) : Metadata :=
  mkMetadata (md_intent metadata) (md_confidence metadata) (md_entities metadata)
             (Some routes).

Definition processMessage (sessionId message : string) : M D Reply :=
  let* ctx := getContext sessionId in
  let entities := extractEntities (now host) message (Session.entities ctx) in
  let detection := detectIntent message entities in
  let intent := intent detection in
  let confidence := confidence detection in
  let* _ := updateContext sessionId
              (mkUpdates (Some entities) (Some intent) None None
                         (Some (mkMessage "user" message (isoNow (now host))))) in
  let metadata := mkMetadata (Some intent) (Some confidence) (Some entities) None in
  let* answer :=
    match intent with
    | GREETING =>
        let response := ResponseGenerator.generateGreeting rt in
        let* _ := updateContext sessionId (mkUpdates None None (Some idle) None None) in
        ret (response, metadata)
    | HELP => ret (ResponseGenerator.generateHelp, metadata)
    | GOODBYE =>
        let response := ResponseGenerator.generateGoodbye rt in
        let* _ := clearContext sessionId in
        ret (response, metadata)
    | THANKS => ret (ResponseGenerator.generateThanks rt, metadata)
    | TRAVEL_SEARCH | SCHEDULE_QUERY | PRICE_QUERY =>
        let* response := handleTravelQuery sessionId entities intent in
        let* ctx := getContext sessionId in
        ret (response, withRoutes metadata (Session.lastRoutes ctx))
    | COMPARE_ROUTES =>
        let* response := handleCompareRoutes sessionId entities in
        ret (response, metadata)
    | ROUTE_PREFERENCE =>
        let* response := handlePreference sessionId entities in
        ret (response, metadata)
    | SELECT_ROUTE =>
        let* response := handleRouteSelection sessionId message in
        ret (response, metadata)
    | UNKNOWN =>
        if truthyAt entities "origin" && truthyAt entities "destination" then
          let* response := handleTravelQuery sessionId entities TRAVEL_SEARCH in
          let* ctx := getContext sessionId in
          ret (response, withRoutes metadata (Session.lastRoutes ctx))
        else ret (ResponseGenerator.generateUnknown rt, metadata)
    end in
  let '(response, metadata) := answer in
  let* _ := updateContext sessionId
              (mkUpdates None None None None
                         (Some (mkMessage "assistant" response (replyTime host)))) in
  let* _ := saveMessage sessionId "user" message metadata in
  let* _ := saveMessage sessionId "assistant" response noMetadata in
  ret (mkReply response metadata sessionId).

End WithHost.
End ChatService.

(* ====================================================================== *)
(** ** Notions the properties are stated with *)
(* ====================================================================== *)

(** *** Intent detection *)

(** The patterns declared for an intent. *)
Definition lookupPatterns (i : Intent) : option (list RegExp.t) :=
  snd <$> List.find (fun kv => bool_decide (fst kv = i)) INTENT_PATTERNS.

Definition patternsOf (i : Intent) : list RegExp.t := default [] (lookupPatterns i).

(** The intents that have patterns, in declaration order. *)
Definition declaredIntents : list Intent := List.map fst INTENT_PATTERNS.

(** *** City resolution *)


(** Every character of a string passes a test. *)
Fixpoint everyChar (p : ascii -> bool) (s : string) : bool :=
  match s with
  | EmptyString => true
  | String c s' => p c && everyChar p s'
  end.

(** A lower-case letter or white space: what is left of a text once
    [resolveCity] has cleaned it. *)
Definition isCleaned (c : ascii) : bool := Js.between 97 122 c || Js.isSpace c.

(** *** Entities *)

(** Every entry of a record is truthy. *)
Definition allTruthy (o : gmap string value) : Prop :=
  forall key v, o !! key = Some v -> truthy v = true.

(** *** Scoring *)

(** A number between 0 and 1. *)
Definition unit_interval (x : Q) : Prop := (0 <= x /\ x <= 1)%Q.

(** *** Selection, in the words of the specification *)

(** The first integer literal of a text is its first maximal run of
    decimal digits. *)
Fixpoint takeDigits (s : string) : string :=
  match s with
  | String c s' => if Js.isDigit c then String c (takeDigits s') else EmptyString
  | EmptyString => EmptyString
  end.

Fixpoint firstIntegerLiteral (s : string) : option string :=
  match s with
  | EmptyString => None
  | String c s' => if Js.isDigit c then Some (takeDigits s) else firstIntegerLiteral s'
  end.

(** The number a run of decimal digits denotes. *)
Fixpoint decimalFrom (acc : Z) (ds : string) : Z :=
  match ds with
  | EmptyString => acc
  | String c ds' => decimalFrom (10 * acc + Z.of_N (Js.code c - 48)) ds'
  end.

Definition firstInteger (s : string) : option Z :=
  decimalFrom 0 <$> firstIntegerLiteral s.

(** What a selection turn decides. *)
Inductive Selection : Type :=
| NothingToSelect
| Reprompt (n : nat)              (* the valid range is 1..n *)
| Detail (route : Route.t).

(** The first integer literal, read as a 1-based index into lastRoutes. *)
Definition selectionOf (lastRoutes : option (list Route.t)) (message : string) : Selection :=
  match lastRoutes with
  | None | Some [] => NothingToSelect
  | Some routes =>
      match firstInteger message with
      | Some n =>
          if (1 <=? n)%Z && (n <=? Z.of_nat (length routes))%Z
          then match routes !! Z.to_nat (n - 1) with
               | Some route => Detail route
               | None => Reprompt (length routes)
               end
          else Reprompt (length routes)
      | None => Reprompt (length routes)
      end
  end.

(** The text of each outcome of a selection turn. *)
Definition renderSelection {D : Type} (host : Host D) (s : Selection) : string :=
  match s with
  | NothingToSelect => ChatService.nothingToSelect
  | Reprompt n => ChatService.selectPrompt n
  | Detail route => ChatService.detailCard host route
  end.

(** The pattern [(\d+)] as the matcher reads it. *)
Definition digitsPattern : RegExp.regex :=
  RegExp.Group 1 (RegExp.Repeat 1 None true (RegExp.Class false [RegExp.CDigit])).

Definition startsWithDigit (s : string) : bool :=
  match s with String c _ => Js.isDigit c | EmptyString => false end.

(** The state of the matcher once the digits at the head of the text are
    consumed. *)
Fixpoint afterDigits (prev : option ascii) (s : string) (pos : nat)
    (caps : list (nat * string)) : RegExp.mstate :=
  match s with
  | String c s' =>
      if Js.isDigit c then afterDigits (Some c) s' (S pos) caps
      else RegExp.MState prev s pos caps
  | EmptyString => RegExp.MState prev s pos caps
  end.

Fixpoint allDigits (s : string) : bool :=
  match s with
  | EmptyString => true
  | String c s' => Js.isDigit c && allDigits s'
  end.

(** *** Sessions *)

(** The session of an id as [getContext] gives it: a new one if none is stored. *)
Definition sessionOf {D : Type} (sessionId : string) (w : World D) : Session.t :=
  fst (ConversationContext.getContext sessionId (sessions w)).

Definition turnsOf {D : Type} (sessionId : string) (w : World D) : nat :=
  Session.turnCount (sessionOf sessionId w).

(** The session [updateContext] leaves. *)
Definition updated (updates : Updates) (ctx : Session.t) : Session.t :=
  Session.mk
    (match u_entities updates with
     | Some e => e ∪ Session.entities ctx
     | None => Session.entities ctx
     end)
    (match u_lastIntent updates with
     | Some i => Some i
     | None => Session.lastIntent ctx
     end)
    (S (Session.turnCount ctx))
    (match u_message updates with
     | Some message => ConversationContext.pushHistory message (Session.history ctx)
     | None => Session.history ctx
     end)
    (match u_lastRoutes updates with
     | Some rs => Some rs
     | None => Session.lastRoutes ctx
     end)
    (default (Session.state ctx) (u_state updates)).

(** How far a computation moves the counter of a session: by [lo] to [hi]
    when it returns, by [thrown] when it throws. *)
Definition moves {D A : Type} (sessionId : string) (m : M D A) (w : World D)
    (lo hi thrown : nat) : Prop :=
  match fst (m w) with
  | Ok _ => turnsOf sessionId w + lo <= turnsOf sessionId (snd (m w)) <= turnsOf sessionId w + hi
  | Throw _ => turnsOf sessionId (snd (m w)) = turnsOf sessionId w + thrown
  end.

(** What the caller of a computation sees of it, with the sessions it leaves. *)
Definition observed {D A : Type} (out : Result A * World D)
    : Result A * gmap string Session.t :=
  (fst out, sessions (snd out)).

(** The host with other SQL helpers. *)
Definition withPersistence {D : Type} (host : Host D)
    (queryOne' : string -> list string -> D -> Result (option string))
    (runSql' : string -> list string -> D -> Result () * D) : Host D :=
  mkHost D (runtime host) (now host) (replyTime host) (uuidv4 host) (stringify host)
         (searchRoutes host) queryOne' runSql' (engineSort host).

(** *** Sample data *)

Module Example.

(** A Monday; dates are shown as offsets from it. *)
Definition clock : Clock :=
  mkClock 1 (fun n => "+" +:+ Num.toString n)
            (fun month day => Num.toString day +:+ "/" +:+ Num.toString (month + 1))
            "2024-01-01T09:00:00.000Z".

(** Numbers are shown by their integer part, dates as they are stored, and
    the first canned text is always drawn. *)
Definition rt : Runtime :=
  mkRuntime (fun x => Num.toString (Qfloor x)) (fun v => show (Some v)) (fun _ => O).

Definition mumbaiPune : gmap string value :=
  <["destination" := VStr "Pune"]> {["origin" := VStr "Mumbai"]}.

Definition deccan : Route.t :=
  Route.mk "r1" "train" "Indian Railways" "Deccan Express" 350 195 (Some 192%Q)
           "Mumbai CST" "Pune Junction"
           (Some [mkSchedule "07:00" "10:15" (Some "5")]) None None.

Definition shivneri : Route.t :=
  Route.mk "r2" "bus" "MSRTC" "Shivneri" 450 210 None
           "Dadar" "Swargate"
           (Some [mkSchedule "08:00" "11:30" None]) None None.

(** A host whose database is the list of the statements run so far; the
    lookup finds [routes]; with [diskFull] every SQL helper throws; routes
    without a number for a score are left in the order they come in. *)
Definition host (routes : list Route.t) (diskFull : bool) : Host (list string) :=
  mkHost (list string) rt clock "2024-01-01T09:00:01.000Z"
         (fun d => "m" +:+ Num.toString (Z.of_nat (length d)))
         (fun _ => "{}")
         (fun _ _ _ _ _ => Ok routes)
         (fun _ _ _ => if diskFull then Throw "disk full" else Ok None)
         (fun sql _ d => if diskFull then (Throw "disk full", d) else (Ok tt, d ++ [sql]))
         (fun routes => routes).

(** A service that has seen no message yet. *)
Definition start : World (list string) := mkWorld ∅ [] [].

(** The world after the messages of a list, in turn. *)
Definition after (h : Host (list string)) (sessionId : string) (messages : list string)
    : World (list string) :=
  fold_left (fun w message => snd (ChatService.processMessage h sessionId message w))
            messages start.

End Example.

(* ====================================================================== *)
(** ** More of services/routePlanner.js: the recommendations *)
(* ====================================================================== *)

Module Recommendation.
Record t : Type := mk {
  type : string;
  routeId : option string;   (* the time note names no route *)
  text : string
}.
End Recommendation.

Definition formatDurationShort (minutes : Z) : string :=
  let h := (minutes / 60)%Z in
  let m := Z.rem minutes 60 in
  if (h =? 0)%Z then Num.toString m +:+ "min"
  else if (m =? 0)%Z then Num.toString h +:+ "h"
  else Num.toString h +:+ "h " +:+ Num.toString m +:+ "m".

(** [entities.timePreference.label] *)
Definition labelOf (v : value) : string :=
  match v with
  | VTime t => label t
  | _ => "undefined"
  end.

(** [routes.reduce((a, b) => a.base_price < b.base_price ? a : b)] *)
Definition cheapestOf (first : Route.t) (rest : list Route.t) : Route.t :=
  reduceBest (fun a b => Qlt_bool (Route.base_price a) (Route.base_price b)) first rest.

(** [routes.reduce((a, b) => a.duration_minutes < b.duration_minutes ? a : b)] *)
Definition fastestOf (first : Route.t) (rest : list Route.t) : Route.t :=
  reduceBest (fun a b => (Route.duration_minutes a <? Route.duration_minutes b)%Z) first rest.

(** Generate smart recommendations. *)
Definition generateRecommendations (rt : Runtime) (routes : list Route.t)
    (entities : gmap string value) : list Recommendation.t :=
  match routes with
  | [] => []
  | bestScored :: rest =>     (* already sorted by score *)
      let recommendations := [] in
      let cheapest := cheapestOf bestScored rest in
      let fastest := fastestOf bestScored rest in
      let recommendations :=
        if negb (String.eqb (Route.id cheapest) (Route.id fastest)) then
          recommendations ++
          [ Recommendation.mk "cheapest" (Some (Route.id cheapest))
              ("ğŸ’° Save money with **" +:+ Route.route_name cheapest +:+ "** â€” only â‚¹" +:+ numberToString rt (Route.base_price cheapest));
            Recommendation.mk "fastest" (Some (Route.id fastest))
              ("âš¡ Get there fastest with **" +:+ Route.route_name fastest +:+ "** â€” " +:+ formatDurationShort (Route.duration_minutes fastest)) ]
        else recommendations in
      let recommendations :=
        if negb (String.eqb (Route.id bestScored) (Route.id cheapest)) &&
           negb (String.eqb (Route.id bestScored) (Route.id fastest)) then
          recommendations ++
          [ Recommendation.mk "best_value" (Some (Route.id bestScored))
              ("ğŸŒŸ Best overall: **" +:+ Route.route_name bestScored +:+ "** â€” great balance of price, speed, and comfort") ]
        else recommendations in
      (* Time-specific recommendations *)
      match entities !! "timePreference" with
      | Some tp =>
          if truthy tp then
            let matching :=
              List.filter (fun r => match Route.schedules r with
                                    | Some (_ :: _) => true
                                    | _ => false
                                    end) routes in
            if Nat.ltb 0 (length matching) then
              recommendations ++
              [ Recommendation.mk "time_match" None
                  ("ğŸ• " +:+ Num.toString (Z.of_nat (length matching)) +:+ " route(s) available for " +:+ labelOf tp +:+ " departure") ]
            else recommendations
          else recommendations
      | None => recommendations
      end
  end.

(* ====================================================================== *)
(** ** More notions the properties are stated with *)
(* ====================================================================== *)

(** The canonical city names, in the order of the alias table. *)
Definition canonicalCities : list string :=
  [ "Mumbai"; "Delhi"; "Pune"; "Bangalore"; "Chennai"; "Hyderabad"; "Kolkata";
    "Jaipur"; "Ahmedabad"; "Goa"; "Lucknow" ].

(** What [resolveCity] gives for a city: a canonical name or, for the text
    "constructor", the function every object inherits under that name. *)
Definition cityValue (v : value) : Prop :=
  (exists city, v = VStr city /\ In city canonicalCities) \/
  v = VInherited "constructor".

(** The values a slot takes when it is extracted from a message. *)
Definition slotValue (key : string) (v : value) : Prop :=
  ((key = "origin" \/ key = "destination") /\ cityValue v) \/
  (key = "mode" /\ In v [VStr "train"; VStr "bus"; VStr "any"]) \/
  (key = "date" /\ exists iso, v = VStr iso /\ iso <> EmptyString) \/
  (key = "timePreference" /\ exists t, v = VTime t) \/
  (key = "seatClass" /\
     In v [VStr "first"; VStr "second"; VStr "sleeper"; VStr "ac"; VStr "general"]) \/
  (key = "budgetPreference" /\ In v [VStr "budget"; VStr "premium"; VStr "balanced"]).

(** Every entry of a record is a slot with a value of its kind. *)
Definition allSlots (o : gmap string value) : Prop :=
  forall key v, o !! key = Some v -> slotValue key v.

(** Origin or destination is present, as the code tests it. *)
Definition located (entities : gmap string value) : bool :=
  truthyAt entities "origin" || truthyAt entities "destination".

(** No session holds more than 20 turns. *)
Definition historyBounded (sessions : gmap string Session.t) : Prop :=
  forall id ctx, sessions !! id = Some ctx -> length (Session.history ctx) <= 20.

(** A computation keeps a property of the sessions, however it ends. *)
Definition keeps {D A : Type} (P : gmap string Session.t -> Prop) (m : M D A) : Prop :=
  forall w, P (sessions w) -> P (sessions (snd (m w))).

(** A property of the sessions that every method of the context keeps when
    it is called for [sessionId]. *)
Definition closedUnder (sessionId : string) (P : gmap string Session.t -> Prop) : Prop :=
  (forall s, P s -> P (snd (ConversationContext.getContext sessionId s))) /\
  (forall updates s,
     P s -> P (snd (ConversationContext.updateContext sessionId updates s))) /\
  (forall s, P s -> P (ConversationContext.clearContext sessionId s)).

(** A property of the sessions that reading the session [sessionId], or
    setting its phase or its routes, keeps. *)
Definition keptByHandlers (sessionId : string) (P : gmap string Session.t -> Prop) : Prop :=
  (forall s, P s -> P (snd (ConversationContext.getContext sessionId s))) /\
  (forall state lastRoutes s,
     P s -> P (snd (ConversationContext.updateContext sessionId
                      (mkUpdates None None state lastRoutes None) s))).

(** The intent [processMessage] detects for a message in a world. *)
Definition detectedIntent {D : Type} (host : Host D) (sessionId message : string)
    (w : World D) : Intent :=
  intent (detectIntent message
            (extractEntities (now host) message (Session.entities (sessionOf sessionId w)))).

(** The sessions once [processMessage] has recorded the user turn. *)
Definition heardSessions {D : Type} (host : Host D) (sessionId message : string)
    (w : World D) : gmap string Session.t :=
  let entities :=
    extractEntities (now host) message (Session.entities (sessionOf sessionId w)) in
  snd (ConversationContext.updateContext sessionId
         (mkUpdates (Some entities) (Some (intent (detectIntent message entities))) None None
                    (Some (mkMessage "user" message (isoNow (now host)))))
         (snd (ConversationContext.getContext sessionId (sessions w)))).



(** The tags of a scored route, none while it has not been scored. *)
Definition tagged (tag : string) (route : Route.t) : Prop :=
  exists tags, Route._tags route = Some tags /\ In tag tags.

(** The kind and the route of each recommendation, without the texts. *)
Definition callouts (recommendations : list Recommendation.t)
    : list (string * option string) :=
  List.map (fun r => (Recommendation.type r, Recommendation.routeId r)) recommendations.

(** [route] is the last of the routes of [routes] with the least [key]. *)
Definition lastLeast {K : Type} (le lt : K -> K -> Prop) (key : Route.t -> K)
    (route : Route.t) (routes : list Route.t) : Prop :=
  exists before after,
    routes = before ++ route :: after /\
    (forall r, In r before -> le (key route) (key r)) /\
    (forall r, In r after -> lt (key route) (key r)).

Module Example2.

(** A slower and cheaper bus than the routes of [Example]. *)
Definition asiad : Route.t :=
  Route.mk "r3" "bus" "MSRTC" "Asiad" 200 240 None "Parel" "Shivajinagar"
           None None None.

(** A route of an operator whose name is the name of a member of
    [Object.prototype]. *)
Definition nightRider : Route.t :=
  Route.mk "r4" "bus" "constructor" "Night Rider" 300 200 None "Dadar" "Swargate"
           (Some [mkSchedule "22:00" "01:20" None]) None None.

(** A host whose database can be read and not written: the SELECT finds no
    row, and every INSERT throws. *)
Definition readOnly : Host (list string) :=
  mkHost (list string) Example.rt Example.clock "2024-01-01T09:00:01.000Z"
         (fun d => "m" +:+ Num.toString (Z.of_nat (length d)))
         (fun _ => "{}")
         (fun _ _ _ _ _ => Ok [])
         (fun _ _ _ => Ok None)
         (fun sql _ d => (Throw "attempt to write a readonly database", d))
         (fun routes => routes).

(** A host whose database holds the session already and rejects the
    messages: only the last statement of an append throws. *)
Definition noMessagesTable : Host (list string) :=
  mkHost (list string) Example.rt Example.clock "2024-01-01T09:00:01.000Z"
         (fun d => "m" +:+ Num.toString (Z.of_nat (length d)))
         (fun _ => "{}")
         (fun _ _ _ _ _ => Ok [])
         (fun _ _ _ => Ok (Some "s1"))
         (fun sql _ d => (Throw "no such table: messages", d))
         (fun routes => routes).

(** A host whose route lookup throws. *)
Definition noRoutesTable : Host (list string) :=
  mkHost (list string) Example.rt Example.clock "2024-01-01T09:00:01.000Z"
         (fun d => "m" +:+ Num.toString (Z.of_nat (length d)))
         (fun _ => "{}")
         (fun _ _ _ _ _ => Throw "no such table: routes")
         (fun _ _ _ => Ok None)
         (fun sql _ d => (Ok tt, d ++ [sql]))
         (fun routes => routes).

End Example2.

(** The host with another route lookup. *)
Definition withSearch {D : Type} (host : Host D)
    (searchRoutes' : value -> value -> value -> SearchOptions -> D -> Result (list Route.t))
    : Host D :=
  mkHost D (runtime host) (now host) (replyTime host) (uuidv4 host) (stringify host)
         searchRoutes' (queryOne host) (runSql host) (engineSort host).

(** A computation that returns from every world. *)
Definition returns {D A : Type} (m : M D A) : Prop :=
  forall w, exists a, fst (m w) = Ok a.

(** A route lookup that finds nothing and never fails. *)
Definition noRoutes {D : Type}
    : value -> value -> value -> SearchOptions -> D -> Result (list Route.t) :=
  fun _ _ _ _ _ => Ok [].

(** Routes are stored only for sessions that know a city. *)
Definition routesNeedCities (sessions : gmap string Session.t) : Prop :=
  forall id ctx,
    sessions !! id = Some ctx ->
    Session.lastRoutes ctx <> None -> located (Session.entities ctx) = true.

(** The answer of [handleCompareRoutes] when it has nothing to compare. *)
Definition nothingToCompare : string :=
  "I don't have any routes to compare yet. Tell me where you'd like to go, and I'll find options to compare!".

(* ====================================================================== *)
(** ** A replay of the repository's test-suite on the embedding *)
(* ====================================================================== *)

Module Replay.

(** Every pattern of the intent table was read as a pattern. *)
Example intent_patterns_read :
  forallb (fun kv =>
             forallb (fun p => match RegExp.ast p with
                               | RegExp.Class false [] => false
                               | _ => true
                               end) (snd kv))
          INTENT_PATTERNS = true.
Proof. vm_compute. reflexivity. Qed.

Example detects_greeting : intent (detectIntent "Hello!" ∅) = GREETING.
Proof. vm_compute. reflexivity. Qed.

Example detects_goodbye : intent (detectIntent "Bye, see you later" ∅) = GOODBYE.
Proof. vm_compute. reflexivity. Qed.

Example detects_help : intent (detectIntent "What can you do?" ∅) = HELP.
Proof. vm_compute. reflexivity. Qed.

Example detects_price_query : intent (detectIntent "How much does it cost?" ∅) = PRICE_QUERY.
Proof. vm_compute. reflexivity. Qed.

Example detects_select_route : intent (detectIntent "I'll take option 2" ∅) = SELECT_ROUTE.
Proof. vm_compute. reflexivity. Qed.

Example detects_unknown : intent (detectIntent "asdfghjkl" ∅) = UNKNOWN.
Proof. vm_compute. reflexivity. Qed.

Example extracts_from_to :
  map_to_list (extractEntities Example.clock "I want to go from Mumbai to Pune" ∅)
  = [("origin", VStr "Mumbai"); ("destination", VStr "Pune")].
Proof. vm_compute. reflexivity. Qed.

Example extracts_aliases :
  map_to_list (extractEntities Example.clock "Bombay to Poona" ∅)
  = [("origin", VStr "Mumbai"); ("destination", VStr "Pune")].
Proof. vm_compute. reflexivity. Qed.

Example extracts_tomorrow_morning :
  map_to_list (extractEntities Example.clock "Train to Pune tomorrow morning" ∅)
  = [("mode", VStr "train");
     ("timePreference", VTime (mkTimeRange "06:00" (Some "12:00") "morning"));
     ("date", VStr "+1")].
Proof. vm_compute. reflexivity. Qed.

Example overrides_context :
  map_to_list (extractEntities Example.clock "travel to Pune"
                 (<["destination" := VStr "Delhi"]> {["origin" := VStr "Mumbai"]}))
  = [("origin", VStr "Mumbai"); ("destination", VStr "Pune")].
Proof. vm_compute. reflexivity. Qed.

Example formats_durations :
  formatDuration 195 = "3h 15min" /\ formatDuration 60 = "1h" /\
  formatDuration 45 = "45min" /\ formatDuration 0 = "0min".
Proof. vm_compute. repeat split. Qed.

Example scores_cheaper_and_faster_higher :
  List.map (fun r => (Route.id r, Route._tags r))
           (RoutePlanner.sortByScore (fun routes => routes)
              (RoutePlanner.scoreRoutes [Example.shivneri; Example.deccan] ∅))
  = [("r1", Some ["cheapest"; "fastest"]); ("r2", Some [])].
Proof. vm_compute. reflexivity. Qed.

End Replay.

(* ====================================================================== *)
(** ** City aliases *)
(* ====================================================================== *)

Lemma member_cases {A : Type} (table : list (string * A)) (key : string) :
  match Js.member table key with
  | Js.Own a => In a (List.map snd table)
  | Js.Inherited name => name = key /\ In key Js.prototypeNames
  | Js.Missing => True
  end.
Proof.
  unfold Js.member.
  destruct (List.find _ table) as [[k a] |] eqn:Hfind.
  - apply find_some in Hfind as [Hin _]. apply (in_map snd) in Hin. exact Hin.
  - destruct (existsb _ Js.prototypeNames) eqn:Hex; [| exact I].
    split; [reflexivity |].
    apply existsb_exists in Hex as (name & Hin & Heq).
    apply String.eqb_eq in Heq. subst name. exact Hin.
Qed.

(** What [resolveCity] can return: [null], a canonical name, or a member
    of [Object.prototype] whose name is the cleaned text. *)
Lemma resolveCity_cases (text : string) :
  resolveCity text = VNull \/
  (exists city, resolveCity text = VStr city /\ In city (List.map snd CITY_ALIASES)) \/
  (exists name, resolveCity text = VInherited name /\
     name = Js.toLowerCase (Js.trim (Js.filterChars
              (fun c => negb (RegExp.test (re_i "[^a-z\s]") (String c EmptyString))) text)) /\
     In name Js.prototypeNames).
Proof.
  unfold resolveCity, cityAlias.
  destruct (negb (Js.nonEmpty text)); cbv beta iota zeta; [auto |].
  set (cleaned := Js.toLowerCase _).
  pose proof (member_cases CITY_ALIASES cleaned) as Hmember.
  destruct (Js.member CITY_ALIASES cleaned) as [city | name |]; cbn [truthy].
  - destruct (Js.nonEmpty city); [right; left; eauto |].
    destruct (List.find _ CITY_ALIASES) as [[alias c] |] eqn:Hpartial; [| auto].
    apply find_some in Hpartial as [Hin _]. apply (in_map snd) in Hin.
    right. left. eauto.
  - destruct Hmember as [-> Hin]. right. right. eauto.
  - destruct (List.find _ CITY_ALIASES) as [[alias c] |] eqn:Hpartial; [| auto].
    apply find_some in Hpartial as [Hin _]. apply (in_map snd) in Hin.
    right. left. eauto.
Qed.



(** *** The cleaned text *)

Lemma everyChar_filterChars (keep : ascii -> bool) (s : string) :
  everyChar keep (Js.filterChars keep s) = true.
Proof.
  induction s as [| c s IH]; [reflexivity |]. cbn [Js.filterChars].
  destruct (keep c) eqn:Hc; [cbn [everyChar]; rewrite Hc |]; exact IH.
Qed.

Lemma everyChar_trimStart (p : ascii -> bool) (s : string) :
  everyChar p s = true -> everyChar p (Js.trimStart s) = true.
Proof.
  induction s as [| c s IH]; [reflexivity |]. cbn [Js.trimStart everyChar].
  intros H. destruct (Js.isSpace c); [| exact H].
  apply andb_true_iff in H as [_ H]. apply IH, H.
Qed.

Lemma everyChar_trimEnd (p : ascii -> bool) (s : string) :
  everyChar p s = true -> everyChar p (Js.trimEnd s) = true.
Proof.
  induction s as [| c s IH]; [reflexivity |]. cbn [Js.trimEnd everyChar].
  intros H. apply andb_true_iff in H as [Hc H]. specialize (IH H).
  destruct (Js.trimEnd s) as [| d t].
  - destruct (Js.isSpace c); [reflexivity |]. cbn [everyChar]. rewrite Hc. reflexivity.
  - cbn [everyChar] in *. rewrite Hc. exact IH.
Qed.

Lemma everyChar_toLowerCase (p q : ascii -> bool) (s : string) :
  (forall c, p c = true -> q (Js.lowerChar c) = true) ->
  everyChar p s = true -> everyChar q (Js.toLowerCase s) = true.
Proof.
  intros Hpq. induction s as [| c s IH]; [reflexivity |]. cbn [Js.toLowerCase everyChar].
  intros H. apply andb_true_iff in H as [Hc H]. rewrite (Hpq c Hc). apply IH, H.
Qed.

Lemma kept_is_cleaned (c : ascii) :
  negb (RegExp.test (re_i "[^a-z\s]") (String c EmptyString)) = true ->
  isCleaned (Js.lowerChar c) = true.
Proof.
  destruct c as [b0 b1 b2 b3 b4 b5 b6 b7].
  destruct b0, b1, b2, b3, b4, b5, b6, b7; vm_compute; congruence.
Qed.

(** The text [resolveCity] looks up holds lower-case letters and white
    space only. *)
Lemma cleaned_text (text : string) :
  everyChar isCleaned
    (Js.toLowerCase (Js.trim (Js.filterChars
       (fun c => negb (RegExp.test (re_i "[^a-z\s]") (String c EmptyString))) text)))
  = true.
Proof.
  apply (everyChar_toLowerCase _ _ _ kept_is_cleaned).
  apply everyChar_trimEnd, everyChar_trimStart, everyChar_filterChars.
Qed.

(** Of the members of [Object.prototype], only [constructor] has a name
    that a cleaned text can be. *)
Lemma resolveCity_inherited (text name : string) :
  resolveCity text = VInherited name -> name = "constructor".
Proof.
  intros H.
  destruct (resolveCity_cases text) as [H0 | [(c & Hc & _) | (n & Hn & Hclean & Hin)]];
    try congruence.
  assert (Hname : name = n) by congruence. rewrite Hname. clear Hname H Hn.
  pose proof (cleaned_text text) as Hchars. rewrite <- Hclean in Hchars. clear Hclean.
  cbn in Hin.
  repeat (destruct Hin as [<- | Hin]; [try reflexivity; vm_compute in Hchars; discriminate |]).
  contradiction.
Qed.



(* ====================================================================== *)
(** ** Entity merging *)
(* ====================================================================== *)

(** *** Merging *)

Lemma truthy_defined (v : value) : truthy v = true -> defined v = true.
Proof. destruct v; simpl; congruence. Qed.

Lemma lookup_mergeWithContext (entities context : gmap string value) (key : string) :
  mergeWithContext entities context !! key =
  match entities !! key with
  | Some v => if defined v then Some v else context !! key
  | None => context !! key
  end.
Proof.
  unfold mergeWithContext. revert key.
  apply (map_fold_weak_ind
           (fun merged (m : gmap string value) => forall key,
              merged !! key =
              match m !! key with
              | Some v => if defined v then Some v else context !! key
              | None => context !! key
              end)).
  - intros key. rewrite lookup_empty. reflexivity.
  - intros i x m r Hfresh IH key.
    destruct (decide (i = key)) as [-> | Hne].
    + rewrite lookup_insert_eq. destruct (defined x).
      * apply lookup_insert_eq.
      * rewrite IH, Hfresh. reflexivity.
    + rewrite (lookup_insert_ne m) by exact Hne.
      destruct (defined x); [rewrite lookup_insert_ne by exact Hne |]; apply IH.
Qed.

Lemma allTruthy_empty : allTruthy ∅.
Proof. intros key v. rewrite lookup_empty. congruence. Qed.

Lemma allTruthy_setIfTruthy (key : string) (x : option value) (o : gmap string value) :
  allTruthy o -> allTruthy (setIfTruthy key x o).
Proof.
  intros Ho. unfold setIfTruthy.
  destruct x as [x |]; [| exact Ho].
  destruct (truthy x) eqn:Hx; [| exact Ho].
  intros k v. destruct (decide (key = k)) as [-> | Hne].
  - rewrite lookup_insert_eq. congruence.
  - rewrite lookup_insert_ne by exact Hne. apply Ho.
Qed.

(** An extraction pass is a merge of truthy entries into the context. *)
Lemma extractEntities_is_merge (now : Clock) (message : string) :
  exists entities : gmap string value,
    allTruthy entities /\
    forall context, extractEntities now message context = mergeWithContext entities context.
Proof.
  unfold extractEntities. eexists. split; [| intros context; reflexivity].
  repeat apply allTruthy_setIfTruthy. apply allTruthy_empty.
Qed.

Lemma lookup_extractEntities (now : Clock) (message : string)
    (context : gmap string value) (key : string) :
  extractEntities now message context !! key =
  match extractEntities now message ∅ !! key with
  | Some v => Some v
  | None => context !! key
  end.
Proof.
  destruct (extractEntities_is_merge now message) as (entities & Htruthy & Hmerge).
  rewrite !Hmerge, !lookup_mergeWithContext, lookup_empty.
  destruct (entities !! key) as [v |] eqn:Hv; [| reflexivity].
  rewrite (truthy_defined v (Htruthy key v Hv)). reflexivity.
Qed.

Lemma extracted_truthy (now : Clock) (message key : string) (v : value) :
  extractEntities now message ∅ !! key = Some v -> truthy v = true.
Proof.
  destruct (extractEntities_is_merge now message) as (entities & Htruthy & Hmerge).
  rewrite Hmerge, lookup_mergeWithContext, lookup_empty.
  destruct (entities !! key) as [x |] eqn:Hx; [| congruence].
  rewrite (truthy_defined x (Htruthy key x Hx)). intros [= <-]. eauto.
Qed.

(** C2. Entity merging is monotone: a slot of the prior context holding a
    non-empty value is still there, with a non-empty value, in the record
    [extractEntities] returns; its value is the prior one unless the pass
    extracted a (non-empty) value for that slot from the message. *)
Theorem extractEntities_monotone (now : Clock) (message : string)
    (context : gmap string value) (key : string) (v : value) :
  context !! key = Some v ->
  truthy v = true ->
  exists v',
    extractEntities now message context !! key = Some v' /\
    truthy v' = true /\
    (v' = v \/ extractEntities now message ∅ !! key = Some v').
Proof.
  intros Hctx Hv. rewrite lookup_extractEntities.
  destruct (extractEntities now message ∅ !! key) as [x |] eqn:Hx.
  - exists x. split; [reflexivity |]. split; [| right; reflexivity].
    eapply extracted_truthy; exact Hx.
  - exists v. auto.
Qed.

Lemma extractEntities_monotone_witness :
  exists v',
    extractEntities Example.clock "travel to Pune tomorrow" {["origin" := VStr "Mumbai"]} !! "origin"
      = Some v' /\
    truthy v' = true /\
    (v' = VStr "Mumbai" \/
     extractEntities Example.clock "travel to Pune tomorrow" ∅ !! "origin" = Some v').
Proof.
  apply (extractEntities_monotone Example.clock "travel to Pune tomorrow"
           {["origin" := VStr "Mumbai"]} "origin" (VStr "Mumbai")).
  - reflexivity.
  - reflexivity.
Defined.

(* ====================================================================== *)
(** ** Intent scores *)
(* ====================================================================== *)

(** *** Score tables *)

Lemma getScore_setScore_eq (i : Intent) (v : Z) (scores : Scores) :
  getScore i (setScore i v scores) = Some v.
Proof.
  unfold getScore. induction scores as [| [j x] rest IH]; simpl.
  - rewrite bool_decide_eq_true_2 by reflexivity. reflexivity.
  - destruct (bool_decide (j = i)) eqn:Hj; simpl; rewrite Hj; [reflexivity | exact IH].
Qed.

Lemma getScore_setScore_ne (i j : Intent) (v : Z) (scores : Scores) :
  j <> i -> getScore j (setScore i v scores) = getScore j scores.
Proof.
  intros Hne. unfold getScore. induction scores as [| [k x] rest IH]; simpl.
  - rewrite bool_decide_eq_false_2 by congruence. reflexivity.
  - destruct (bool_decide (k = i)) eqn:Hk; simpl.
    + apply bool_decide_eq_true_1 in Hk. subst k.
      rewrite bool_decide_eq_false_2 by congruence. reflexivity.
    + destruct (bool_decide (k = j)); [reflexivity | exact IH].
Qed.

Lemma setScore_keys (i : Intent) (v : Z) (scores : Scores) :
  In i (List.map fst scores) ->
  List.map fst (setScore i v scores) = List.map fst scores.
Proof.
  induction scores as [| [j x] rest IH]; simpl; [contradiction |].
  intros Hin. destruct (bool_decide (j = i)) eqn:Hj; simpl.
  - apply bool_decide_eq_true_1 in Hj. subst j. reflexivity.
  - f_equal. apply IH. destruct Hin as [-> | Hin]; [| exact Hin].
    rewrite bool_decide_eq_true_2 in Hj by reflexivity. discriminate.
Qed.

Lemma setScore_In (i : Intent) (v : Z) (scores : Scores) :
  In (i, v) (setScore i v scores).
Proof.
  induction scores as [| [j x] rest IH]; simpl; [left; reflexivity |].
  destruct (bool_decide (j = i)) eqn:Hj.
  - apply bool_decide_eq_true_1 in Hj. subst j. left. reflexivity.
  - right. exact IH.
Qed.

Lemma setScore_In_inv (i k : Intent) (s v : Z) (scores : Scores) :
  In (i, s) (setScore k v scores) -> (i = k /\ s = v) \/ In (i, s) scores.
Proof.
  induction scores as [| [j x] rest IH]; simpl.
  - intros [[= <- <-] | []]. auto.
  - destruct (bool_decide (j = k)) eqn:Hj.
    + intros [[= <- <-] | Hin]; [| auto].
      apply bool_decide_eq_true_1 in Hj. auto.
    + intros [Heq | Hin]; [auto |]. destruct (IH Hin); auto.
Qed.

Lemma countMatches_from (patterns : list RegExp.t) (normalized : string) (n : Z) :
  (n <= fold_left (fun n pattern => if RegExp.test pattern normalized then n + 1 else n)
                  patterns n)%Z.
Proof.
  revert n. induction patterns as [| p rest IH]; intros n; simpl; [lia |].
  destruct (RegExp.test p normalized); [specialize (IH (n + 1)%Z) | specialize (IH n)]; lia.
Qed.

Lemma countMatches_nonneg (patterns : list RegExp.t) (normalized : string) :
  (0 <= countMatches patterns normalized)%Z.
Proof. apply countMatches_from. Qed.

Lemma patternScores_keys (normalized : string) :
  List.map fst (patternScores normalized) = declaredIntents.
Proof.
  unfold patternScores, declaredIntents. rewrite List.map_map.
  apply List.map_ext. intros [i ps]. reflexivity.
Qed.

Lemma getScore_patternScores (i : Intent) (normalized : string) :
  getScore i (patternScores normalized) =
  (fun patterns => countMatches patterns normalized) <$> lookupPatterns i.
Proof.
  unfold getScore, patternScores, lookupPatterns.
  induction INTENT_PATTERNS as [| [j ps] rest IH]; simpl; [reflexivity |].
  destruct (bool_decide (j = i)); [reflexivity | exact IH].
Qed.

(** *** The running maximum *)

Lemma bestOf_from (scores : Scores) (m0 : Z) (b0 : Intent) :
  let '(m, b) :=
    fold_left (fun '(maxScore, bestIntent) '(intent, score) =>
                 if (maxScore <? score)%Z then (score, intent) else (maxScore, bestIntent))
              scores (m0, b0) in
  (m0 <= m)%Z /\
  (forall i s, In (i, s) scores -> (s <= m)%Z) /\
  ((m = m0 /\ b = b0) \/ (In (b, m) scores /\ (m0 < m)%Z)).
Proof.
  revert m0 b0. induction scores as [| [i s] rest IH]; intros m0 b0; simpl.
  - split; [lia |]. split; [intros ? ? [] | left; auto].
  - destruct (m0 <? s)%Z eqn:Hlt.
    + apply Z.ltb_lt in Hlt. specialize (IH s i).
      destruct (fold_left _ rest (s, i)) as [m b].
      destruct IH as (Hge & Hall & Hsel).
      split; [lia |]. split.
      * intros j x [[= <- <-] | Hin]; [lia | eauto].
      * right. destruct Hsel as [[-> ->] | [Hin Hlt']]; split; auto; lia.
    + apply Z.ltb_ge in Hlt. specialize (IH m0 b0).
      destruct (fold_left _ rest (m0, b0)) as [m b].
      destruct IH as (Hge & Hall & Hsel).
      split; [lia |]. split.
      * intros j x [[= <- <-] | Hin]; [lia | eauto].
      * destruct Hsel as [[-> ->] | [Hin Hlt']]; [left | right]; auto.
Qed.

Lemma bestOf_upper (scores : Scores) (i : Intent) (s : Z) :
  In (i, s) scores -> (s <= fst (bestOf scores))%Z.
Proof.
  intros Hin. unfold bestOf. pose proof (bestOf_from scores 0%Z UNKNOWN) as H.
  destruct (fold_left _ scores (0%Z, UNKNOWN)) as [m b].
  destruct H as (_ & Hall & _). simpl. eauto.
Qed.

Lemma bestOf_selected (scores : Scores) :
  (0 < fst (bestOf scores))%Z ->
  In (snd (bestOf scores), fst (bestOf scores)) scores.
Proof.
  unfold bestOf. pose proof (bestOf_from scores 0%Z UNKNOWN) as H.
  destruct (fold_left _ scores (0%Z, UNKNOWN)) as [m b].
  destruct H as (_ & _ & [[-> ->] | [Hin _]]); simpl; [lia | auto].
Qed.

(** The running maximum keeps the first of the entries with the greatest
    score, when that score is above the one it starts from. *)
Lemma bestOf_first_from (scores : Scores) (m0 : Z) (b0 : Intent) :
  let '(m, b) :=
    fold_left (fun '(maxScore, bestIntent) '(intent, score) =>
                 if (maxScore <? score)%Z then (score, intent) else (maxScore, bestIntent))
              scores (m0, b0) in
  (m = m0 /\ b = b0 /\ forall i s, In (i, s) scores -> (s <= m0)%Z) \/
  ((m0 < m)%Z /\
   exists before after,
     scores = before ++ (b, m) :: after /\
     (forall i s, In (i, s) before -> (s < m)%Z) /\
     (forall i s, In (i, s) after -> (s <= m)%Z)).
Proof.
  revert m0 b0. induction scores as [| [i s] rest IH]; intros m0 b0; simpl.
  - left. split; [reflexivity |]. split; [reflexivity | intros ? ? []].
  - destruct (m0 <? s)%Z eqn:Hlt.
    + apply Z.ltb_lt in Hlt. specialize (IH s i).
      destruct (fold_left _ rest (s, i)) as [m b].
      right. destruct IH as [(-> & -> & Hall) | (Hms & before & after & -> & Hb & Ha)].
      * split; [exact Hlt |]. exists [], rest.
        split; [reflexivity |]. split; [intros ? ? [] | exact Hall].
      * split; [lia |]. exists ((i, s) :: before), after.
        split; [reflexivity |]. split; [| exact Ha].
        intros j x [[= <- <-] | Hin]; [lia | eauto].
    + apply Z.ltb_ge in Hlt. specialize (IH m0 b0).
      destruct (fold_left _ rest (m0, b0)) as [m b].
      destruct IH as [(-> & -> & Hall) | (Hms & before & after & -> & Hb & Ha)].
      * left. split; [reflexivity |]. split; [reflexivity |].
        intros j x [[= <- <-] | Hin]; [lia | eauto].
      * right. split; [exact Hms |]. exists ((i, s) :: before), after.
        split; [reflexivity |]. split; [| exact Ha].
        intros j x [[= <- <-] | Hin]; [lia | eauto].
Qed.

Lemma bestOf_first (scores : Scores) :
  (0 < fst (bestOf scores))%Z ->
  exists before after,
    scores = before ++ (snd (bestOf scores), fst (bestOf scores)) :: after /\
    (forall i s, In (i, s) before -> (s < fst (bestOf scores))%Z) /\
    (forall i s, In (i, s) after -> (s <= fst (bestOf scores))%Z).
Proof.
  unfold bestOf. pose proof (bestOf_first_from scores 0%Z UNKNOWN) as H.
  destruct (fold_left _ scores (0%Z, UNKNOWN)) as [m b]. cbn [fst snd].
  intros Hpos. destruct H as [(-> & _) | (_ & H)]; [lia | exact H].
Qed.

(** *** The boost *)

Section Boost.

Variables (message : string) (entities : gmap string value).
Hypothesis located :
  truthyAt entities "origin" || truthyAt entities "destination" = true.

Local Abbreviation normalized := (Js.trim (Js.toLowerCase message)).
Local Abbreviation raw := (countMatches (patternsOf TRAVEL_SEARCH) normalized).

Lemma raw_score : getScore TRAVEL_SEARCH (patternScores normalized) = Some raw.
Proof.
  rewrite getScore_patternScores. unfold raw, patternsOf.
  change (lookupPatterns TRAVEL_SEARCH) with (Some (patternsOf TRAVEL_SEARCH)).
  reflexivity.
Qed.

Lemma boosted_eq :
  boostedScores normalized entities =
  setScore TRAVEL_SEARCH (raw + 2)%Z (patternScores normalized).
Proof. unfold boostedScores. rewrite located, raw_score. reflexivity. Qed.

Lemma boosted_keys :
  List.map fst (boostedScores normalized entities) = declaredIntents.
Proof.
  rewrite boosted_eq, setScore_keys; [apply patternScores_keys |].
  rewrite patternScores_keys. vm_compute. tauto.
Qed.

Lemma best_at_least_two : (2 <= fst (bestOf (boostedScores normalized entities)))%Z.
Proof.
  pose proof (countMatches_nonneg (patternsOf TRAVEL_SEARCH) normalized) as Hraw.
  fold raw in Hraw.
  pose proof (bestOf_upper (boostedScores normalized entities) TRAVEL_SEARCH (raw + 2)%Z) as H.
  rewrite boosted_eq in H at 1. specialize (H (setScore_In _ _ _)). lia.
Qed.

Lemma detectIntent_located :
  detectIntent message entities =
  mkDetection (snd (bestOf (boostedScores normalized entities)))
              (Qmin (inject_Z (fst (bestOf (boostedScores normalized entities))) / 3) 1).
Proof.
  pose proof best_at_least_two as H2.
  unfold detectIntent. fold normalized.
  destruct (bestOf (boostedScores normalized entities)) as [m b]. simpl in *.
  replace (m <=? 0)%Z with false by (symmetry; apply Z.leb_gt; lia).
  reflexivity.
Qed.

End Boost.

(** C3. When origin or destination is present (truthy, as the code tests
    it), the score [detectIntent] compares for travel_search is its raw
    pattern-match count plus 2 and the other intents keep their counts; the
    intent it returns is the first, in the order of the table, of the intents
    whose score in this boosted table is the greatest, and the confidence is
    that greatest score over 3, capped at 1.  Consequently travel_search is
    returned whenever no other intent has a raw count of travel_search's raw
    count plus 2 or more; in particular, "Find trains" with Mumbai and Pune
    known is a travel_search. *)
Theorem travel_search_boost :
  (forall (message : string) (entities : gmap string value),
     truthyAt entities "origin" || truthyAt entities "destination" = true ->
     let normalized := Js.trim (Js.toLowerCase message) in
     let raw := countMatches (patternsOf TRAVEL_SEARCH) normalized in
     let scores := boostedScores normalized entities in
     let detected := detectIntent message entities in
     getScore TRAVEL_SEARCH (patternScores normalized) = Some raw /\
     getScore TRAVEL_SEARCH scores = Some (raw + 2)%Z /\
     (forall i, i <> TRAVEL_SEARCH -> getScore i scores = getScore i (patternScores normalized)) /\
     (exists greatest before after,
        scores = before ++ (intent detected, greatest) :: after /\
        (forall i s, In (i, s) before -> (s < greatest)%Z) /\
        (forall i s, In (i, s) after -> (s <= greatest)%Z) /\
        (raw + 2 <= greatest)%Z /\
        confidence detected = Qmin (inject_Z greatest / 3) 1) /\
     ((forall i s, In (i, s) (patternScores normalized) ->
                   i <> TRAVEL_SEARCH -> (s < raw + 2)%Z) ->
      intent detected = TRAVEL_SEARCH)) /\
  intent (detectIntent "Find trains" Example.mumbaiPune) = TRAVEL_SEARCH.
Proof.
  split; [| vm_compute; reflexivity].
  intros message entities Hloc. cbv zeta.
  split; [apply raw_score |].
  rewrite (boosted_eq message entities Hloc).
  split; [apply getScore_setScore_eq |].
  split; [intros i Hi; apply getScore_setScore_ne; exact Hi |].
  rewrite <- (boosted_eq message entities Hloc).
  rewrite (detectIntent_located message entities Hloc). cbn [intent confidence].
  set (scores := boostedScores (Js.trim (Js.toLowerCase message)) entities).
  set (raw := countMatches (patternsOf TRAVEL_SEARCH) (Js.trim (Js.toLowerCase message))).
  pose proof (best_at_least_two message entities Hloc) as Hbest. fold scores in Hbest.
  assert (Hpos : (0 < fst (bestOf scores))%Z) by lia.
  assert (Hraw : (raw + 2 <= fst (bestOf scores))%Z).
  { apply (bestOf_upper scores TRAVEL_SEARCH). unfold scores.
    rewrite (boosted_eq message entities Hloc). apply setScore_In. }
  split.
  - destruct (bestOf_first scores Hpos) as (before & after & Hsplit & Hbefore & Hafter).
    exists (fst (bestOf scores)), before, after. auto.
  - intros Hothers.
    pose proof (bestOf_selected scores Hpos) as Hsel.
    unfold scores in Hsel at 3. rewrite (boosted_eq message entities Hloc) in Hsel.
    apply setScore_In_inv in Hsel as [[Hts _] | Hsel]; [exact Hts |].
    destruct (decide (snd (bestOf scores) = TRAVEL_SEARCH)) as [Hts | Hne]; [exact Hts |].
    specialize (Hothers _ _ Hsel Hne). fold raw in Hothers. lia.
Qed.

Lemma travel_search_boost_witness :
  getScore TRAVEL_SEARCH
    (boostedScores (Js.trim (Js.toLowerCase "Find trains")) Example.mumbaiPune) = Some 3%Z /\
  intent (detectIntent "find me something" Example.mumbaiPune) = TRAVEL_SEARCH.
Proof.
  destruct travel_search_boost as [Hboost _]. split.
  - destruct (Hboost "Find trains" Example.mumbaiPune) as (_ & Hscore & _).
    + vm_compute. reflexivity.
    + rewrite Hscore. vm_compute. reflexivity.
  - destruct (Hboost "find me something" Example.mumbaiPune) as (_ & _ & _ & _ & Hwins).
    + vm_compute. reflexivity.
    + apply Hwins. intros i s Hin Hne. vm_compute in Hin.
      repeat (destruct Hin as [[= <- <-] | Hin]; [vm_compute; reflexivity || congruence |]).
      destruct Hin.
Defined.

(** C9. With origin or destination present (truthy, as the code tests it)
    the boosted travel_search score is at least 2, so the winning score is
    positive: the fallback guard (winning score at most 0, with a location
    present) is false, the intent is never unknown, and the confidence is at
    least 2/3. *)
Theorem located_intent_is_known (message : string) (entities : gmap string value) :
  truthyAt entities "origin" || truthyAt entities "destination" = true ->
  let scores := boostedScores (Js.trim (Js.toLowerCase message)) entities in
  (exists s, getScore TRAVEL_SEARCH scores = Some s /\ (2 <= s)%Z) /\
  (0 < fst (bestOf scores))%Z /\
  ((fst (bestOf scores) <=? 0)%Z &&
     (truthyAt entities "origin" || truthyAt entities "destination")) = false /\
  intent (detectIntent message entities) <> UNKNOWN /\
  (2 # 3 <= confidence (detectIntent message entities))%Q.
Proof.
  intros Hloc. cbv zeta.
  set (scores := boostedScores (Js.trim (Js.toLowerCase message)) entities).
  pose proof (best_at_least_two message entities Hloc) as Hbest. fold scores in Hbest.
  split.
  { unfold scores. rewrite (boosted_eq message entities Hloc), getScore_setScore_eq.
    eexists. split; [reflexivity |].
    pose proof (countMatches_nonneg (patternsOf TRAVEL_SEARCH)
                  (Js.trim (Js.toLowerCase message))). lia. }
  split; [lia |].
  split.
  { replace (fst (bestOf scores) <=? 0)%Z with false by (symmetry; apply Z.leb_gt; lia).
    reflexivity. }
  rewrite (detectIntent_located message entities Hloc). fold scores. simpl.
  split.
  - assert (Hsel : In (snd (bestOf scores)) (List.map fst scores)).
    { assert (Hpos : (0 < fst (bestOf scores))%Z) by lia.
      exact (in_map fst _ _ (bestOf_selected scores Hpos)). }
    unfold scores in Hsel at 2. rewrite (boosted_keys message entities Hloc) in Hsel.
    intros Hunknown. rewrite Hunknown in Hsel. vm_compute in Hsel.
    repeat (destruct Hsel as [Hsel | Hsel]; [discriminate Hsel |]). exact Hsel.
  - apply Q.min_glb; [| unfold Qle; simpl; lia].
    unfold Qle, Qdiv, Qmult, Qinv, inject_Z. simpl. lia.
Qed.

Lemma located_intent_is_known_witness :
  intent (detectIntent "what can you do" {["origin" := VStr "Mumbai"]}) <> UNKNOWN /\
  (2 # 3 <= confidence (detectIntent "what can you do" {["origin" := VStr "Mumbai"]}))%Q.
Proof.
  destruct (located_intent_is_known "what can you do" {["origin" := VStr "Mumbai"]})
    as (_ & _ & _ & Hknown & Hconf).
  - vm_compute. reflexivity.
  - split; [exact Hknown | exact Hconf].
Defined.

(* ====================================================================== *)
(** ** Route scoring *)
(* ====================================================================== *)

Section Scoring.

Import RoutePlanner.
Local Open Scope Q_scope.

Lemma fold_Qmin_le (xs : list Q) (a : Q) :
  fold_left Qmin xs a <= a /\ forall x, In x xs -> fold_left Qmin xs a <= x.
Proof.
  revert a. induction xs as [| y rest IH]; intros a; simpl.
  - split; [apply Qle_refl | intros x []].
  - destruct (IH (Qmin a y)) as [Hacc Hall]. split.
    + eapply Qle_trans; [exact Hacc | apply Q.le_min_l].
    + intros x [<- | Hin]; [| auto].
      eapply Qle_trans; [exact Hacc | apply Q.le_min_r].
Qed.

Lemma fold_Qmax_ge (xs : list Q) (a : Q) :
  a <= fold_left Qmax xs a /\ forall x, In x xs -> x <= fold_left Qmax xs a.
Proof.
  revert a. induction xs as [| y rest IH]; intros a; simpl.
  - split; [apply Qle_refl | intros x []].
  - destruct (IH (Qmax a y)) as [Hacc Hall]. split.
    + eapply Qle_trans; [apply Q.le_max_l | exact Hacc].
    + intros x [<- | Hin]; [| auto].
      eapply Qle_trans; [apply Q.le_max_r | exact Hacc].
Qed.

Lemma minOf_le (xs : list Q) (x : Q) : In x xs -> minOf xs <= x.
Proof.
  destruct xs as [| a rest]; [intros [] |]. simpl.
  destruct (fold_Qmin_le rest a) as [Hacc Hall].
  intros [<- | Hin]; auto.
Qed.

Lemma maxOf_ge (xs : list Q) (x : Q) : In x xs -> x <= maxOf xs.
Proof.
  destruct xs as [| a rest]; [intros [] |]. simpl.
  destruct (fold_Qmax_ge rest a) as [Hacc Hall].
  intros [<- | Hin]; auto.
Qed.

(** [1 - (x - lo) / (hi - lo)] for [lo <= x <= hi]. *)
Lemma normalized_unit (lo hi x : Q) :
  lo <= x -> x <= hi ->
  unit_interval (if Qeq_bool hi lo then 1 else 1 - (x - lo) / (hi - lo)).
Proof.
  intros Hlo Hhi. destruct (Qeq_bool hi lo) eqn:Heq.
  - split; lra.
  - assert (Hne : ~ hi == lo).
    { intros H. apply Qeq_bool_iff in H. congruence. }
    assert (Hpos : 0 < hi - lo) by (destruct (Qlt_le_dec lo hi); [lra | exfalso; apply Hne; lra]).
    assert (H0 : 0 <= (x - lo) / (hi - lo)).
    { apply Qle_shift_div_l; [exact Hpos | lra]. }
    assert (H1 : (x - lo) / (hi - lo) <= 1).
    { apply Qle_shift_div_r; [exact Hpos | lra]. }
    split; lra.
Qed.

Lemma priceScore_unit (routes : list Route.t) (route : Route.t) :
  In route routes ->
  unit_interval (priceScoreOf (minOf (List.map Route.base_price routes))
                              (maxOf (List.map Route.base_price routes)) route).
Proof.
  intros Hin. apply normalized_unit.
  - apply minOf_le, in_map, Hin.
  - apply maxOf_ge, in_map, Hin.
Qed.

Lemma durationScore_unit (routes : list Route.t) (route : Route.t) :
  In route routes ->
  unit_interval (durationScoreOf (minOf (List.map durationOf routes))
                                 (maxOf (List.map durationOf routes)) route).
Proof.
  intros Hin. apply normalized_unit.
  - apply minOf_le. exact (in_map durationOf _ _ Hin).
  - apply maxOf_ge. exact (in_map durationOf _ _ Hin).
Qed.

Lemma scheduleScore_unit (route : Route.t) : unit_interval (scheduleScoreOf route).
Proof.
  unfold scheduleScoreOf. split; [| apply Q.le_min_r].
  apply Q.min_glb; [| lra].
  apply Qle_shift_div_l; [lra |].
  rewrite Qmult_0_l. change 0 with (inject_Z 0). rewrite <- Zle_Qle. lia.
Qed.

(** The operator factor is a rating between 0.5 and 0.85, unless the name
    of the operator is the name of a member of [Object.prototype]. *)
Lemma operatorScore_cases (operator : string) :
  match getOperatorScore operator with
  | Rating q => 5 # 10 <= q /\ q <= 85 # 100
  | Member name => name = operator /\ In operator Js.prototypeNames
  end.
Proof.
  unfold getOperatorScore.
  pose proof (member_cases operatorScores operator) as Hmember.
  destruct (Js.member operatorScores operator) as [sc | name |];
    [| exact Hmember | split; lra].
  destruct (Qeq_bool sc 0); [split; lra |].
  cbn in Hmember.
  repeat (destruct Hmember as [<- | Hmember]; [split; lra |]).
  contradiction.
Qed.

Lemma operatorScore_unit (operator : string) (q : Q) :
  getOperatorScore operator = Rating q -> unit_interval q.
Proof.
  intros H. pose proof (operatorScore_cases operator) as Hcases.
  rewrite H in Hcases. split; lra.
Qed.

Lemma operatorScore_member (operator : string) :
  In operator Js.prototypeNames -> getOperatorScore operator = Member operator.
Proof.
  intros H. cbn in H.
  repeat (destruct H as [<- | H]; [vm_compute; reflexivity |]).
  contradiction.
Qed.

Lemma operatorScore_rating (operator : string) :
  ~ In operator Js.prototypeNames -> exists q, getOperatorScore operator = Rating q.
Proof.
  intros H. pose proof (operatorScore_cases operator) as Hcases.
  destruct (getOperatorScore operator) as [q | name]; [eauto |].
  destruct Hcases as [_ Hin]. contradiction.
Qed.

Lemma weights_convex (entities : gmap string value) :
  let w := weightsFor entities in
  0 <= price w /\ 0 <= duration w /\ 0 <= schedule w /\ 0 <= operator w /\
  price w + duration w + schedule w + operator w == 1.
Proof.
  unfold weightsFor.
  destruct (isString entities "budgetPreference" "budget");
    [| destruct (isString entities "budgetPreference" "premium")];
    simpl; repeat split; lra.
Qed.

Lemma weighted_unit (w : Weights) (a b c d : Q) :
  0 <= price w -> 0 <= duration w -> 0 <= schedule w -> 0 <= operator w ->
  price w + duration w + schedule w + operator w == 1 ->
  unit_interval a -> unit_interval b -> unit_interval c -> unit_interval d ->
  unit_interval (price w * a + duration w * b + schedule w * c + operator w * d).
Proof.
  unfold unit_interval.
  intros Hp Hd Hs Ho Hsum Ha Hb Hc Hdd.
  destruct Ha as [Ha0 Ha1], Hb as [Hb0 Hb1], Hc as [Hc0 Hc1], Hdd as [Hd0 Hd1].
  split; nra.
Qed.

Lemma tagsOf_cheapest (minPrice minDuration : Q) (route : Route.t) :
  Route.base_price route == minPrice -> In "cheapest" (tagsOf minPrice minDuration route).
Proof.
  intros H. apply Qeq_bool_iff in H. unfold tagsOf. rewrite H.
  destruct (Qeq_bool (durationOf route) minDuration), (Nat.leb 4 (scheduleCountOf route));
    simpl; auto.
Qed.

Lemma tagsOf_fastest (minPrice minDuration : Q) (route : Route.t) :
  durationOf route == minDuration -> In "fastest" (tagsOf minPrice minDuration route).
Proof.
  intros H. apply Qeq_bool_iff in H. unfold tagsOf. rewrite H.
  destruct (Qeq_bool (Route.base_price route) minPrice), (Nat.leb 4 (scheduleCountOf route));
    simpl; auto.
Qed.


(** The score the scorer gives a route. *)
Lemma scoreRoutes_score (routes : list Route.t) (entities : gmap string value)
    (scored : Route.t) :
  In scored (scoreRoutes routes entities) ->
  routes <> [] /\
  exists route, In route routes /\
    Route.operator scored = Route.operator route /\
    Route._score scored =
      Some (add (add (add (Finite (price (weightsFor entities) *
                             priceScoreOf (minOf (List.map Route.base_price routes))
                                          (maxOf (List.map Route.base_price routes)) route))
                          (Finite (duration (weightsFor entities) *
                             durationScoreOf (minOf (List.map durationOf routes))
                                             (maxOf (List.map durationOf routes)) route)))
                     (Finite (schedule (weightsFor entities) * scheduleScoreOf route)))
                (mul (Finite (operator (weightsFor entities)))
                     (toNumber (getOperatorScore (Route.operator route))))).
Proof.
  unfold scoreRoutes. destruct routes as [| r0 rest]; [intros [] |].
  change (Nat.eqb (length (r0 :: rest)) 0) with false. cbv iota.
  intros Hin. split; [congruence |].
  apply List.in_map_iff in Hin as (route & <- & Hin).
  exists route. cbn. auto.
Qed.

(** The bound of the scores has a margin: the operator factor is between
    0.5 and 0.85 and its weight at least 0.1, so a score that is a number is
    between 0.05 and 0.985, away from both ends of [0,1] by far more than the
    rounding of the four products and three sums of the source can move it.
    The score is a number unless the name of the operator is the name of a
    member of [Object.prototype]; then it is NaN. *)
Lemma score_margin (routes : list Route.t) (entities : gmap string value) :
  Forall (fun route =>
            match Route._score route with
            | Some (Finite score) =>
                ~ In (Route.operator route) Js.prototypeNames /\
                5 # 100 <= score /\ score <= 985 # 1000
            | Some NaN => In (Route.operator route) Js.prototypeNames
            | None => False
            end)
         (scoreRoutes routes entities).
Proof.
  apply List.Forall_forall. intros scored Hin.
  destruct (scoreRoutes_score _ _ _ Hin) as (_ & route & Hroute & -> & ->).
  pose proof (priceScore_unit routes route Hroute) as [Hp0 Hp1].
  pose proof (durationScore_unit routes route Hroute) as [Hd0 Hd1].
  pose proof (scheduleScore_unit route) as [Hs0 Hs1].
  pose proof (operatorScore_cases (Route.operator route)) as Ho.
  destruct (getOperatorScore (Route.operator route)) as [q | name] eqn:Hop;
    cbn [toNumber add mul].
  - split.
    + intros Hmember. rewrite (operatorScore_member _ Hmember) in Hop. discriminate.
    + unfold weightsFor.
      destruct (isString entities "budgetPreference" "budget");
        [| destruct (isString entities "budgetPreference" "premium")];
        cbn [price duration schedule operator]; split; lra.
  - apply Ho.
Qed.

(** For a candidate list that is not empty, whatever the entities: the
    weights of the selected profile are non-negative and sum to 1; the price,
    duration and schedule factors of each candidate lie in [0,1], and so does
    the operator factor when it is a rating; the scorer returns the
    candidates with their prices and durations unchanged, tagged cheapest
    when their price is the minimum of the set and fastest when their
    duration is, each with a score in [0,1] unless the name of its operator
    is the name of a member of [Object.prototype]. *)
Lemma scoreRoutes_rated (routes : list Route.t) (entities : gmap string value) :
  routes <> [] ->
  let w := weightsFor entities in
  let minPrice := minOf (List.map Route.base_price routes) in
  let maxPrice := maxOf (List.map Route.base_price routes) in
  let minDuration := minOf (List.map durationOf routes) in
  let maxDuration := maxOf (List.map durationOf routes) in
  (0 <= price w /\ 0 <= duration w /\ 0 <= schedule w /\ 0 <= operator w /\
   price w + duration w + schedule w + operator w == 1) /\
  Forall (fun route =>
            unit_interval (priceScoreOf minPrice maxPrice route) /\
            unit_interval (durationScoreOf minDuration maxDuration route) /\
            unit_interval (scheduleScoreOf route) /\
            (forall q, getOperatorScore (Route.operator route) = Rating q ->
                       unit_interval q)) routes /\
  List.map Route.base_price (scoreRoutes routes entities) = List.map Route.base_price routes /\
  List.map Route.duration_minutes (scoreRoutes routes entities)
    = List.map Route.duration_minutes routes /\
  Forall (fun route =>
            (~ In (Route.operator route) Js.prototypeNames ->
             exists score, Route._score route = Some (Finite score) /\
                           0 <= score /\ score <= 1) /\
            (In (Route.operator route) Js.prototypeNames ->
             Route._score route = Some NaN) /\
            (Route.base_price route == minPrice ->
             exists tags, Route._tags route = Some tags /\ In "cheapest" tags) /\
            (durationOf route == minDuration ->
             exists tags, Route._tags route = Some tags /\ In "fastest" tags))
         (scoreRoutes routes entities).
Proof.
  intros Hne. cbv zeta.
  pose proof (weights_convex entities) as Hw. cbv zeta in Hw.
  split; [exact Hw |].
  split.
  { apply List.Forall_forall. intros route Hin.
    split; [apply priceScore_unit, Hin |].
    split; [apply durationScore_unit, Hin |].
    split; [apply scheduleScore_unit | apply operatorScore_unit]. }
  pose proof (score_margin routes entities) as Hmargin.
  rewrite List.Forall_forall in Hmargin.
  unfold scoreRoutes in *.
  destruct routes as [| r0 rest]; [congruence |].
  change (Nat.eqb (length (r0 :: rest)) 0) with false in *. cbv iota in *.
  set (routes := r0 :: rest) in *.
  split; [rewrite List.map_map; reflexivity |].
  split; [rewrite List.map_map; reflexivity |].
  apply List.Forall_forall. intros scored Hin.
  specialize (Hmargin scored Hin).
  apply List.in_map_iff in Hin as (route & <- & Hin).
  cbn [Route._score Route._tags Route.operator Route.base_price durationOf
       Route.duration_minutes] in *.
  split; [| split; [| split]].
  - intros Hrated.
    match type of Hmargin with
    | match ?x with _ => _ end => destruct x as [q |]
    end; [| contradiction].
    eexists. split; [reflexivity |]. lra.
  - intros Hmember.
    match type of Hmargin with
    | match ?x with _ => _ end => destruct x as [q |]
    end; [| reflexivity].
    destruct Hmargin as [Hrated _]. contradiction.
  - intros Hmin. eexists. split; [reflexivity |]. apply tagsOf_cheapest, Hmin.
  - intros Hmin. eexists. split; [reflexivity |]. apply tagsOf_fastest.
    exact Hmin.
Qed.

(** C1. The score is not always in [0,1]: the scorer looks the operator up
    in an object literal, and for an operator named as a member of
    [Object.prototype] the lookup finds that member, which is not a number;
    the score of the route is then NaN.  Next to it the route of a rated
    operator has its score in [0,1], and both are tagged as the claim says. *)
Theorem scoreRoutes_inherited_operator :
  let scored := scoreRoutes [Example.deccan; Example2.nightRider] ∅ in
  getOperatorScore "constructor" = Member "constructor" /\
  match List.map Route._score scored with
  | [Some (Finite deccan); Some NaN] => deccan == 51 # 100
  | _ => False
  end /\
  List.map Route._tags scored = [Some ["fastest"]; Some ["cheapest"]].
Proof. vm_compute. repeat split. Qed.

End Scoring.

(* ====================================================================== *)
(** ** The first integer of a text *)
(* ====================================================================== *)

(** *** The pattern [(\d+)] *)

Section Digits.

Import RegExp.

Lemma re_digits : re "(\d+)" = Pattern digitsPattern false.
Proof. vm_compute. reflexivity. Qed.

Lemma filter_all {A : Type} (xs : list A) : List.filter (fun _ => true) xs = xs.
Proof. induction xs as [| x rest IH]; simpl; [| rewrite IH]; reflexivity. Qed.

Lemma digit_class (c : ascii) :
  xorb false (existsb (fun it => itemMatches false it c) [CDigit]) = Js.isDigit c.
Proof. simpl. unfold itemMatches. simpl. destruct (Js.isDigit c); reflexivity. Qed.

Lemma repeatLoop_digits (K : mstate -> mstate) (s : string) :
  forall (fuel count : nat) (prev : option ascii) (pos : nat) (caps : list (nat * string)),
    String.length s < fuel ->
    repeatLoop (fun st' k' => run false (Class false [CDigit]) st' k') 1 None true []
               (fun st => Some (K st)) fuel count (MState prev s pos caps)
    = if Nat.eqb count 0 && negb (startsWithDigit s) then None
      else Some (K (afterDigits prev s pos caps)).
Proof.
  induction s as [| c s' IH]; intros fuel count prev pos caps Hfuel;
    (destruct fuel as [| fuel']; [simpl in Hfuel; lia |]).
  - simpl. destruct count; reflexivity.
  - cbn [repeatLoop belowMax]. unfold clearCaps. cbn [m_prev m_rest m_pos m_caps existsb negb].
    rewrite filter_all. cbn [run m_rest]. rewrite digit_class.
    cbn [startsWithDigit afterDigits].
    destruct (Js.isDigit c) eqn:Hc.
    + unfold step. cbn [m_pos m_caps].
      replace (Nat.ltb count 1 || Nat.ltb pos (S pos)) with true
        by (symmetry; apply orb_true_iff; right; apply Nat.ltb_lt; lia).
      rewrite IH by (simpl in Hfuel; lia). cbn [Nat.eqb andb].
      rewrite andb_false_r. reflexivity.
    + destruct count; reflexivity.
Qed.

Lemma afterDigits_pos (s : string) :
  forall prev pos caps,
    m_pos (afterDigits prev s pos caps) = pos + String.length (takeDigits s) /\
    m_caps (afterDigits prev s pos caps) = caps.
Proof.
  induction s as [| c s' IH]; intros prev pos caps; simpl.
  - split; [lia | reflexivity].
  - destruct (Js.isDigit c); simpl; [| split; [lia | reflexivity]].
    destruct (IH (Some c) (S pos) caps) as [-> ->]. split; [lia | reflexivity].
Qed.

Lemma substring_takeDigits (s : string) :
  String.substring 0 (String.length (takeDigits s)) s = takeDigits s.
Proof.
  induction s as [| c s' IH]; simpl; [reflexivity |].
  destruct (Js.isDigit c); simpl; [rewrite IH |]; reflexivity.
Qed.

Lemma matchHere_digits (prev : option ascii) (s : string) (pos : nat) :
  matchHere false digitsPattern (MState prev s pos [])
  = if startsWithDigit s then Some (Match pos (takeDigits s) [(1, takeDigits s)]) else None.
Proof.
  unfold matchHere, digitsPattern. cbn [run groupsOf m_rest].
  rewrite (repeatLoop_digits (fun st' => setCap 1 (MState prev s pos []) st')) by lia.
  cbn [Nat.eqb andb]. destruct (startsWithDigit s); [| reflexivity].
  cbn [negb]. unfold setCap. cbn [m_pos m_rest m_caps].
  destruct (afterDigits_pos s prev pos []) as [-> ->].
  replace (pos + String.length (takeDigits s) - pos) with (String.length (takeDigits s)) by lia.
  rewrite substring_takeDigits. reflexivity.
Qed.

Lemma search_digits (s : string) :
  forall prev pos,
    (fun m => group m 1) <$> search false digitsPattern prev s pos
    = Some <$> firstIntegerLiteral s.
Proof.
  induction s as [| c s' IH]; intros prev pos.
  - reflexivity.
  - cbn [search]. rewrite matchHere_digits. cbn [startsWithDigit firstIntegerLiteral].
    destruct (Js.isDigit c); [reflexivity | apply IH].
Qed.

Lemma exec_digits (message : string) :
  (fun m => group m 1) <$> exec (re "(\d+)") message = Some <$> firstIntegerLiteral message.
Proof. rewrite re_digits. apply search_digits. Qed.

(** *** [parseInt] on a run of digits *)

Lemma takeDigits_allDigits (s : string) : allDigits (takeDigits s) = true.
Proof.
  induction s as [| c s' IH]; simpl; [reflexivity |].
  destruct (Js.isDigit c) eqn:Hc; simpl; [rewrite Hc, IH |]; reflexivity.
Qed.

Lemma isDigit_code (c : ascii) :
  Js.isDigit c = true -> (48 <= Js.code c <= 57)%N.
Proof.
  unfold Js.isDigit, Js.between. intros H. apply andb_true_iff in H as [H1 H2].
  apply N.leb_le in H1, H2. lia.
Qed.

Lemma hexVal_digit (c : ascii) :
  Js.isDigit c = true ->
  Num.hexVal c = Some (Z.of_N (Js.code c - 48)) /\ (Z.of_N (Js.code c - 48) <? 10)%Z = true.
Proof.
  intros H. unfold Num.hexVal. rewrite H. split; [reflexivity |].
  apply isDigit_code in H. apply Z.ltb_lt. lia.
Qed.

Lemma digits_allDigits (ds : string) :
  forall acc : option Z,
    allDigits ds = true ->
    Num.digits 10 acc ds =
    match ds with
    | EmptyString => acc
    | _ => Some (decimalFrom (default 0%Z acc) ds)
    end.
Proof.
  induction ds as [| c ds' IH]; intros acc Hall; [reflexivity |].
  simpl in Hall. apply andb_true_iff in Hall as [Hc Hall].
  cbn [Num.digits]. destruct (hexVal_digit c Hc) as [-> ->].
  rewrite (IH _ Hall). cbn [decimalFrom default].
  destruct ds'; reflexivity.
Qed.

Lemma parseInt_digits (ds : string) :
  allDigits ds = true -> ds <> EmptyString ->
  Num.parseInt ds = Some (decimalFrom 0 ds).
Proof.
  intros Hall Hne. destruct ds as [| c ds']; [congruence |]. clear Hne.
  simpl in Hall. apply andb_true_iff in Hall as [Hc Hall].
  pose proof (isDigit_code c Hc) as Hrange.
  assert (Hspace : Js.isSpace c = false).
  { unfold Js.isSpace, Js.between.
    replace (Js.code c <=? 13)%N with false by (symmetry; apply N.leb_gt; lia).
    replace (Js.code c =? 32)%N with false by (symmetry; apply N.eqb_neq; lia).
    replace (Js.code c =? 160)%N with false by (symmetry; apply N.eqb_neq; lia).
    rewrite andb_false_r. reflexivity. }
  unfold Num.parseInt. cbn [Js.trimStart]. rewrite Hspace.
  assert (Hds : Num.digits 10 None (String c ds') = Some (decimalFrom 0 (String c ds'))).
  { rewrite digits_allDigits by (simpl; rewrite Hc, Hall; reflexivity). reflexivity. }
  assert (Hone : forall z : Z, (1 * z = z)%Z) by (intros; lia).
  destruct (Ascii.eqb c "-") eqn:Hminus.
  { apply Ascii.eqb_eq in Hminus. subst c. vm_compute in Hc. discriminate. }
  destruct (Ascii.eqb c "+") eqn:Hplus.
  { apply Ascii.eqb_eq in Hplus. subst c. vm_compute in Hc. discriminate. }
  destruct (Ascii.eqb c "0") eqn:Hzero.
  - apply Ascii.eqb_eq in Hzero. subst c.
    destruct ds' as [| d ds''].
    + vm_compute. reflexivity.
    + simpl in Hall. apply andb_true_iff in Hall as [Hd Hall].
      destruct (Ascii.eqb d "x") eqn:Hx.
      { apply Ascii.eqb_eq in Hx. subst d. vm_compute in Hd. discriminate. }
      destruct (Ascii.eqb d "X") eqn:HX.
      { apply Ascii.eqb_eq in HX. subst d. vm_compute in Hd. discriminate. }
      apply Ascii.eqb_neq in Hx, HX.
      transitivity (Z.mul 1 <$> Num.digits 10 None (String "0" (String d ds''))).
      * destruct d as [[] [] [] [] [] [] [] []]; try reflexivity; congruence.
      * rewrite Hds. simpl. f_equal. apply Hone.
  - apply Ascii.eqb_neq in Hminus, Hplus, Hzero.
    transitivity (Z.mul 1 <$> Num.digits 10 None (String c ds')).
    + destruct c as [[] [] [] [] [] [] [] []]; try reflexivity; congruence.
    + rewrite Hds. simpl. f_equal. apply Hone.
Qed.

End Digits.

(* ====================================================================== *)
(** ** The service, call by call *)
(* ====================================================================== *)

Section ServiceFacts.

Context {D : Type} (host : Host D).

(** *** The context manager, seen from one session *)

Lemma getContext_spec (sessionId : string) (w : World D) :
  let '(r, w') := ChatService.getContext sessionId w in
  r = Ok (sessionOf sessionId w) /\
  sessionOf sessionId w' = sessionOf sessionId w /\
  sessions w' !! sessionId = Some (sessionOf sessionId w) /\
  database w' = database w /\ console w' = console w.
Proof.
  unfold ChatService.getContext, ChatService.onContext, sessionOf,
    ConversationContext.getContext.
  destruct (sessions w !! sessionId) as [ctx |] eqn:Hctx; simpl.
  - rewrite Hctx. auto.
  - rewrite lookup_insert_eq. auto.
Qed.

Lemma INTENTS_nonEmpty (i : Intent) : Js.nonEmpty (INTENTS i) = true.
Proof. destruct i; reflexivity. Qed.

Lemma updateContext_spec (sessionId : string) (updates : Updates) (w : World D) :
  let '(r, w') := ChatService.updateContext sessionId updates w in
  r = Ok (updated updates (sessionOf sessionId w)) /\
  sessionOf sessionId w' = updated updates (sessionOf sessionId w) /\
  sessions w' !! sessionId = Some (updated updates (sessionOf sessionId w)) /\
  database w' = database w /\ console w' = console w.
Proof.
  unfold ChatService.updateContext, ChatService.onContext, sessionOf,
    ConversationContext.updateContext, ConversationContext.getContext, updated.
  destruct (sessions w !! sessionId) as [ctx |] eqn:Hctx; simpl;
    rewrite !lookup_insert_eq; simpl;
    destruct (u_lastIntent updates) as [i |]; try rewrite INTENTS_nonEmpty; auto.
Qed.

Lemma getMissingEntities_spec (sessionId : string) (w : World D) :
  let '(r, w') := ChatService.getMissingEntities sessionId w in
  (exists missing, r = Ok missing) /\
  sessionOf sessionId w' = sessionOf sessionId w /\
  database w' = database w /\ console w' = console w.
Proof.
  unfold ChatService.getMissingEntities, ChatService.onContext, sessionOf,
    ConversationContext.getMissingEntities, ConversationContext.getContext.
  destruct (sessions w !! sessionId) as [ctx |] eqn:Hctx; simpl.
  - rewrite Hctx. eauto.
  - rewrite lookup_insert_eq. eauto.
Qed.

Lemma clearContext_spec (sessionId : string) (w : World D) :
  let '(r, w') := ChatService.clearContext sessionId w in
  r = Ok tt /\ sessions w' !! sessionId = None /\
  sessionOf sessionId w' = ConversationContext.newSession.
Proof.
  unfold ChatService.clearContext, ChatService.onContext, sessionOf,
    ConversationContext.clearContext, ConversationContext.getContext. simpl.
  rewrite lookup_delete_eq. auto.
Qed.

(** *** Persistence *)

(** [saveMessage] returns normally, whatever the SQL helpers do, and
    leaves the sessions alone. *)
Lemma saveMessage_spec (sessionId role content : string) (metadata : Metadata)
    (w : World D) :
  fst (ChatService.saveMessage host sessionId role content metadata w) = Ok tt /\
  sessions (snd (ChatService.saveMessage host sessionId role content metadata w))
    = sessions w.
Proof.
  unfold ChatService.saveMessage, tryCatch, bind, ChatService.dbQueryOne,
    ChatService.dbRunSql, ChatService.consoleError, ret.
  destruct (queryOne host _ _ (database w)) as [[row |] | e]; simpl.
  - destruct (runSql host _ _ (database w)) as [[[] | e] d]; simpl; auto.
  - destruct (runSql host _ _ (database w)) as [[[] | e] d]; simpl; auto.
    destruct (runSql host _ _ d) as [[[] | e] d']; simpl; auto.
  - auto.
Qed.

(** A failure of the SQL helpers ends up on the console. *)
Lemma saveMessage_logs (sessionId role content : string) (metadata : Metadata)
    (w : World D) (e : string) :
  queryOne host "SELECT id FROM sessions WHERE id = ?" [sessionId] (database w) = Throw e ->
  console (snd (ChatService.saveMessage host sessionId role content metadata w))
    = console w ++ ["Failed to save message: " +:+ e].
Proof.
  intros Hq.
  unfold ChatService.saveMessage, tryCatch, bind, ChatService.dbQueryOne,
    ChatService.consoleError. simpl. rewrite Hq. reflexivity.
Qed.

Lemma planRoutes_spec (entities : gmap string value) (w : World D) :
  snd (ChatService.planRoutes host entities w) = w.
Proof.
  unfold ChatService.planRoutes.
  destruct (negb _ || negb _); [reflexivity |].
  unfold bind, ret. destruct (searchRoutes host _ _ _ _ _); reflexivity.
Qed.

End ServiceFacts.

(* ====================================================================== *)
(** ** Route selection *)
(* ====================================================================== *)

Lemma firstIntegerLiteral_digits (s ds : string) :
  firstIntegerLiteral s = Some ds -> allDigits ds = true /\ ds <> EmptyString.
Proof.
  induction s as [| c s' IH]; simpl; [congruence |].
  destruct (Js.isDigit c) eqn:Hc; [| exact IH].
  intros [= <-]. split; [| congruence].
  simpl. rewrite Hc. apply takeDigits_allDigits.
Qed.

Lemma handleRouteSelection_run {D : Type} (host : Host D) (sessionId message : string)
    (w : World D) :
  ChatService.handleRouteSelection host sessionId message w
  = (Ok (renderSelection host
           (selectionOf (Session.lastRoutes (sessionOf sessionId w)) message)),
     snd (ChatService.getContext sessionId w)).
Proof.
  unfold ChatService.handleRouteSelection, bind.
  pose proof (getContext_spec sessionId w) as Hctx.
  destruct (ChatService.getContext sessionId w) as [r w1].
  destruct Hctx as (-> & _). cbn [snd].
  unfold selectionOf, firstInteger.
  destruct (Session.lastRoutes (sessionOf sessionId w)) as [[| r0 rest] |];
    [reflexivity | | reflexivity].
  set (routes := r0 :: rest).
  pose proof (exec_digits message) as Hexec.
  destruct (RegExp.exec (re "(\d+)") message) as [numMatch |];
    destruct (firstIntegerLiteral message) as [ds |] eqn:Hds;
    cbv [fmap option_fmap option_map] in Hexec; try congruence; [| reflexivity].
  assert (Hgroup : RegExp.group numMatch 1 = Some ds) by congruence.
  rewrite Hgroup.
  change (default "" (Some ds)) with ds.
  destruct (firstIntegerLiteral_digits _ _ Hds) as [Hall Hne].
  rewrite (parseInt_digits ds Hall Hne).
  change (decimalFrom 0 <$> Some ds) with (Some (decimalFrom 0 ds)). cbv iota beta.
  set (n := decimalFrom 0 ds).
  replace ((0 <=? n - 1)%Z && (n - 1 <? Z.of_nat (length routes))%Z)
    with ((1 <=? n)%Z && (n <=? Z.of_nat (length routes))%Z).
  - destruct ((1 <=? n)%Z && (n <=? Z.of_nat (length routes))%Z); [| reflexivity].
    destruct (routes !! Z.to_nat (n - 1)); reflexivity.
  - destruct (1 <=? n)%Z eqn:H1, (n <=? Z.of_nat (length routes))%Z eqn:H2,
      (0 <=? n - 1)%Z eqn:H3, (n - 1 <? Z.of_nat (length routes))%Z eqn:H4;
      try reflexivity; exfalso;
      repeat match goal with
        | H : (_ <=? _)%Z = true |- _ => apply Z.leb_le in H
        | H : (_ <=? _)%Z = false |- _ => apply Z.leb_gt in H
        | H : (_ <? _)%Z = true |- _ => apply Z.ltb_lt in H
        | H : (_ <? _)%Z = false |- _ => apply Z.ltb_ge in H
        end; lia.
Qed.


(* ====================================================================== *)
(** ** Turns, sessions and persistence *)
(* ====================================================================== *)

Lemma bind_run {D A B : Type} (m : M D A) (k : A -> M D B) (w : World D) :
  bind m k w =
  match m w with
  | (Ok a, w') => k a w'
  | (Throw e, w') => (Throw e, w')
  end.
Proof. reflexivity. Qed.

(** One step of a computation of the service: the first call of the chain
    is replaced by what its specification says of it. *)
Ltac run_getContext :=
  rewrite bind_run;
  match goal with
  | |- context [ChatService.getContext ?s ?w] =>
      let H := fresh "Hget" in
      let r := fresh "r" in
      let w' := fresh "w" in
      pose proof (getContext_spec s w) as H;
      destruct (ChatService.getContext s w) as [r w'];
      destruct H as (-> & H & _); cbv iota beta
  end.

Ltac run_updateContext :=
  rewrite bind_run;
  match goal with
  | |- context [ChatService.updateContext ?s ?u ?w] =>
      let H := fresh "Hupd" in
      let r := fresh "r" in
      let w' := fresh "w" in
      pose proof (updateContext_spec s u w) as H;
      destruct (ChatService.updateContext s u w) as [r w'];
      destruct H as (-> & H & _); cbv iota beta
  end.

Ltac run_saveMessage host :=
  rewrite bind_run;
  match goal with
  | |- context [ChatService.saveMessage host ?s ?role ?c ?md ?w] =>
      let H := fresh "Hsave" in
      let r := fresh "r" in
      let w' := fresh "w" in
      pose proof (saveMessage_spec host s role c md w) as H;
      destruct (ChatService.saveMessage host s role c md w) as [r w'];
      cbn [fst snd] in H; destruct H as (-> & H); cbv iota beta
  end.

Section Turns.

Context {D : Type} (host : Host D).
Variables (sessionId message : string) (w : World D).

Local Abbreviation before := (sessionOf sessionId w).
Local Abbreviation entities :=
  (extractEntities (now host) message (Session.entities before)).
Local Abbreviation userTurn := (mkMessage "user" message (isoNow (now host))).

(** The session once the user turn is recorded. *)
Local Abbreviation heard :=
  (updated (mkUpdates (Some entities) (Some (intent (detectIntent message entities)))
                      None None (Some userTurn)) before).

(** A select_route turn, step by step. *)
Lemma processMessage_select :
  intent (detectIntent message entities) = SELECT_ROUTE ->
  exists (response : string) (w' : World D),
    ChatService.processMessage host sessionId message w
    = (Ok (mkReply response
             (mkMetadata (Some SELECT_ROUTE)
                         (Some (confidence (detectIntent message entities)))
                         (Some entities) None)
             sessionId), w') /\
    response = renderSelection host (selectionOf (Session.lastRoutes before) message) /\
    sessions w' !! sessionId
    = Some (updated (mkUpdates None None None None
                               (Some (mkMessage "assistant" response (replyTime host))))
                    heard).
Proof.
  intros Hintent. unfold ChatService.processMessage.
  run_getContext. cbv zeta.
  rewrite Hintent.
  run_updateContext. rewrite Hget in Hupd.
  rewrite bind_run, bind_run, handleRouteSelection_run.
  cbv iota beta. unfold ret at 1. cbv iota beta.
  pose proof (getContext_spec sessionId w1) as Hget'.
  destruct (ChatService.getContext sessionId w1) as [r w2].
  destruct Hget' as (_ & Hget' & _). cbn [snd].
  rewrite Hupd. unfold updated at 1. cbn [Session.lastRoutes u_lastRoutes].
  set (response := renderSelection host _).
  rewrite bind_run.
  pose proof (updateContext_spec sessionId
                (mkUpdates None None None None
                   (Some (mkMessage "assistant" response (replyTime host)))) w2) as Hupd'.
  destruct (ChatService.updateContext sessionId _ w2) as [r' w3].
  destruct Hupd' as (-> & _ & Hlook & _). cbv iota beta.
  run_saveMessage host. run_saveMessage host.
  exists response, w5. split; [reflexivity |]. split; [reflexivity |].
  rewrite Hsave0, Hsave, Hlook, Hget', Hupd.
  reflexivity.
Qed.

End Turns.

(** C10. A select_route turn is read-only but for the bookkeeping of every
    message: the handler leaves every session as it finds it, and after the
    turn the phase and lastRoutes of the session are those before it, while
    the entities are merged, lastIntent is select_route, and the user and
    assistant turns are counted and appended to the history. *)
Theorem select_route_frame {D : Type} (host : Host D) (sessionId message : string)
    (w : World D) :
  let before := sessionOf sessionId w in
  let entities := extractEntities (now host) message (Session.entities before) in
  intent (detectIntent message entities) = SELECT_ROUTE ->
  (forall (w0 : World D) (other : string),
     sessionOf other (snd (ChatService.handleRouteSelection host sessionId message w0))
     = sessionOf other w0) /\
  exists (reply : Reply) (w' : World D) (after : Session.t),
    ChatService.processMessage host sessionId message w = (Ok reply, w') /\
    sessions w' !! sessionId = Some after /\
    Session.state after = Session.state before /\
    Session.lastRoutes after = Session.lastRoutes before /\
    Session.entities after = entities ∪ Session.entities before /\
    Session.lastIntent after = Some SELECT_ROUTE /\
    Session.turnCount after = Session.turnCount before + 2 /\
    Session.history after =
      ConversationContext.pushHistory
        (mkMessage "assistant" (text reply) (replyTime host))
        (ConversationContext.pushHistory
           (mkMessage "user" message (isoNow (now host))) (Session.history before)).
Proof.
  intros before entities Hintent. split.
  - intros w0 other. rewrite handleRouteSelection_run. cbn [snd].
    unfold ChatService.getContext, ChatService.onContext, sessionOf,
      ConversationContext.getContext.
    destruct (sessions w0 !! sessionId) as [ctx |] eqn:Hctx; cbn [sessions fst snd];
      [reflexivity |].
    destruct (decide (sessionId = other)) as [<- | Hne].
    + rewrite lookup_insert_eq, Hctx. reflexivity.
    + rewrite lookup_insert_ne by exact Hne.
      destruct (sessions w0 !! other); reflexivity.
  - destruct (processMessage_select host sessionId message w Hintent)
      as (response & w' & Hrun & _ & Hlook).
    subst before entities.
    eexists _, w', _. split; [exact Hrun |]. split; [exact Hlook |].
    unfold updated.
    cbn [Session.state Session.lastRoutes Session.entities Session.lastIntent
         Session.turnCount Session.history u_entities u_lastIntent u_state
         u_lastRoutes u_message default text].
    rewrite Hintent. repeat split; try reflexivity. lia.
Qed.

Lemma select_route_frame_witness :
  let h := Example.host [Example.deccan; Example.shivneri] false in
  let w := Example.after h "s1" ["Mumbai to Pune"] in
  Session.state (sessionOf "s1" w) = showing_results /\
  option_map (List.map Route.id) (Session.lastRoutes (sessionOf "s1" w))
  = Some ["r1"; "r2"] /\
  exists (reply : Reply) (w' : World (list string)) (after : Session.t),
    ChatService.processMessage h "s1" "select number 1" w = (Ok reply, w') /\
    sessions w' !! "s1" = Some after /\
    Session.state after = showing_results /\
    option_map (List.map Route.id) (Session.lastRoutes after) = Some ["r1"; "r2"] /\
    Session.lastIntent after = Some SELECT_ROUTE /\
    Session.turnCount after = Session.turnCount (sessionOf "s1" w) + 2.
Proof.
  cbv zeta.
  split; [vm_compute; reflexivity |]. split; [vm_compute; reflexivity |].
  destruct (select_route_frame (Example.host [Example.deccan; Example.shivneri] false)
              "s1" "select number 1"
              (Example.after (Example.host [Example.deccan; Example.shivneri] false)
                 "s1" ["Mumbai to Pune"]))
    as (_ & reply & w' & after & Hrun & Hlook & Hstate & Hroutes & _ & Hintent & Hturns & _).
  - vm_compute. reflexivity.
  - exists reply, w', after.
    split; [exact Hrun |]. split; [exact Hlook |].
    split; [rewrite Hstate; vm_compute; reflexivity |].
    split; [rewrite Hroutes; vm_compute; reflexivity |].
    split; [exact Hintent |]. exact Hturns.
Defined.

(** *** Counting the turns *)

Section Counting.

Context {D : Type} (host : Host D).

Lemma updateContext_turns (sessionId : string) (updates : Updates) (w : World D) :
  turnsOf sessionId (snd (ChatService.updateContext sessionId updates w))
  = turnsOf sessionId w + 1.
Proof.
  pose proof (updateContext_spec sessionId updates w) as H.
  destruct (ChatService.updateContext sessionId updates w) as [r w'].
  destruct H as (_ & H & _). unfold turnsOf. cbn [snd]. rewrite H.
  unfold updated. cbn [Session.turnCount]. lia.
Qed.

Ltac run_getMissing :=
  rewrite bind_run;
  match goal with
  | |- context [ChatService.getMissingEntities ?s ?w] =>
      let H := fresh "Hmiss" in
      let r := fresh "r" in
      let w' := fresh "w" in
      let missing := fresh "missing" in
      pose proof (getMissingEntities_spec s w) as H;
      destruct (ChatService.getMissingEntities s w) as [r w'];
      destruct H as ([missing ->] & H & _); cbv iota beta
  end.

Lemma handleTravelQuery_moves (sessionId : string) (entities : gmap string value)
    (i : Intent) (w : World D) :
  moves sessionId (ChatService.handleTravelQuery host sessionId entities i) w 1 2 1.
Proof.
  unfold moves, ChatService.handleTravelQuery, turnsOf.
  run_getMissing.
  destruct (Nat.ltb 0 (length missing)).
  - run_updateContext. cbn [ret fst snd]. rewrite Hupd, Hmiss.
    unfold updated. cbn [Session.turnCount]. lia.
  - run_updateContext. rewrite bind_run.
    pose proof (planRoutes_spec host entities w1) as Hplan.
    destruct (ChatService.planRoutes host entities w1) as [[routes | e] w2];
      cbn [snd] in Hplan; subst w2.
    + run_updateContext. cbn [ret fst snd]. rewrite Hupd0, Hupd, Hmiss.
      unfold updated. cbn [Session.turnCount]. lia.
    + cbn [fst snd]. rewrite Hupd, Hmiss. unfold updated. cbn [Session.turnCount]. lia.
Qed.

Lemma handleCompareRoutes_moves (sessionId : string) (entities : gmap string value)
    (w : World D) :
  moves sessionId (ChatService.handleCompareRoutes host sessionId entities) w 0 2 1.
Proof.
  unfold moves, ChatService.handleCompareRoutes.
  run_getContext.
  assert (Hturns : turnsOf sessionId w0 = turnsOf sessionId w)
    by (unfold turnsOf; rewrite Hget; reflexivity).
  pose proof (handleTravelQuery_moves sessionId entities COMPARE_ROUTES w0) as Hq.
  unfold moves in Hq. rewrite Hturns in Hq.
  destruct (Session.lastRoutes (sessionOf sessionId w)) as [[| r0 rest] |];
    try (cbn [ret fst snd]; lia);
    (destruct (truthyAt entities "origin" && truthyAt entities "destination");
     [destruct (fst (ChatService.handleTravelQuery host sessionId entities COMPARE_ROUTES w0));
      lia
     | cbn [ret fst snd]; lia]).
Qed.

Lemma handlePreference_moves (sessionId : string) (entities : gmap string value)
    (w : World D) :
  moves sessionId (ChatService.handlePreference host sessionId entities) w 0 2 1.
Proof.
  unfold moves, ChatService.handlePreference.
  run_getContext.
  assert (Hturns : turnsOf sessionId w0 = turnsOf sessionId w)
    by (unfold turnsOf; rewrite Hget; reflexivity).
  pose proof (handleTravelQuery_moves sessionId entities TRAVEL_SEARCH w0) as Hq.
  unfold moves in Hq. rewrite Hturns in Hq.
  destruct (truthyAt entities "origin" && truthyAt entities "destination").
  - destruct (fst (ChatService.handleTravelQuery host sessionId entities TRAVEL_SEARCH w0));
      lia.
  - cbn [ret fst snd]. lia.
Qed.

End Counting.

Lemma moves_getContext_after {D A : Type} (sessionId : string) (m : M D A)
    (f : A -> Session.t -> (string * Metadata)) (w : World D) (lo hi thrown : nat) :
  moves sessionId m w lo hi thrown ->
  moves sessionId
        (bind m (fun a => bind (ChatService.getContext sessionId)
                               (fun ctx => ret (f a ctx)))) w lo hi thrown.
Proof.
  unfold moves. rewrite bind_run.
  destruct (m w) as [[a | e] w1]; cbn [fst snd]; [| auto].
  rewrite bind_run.
  pose proof (getContext_spec sessionId w1) as Hget.
  destruct (ChatService.getContext sessionId w1) as [r w2].
  destruct Hget as (-> & Hget & _). cbn [ret fst snd].
  unfold turnsOf. rewrite Hget. auto.
Qed.

Lemma moves_then_ret {D A B : Type} (sessionId : string) (m : M D A) (f : A -> B)
    (w : World D) (lo hi thrown : nat) :
  moves sessionId m w lo hi thrown ->
  moves sessionId (bind m (fun a => ret (f a))) w lo hi thrown.
Proof.
  unfold moves. rewrite bind_run.
  destruct (m w) as [[a | e] w1]; cbn [ret fst snd]; auto.
Qed.

Lemma moves_weaken {D A : Type} (sessionId : string) (m : M D A) (w : World D)
    (lo hi thrown lo' hi' : nat) :
  lo' <= lo -> hi <= hi' ->
  moves sessionId m w lo hi thrown -> moves sessionId m w lo' hi' thrown.
Proof.
  unfold moves. intros Hlo Hhi. destruct (fst (m w)); lia.
Qed.

Lemma turnsOf_sessions {D : Type} (sessionId : string) (w w' : World D) :
  sessions w' = sessions w -> turnsOf sessionId w' = turnsOf sessionId w.
Proof. unfold turnsOf, sessionOf. intros ->. reflexivity. Qed.

(** A message whose intent is not goodbye moves the counter by 2 to 4. *)
Lemma processMessage_turns {D : Type} (host : Host D) (sessionId message : string)
    (w : World D) :
  intent (detectIntent message
            (extractEntities (now host) message (Session.entities (sessionOf sessionId w))))
    <> GOODBYE ->
  turnsOf sessionId w + 2
    <= turnsOf sessionId (snd (ChatService.processMessage host sessionId message w))
    <= turnsOf sessionId w + 4.
Proof.
  intros Hintent. unfold ChatService.processMessage.
  run_getContext. cbv zeta.
  set (entities := extractEntities (now host) message (Session.entities (sessionOf sessionId w)))
    in *.
  set (detected := intent (detectIntent message entities)) in *.
  run_updateContext.
  assert (Hheard : turnsOf sessionId w1 = turnsOf sessionId w + 1).
  { unfold turnsOf. rewrite Hupd, Hget. unfold updated. cbn [Session.turnCount]. lia. }
  clear Hupd Hget.
  match goal with
  | |- context [bind ?m ?k w1] =>
      assert (Hbranch : moves sessionId m w1 0 2 1); [| rewrite bind_run; unfold moves in Hbranch;
        destruct (m w1) as [[[response metadata] | e] w2]; cbn [fst snd] in Hbranch ]
  end.
  { destruct detected; try congruence.
    - apply moves_getContext_after, (moves_weaken _ _ _ 1 2 1); [lia | lia |].
      apply handleTravelQuery_moves.
    - unfold moves. run_updateContext. cbn [ret fst snd].
      unfold turnsOf. rewrite Hupd. unfold updated. cbn [Session.turnCount]. lia.
    - unfold moves. cbn [ret fst snd]. lia.
    - apply moves_then_ret, handlePreference_moves.
    - apply moves_getContext_after, (moves_weaken _ _ _ 1 2 1); [lia | lia |].
      apply handleTravelQuery_moves.
    - apply moves_getContext_after, (moves_weaken _ _ _ 1 2 1); [lia | lia |].
      apply handleTravelQuery_moves.
    - apply moves_then_ret, handleCompareRoutes_moves.
    - apply moves_then_ret. unfold moves. rewrite handleRouteSelection_run. cbn [fst snd].
      pose proof (getContext_spec sessionId w1) as Hget.
      destruct (ChatService.getContext sessionId w1) as [r w2].
      destruct Hget as (_ & Hget & _). cbn [snd]. unfold turnsOf. rewrite Hget. lia.
    - unfold moves. cbn [ret fst snd]. lia.
    - destruct (truthyAt entities "origin" && truthyAt entities "destination").
      + apply moves_getContext_after, (moves_weaken _ _ _ 1 2 1); [lia | lia |].
        apply handleTravelQuery_moves.
      + unfold moves. cbn [ret fst snd]. lia. }
  - cbv iota beta. run_updateContext.
    run_saveMessage host. run_saveMessage host. cbn [ret snd].
    repeat match goal with
      | H : sessions ?a = sessions ?b |- _ =>
          rewrite (turnsOf_sessions sessionId b a H); clear H
      end.
    assert (Hsaid : turnsOf sessionId w3 = turnsOf sessionId w2 + 1).
    { unfold turnsOf. rewrite Hupd. unfold updated. cbn [Session.turnCount]. lia. }
    lia.
  - cbn [snd]. lia.
Qed.

(** C4, as stated, fails: one "help" message moves the counter of a new
    session from 0 to 2. *)
Lemma turnCount_once_per_message_fails :
  let h := Example.host [] false in
  let out := ChatService.processMessage h "s1" "help" Example.start in
  (exists reply, fst out = Ok reply /\ md_intent (metadata reply) = Some HELP) /\
  turnsOf "s1" Example.start = 0 /\
  turnsOf "s1" (snd out) = 2 /\
  turnsOf "s1" (snd out) <> turnsOf "s1" Example.start + 1.
Proof.
  vm_compute. split; [eexists; split; reflexivity |].
  repeat split. discriminate.
Qed.

(** C4, amended. Each call of [updateContext] moves the turnCount of its
    session by exactly one, and a processed message whose intent is not
    goodbye makes two to four such calls: the counter grows by at least 2
    and at most 4. *)
Theorem turnCount_per_update {D : Type} (host : Host D) (sessionId message : string)
    (w : World D) :
  intent (detectIntent message
            (extractEntities (now host) message (Session.entities (sessionOf sessionId w))))
    <> GOODBYE ->
  (forall (updates : Updates) (w0 : World D),
     turnsOf sessionId (snd (ChatService.updateContext sessionId updates w0))
     = turnsOf sessionId w0 + 1) /\
  turnsOf sessionId w + 2
    <= turnsOf sessionId (snd (ChatService.processMessage host sessionId message w))
    <= turnsOf sessionId w + 4.
Proof.
  intros Hintent. split.
  - intros updates w0. apply updateContext_turns.
  - apply processMessage_turns, Hintent.
Qed.

Lemma turnCount_per_update_witness :
  turnsOf "s1" Example.start + 2
    <= turnsOf "s1"
         (snd (ChatService.processMessage (Example.host [] false) "s1" "help" Example.start))
    <= turnsOf "s1" Example.start + 4.
Proof.
  apply (turnCount_per_update (Example.host [] false) "s1" "help" Example.start).
  vm_compute. discriminate.
Defined.

(** Both bounds are met: a help message makes two updates, a search with
    both cities four. *)
Example turnCount_bounds_met :
  let h := Example.host [Example.deccan] false in
  turnsOf "s1" (Example.after h "s1" ["help"]) = 2 /\
  turnsOf "s1" (Example.after h "s1" ["Mumbai to Pune"]) = 4.
Proof. vm_compute. split; reflexivity. Qed.

(** C5. What the code does on goodbye: the session is cleared, and then the
    assistant turn is recorded for the same id, which makes a new session.
    After "bye" the id still has a session, with turnCount 1 and the goodbye
    reply as its history. *)
Theorem goodbye_leaves_a_session :
  let h := Example.host [] false in
  let w := Example.after h "s1" ["I prefer the train"] in
  let out := ChatService.processMessage h "s1" "bye" w in
  Session.entities (sessionOf "s1" w) !! "mode" = Some (VStr "train") /\
  (exists reply, fst out = Ok reply /\ md_intent (metadata reply) = Some GOODBYE) /\
  (exists after,
     sessions (snd out) !! "s1" = Some after /\
     Session.entities after = ∅ /\
     Session.lastIntent after = None /\
     Session.lastRoutes after = None /\
     Session.state after = idle /\
     Session.turnCount after = 1 /\
     List.map role (Session.history after) = ["assistant"]).
Proof.
  vm_compute. split; [reflexivity |].
  split; [eexists; split; reflexivity |].
  eexists. repeat split.
Qed.

(** *** Persistence is a side channel *)

Lemma observed_bind {D A B : Type} (m : M D A) (k k' : A -> M D B) (w : World D) :
  (forall a w1, observed (k a w1) = observed (k' a w1)) ->
  observed (bind m k w) = observed (bind m k' w).
Proof.
  intros Hk. rewrite !bind_run. destruct (m w) as [[a | e] w1]; [apply Hk | reflexivity].
Qed.

Lemma observed_saves {D : Type} (host : Host D) (sessionId message response : string)
    (metadata metadata' : Metadata) (reply : Reply) (w : World D) :
  observed
    (bind (ChatService.saveMessage host sessionId "user" message metadata) (fun _ =>
     bind (ChatService.saveMessage host sessionId "assistant" response metadata') (fun _ =>
     ret reply)) w)
  = (Ok reply, sessions w).
Proof.
  run_saveMessage host. run_saveMessage host.
  unfold observed. cbn [ret fst snd]. rewrite Hsave0, Hsave. reflexivity.
Qed.

(** Where an append can fail, and what is then on the console. *)
Lemma saveMessage_logged {D : Type} (host : Host D) (sessionId role content : string)
    (metadata : Metadata) (w : World D) :
  let selectSession := "SELECT id FROM sessions WHERE id = ?" in
  let insertSession := "INSERT INTO sessions (id, title) VALUES (?, ?)" in
  let insertMessage :=
    "INSERT INTO messages (id, session_id, role, content, metadata) VALUES (?, ?, ?, ?, ?)" in
  let out := ChatService.saveMessage host sessionId role content metadata w in
  let logged e := console (snd out) = console w ++ ["Failed to save message: " +:+ e] in
  (forall e,
     queryOne host selectSession [sessionId] (database w) = Throw e -> logged e) /\
  (forall e d,
     queryOne host selectSession [sessionId] (database w) = Ok None ->
     runSql host insertSession [sessionId; "Travel Planning"] (database w) = (Throw e, d) ->
     logged e) /\
  (forall e d1 d2,
     (exists row, queryOne host selectSession [sessionId] (database w) = Ok (Some row) /\
                  d1 = database w) \/
     (queryOne host selectSession [sessionId] (database w) = Ok None /\
      runSql host insertSession [sessionId; "Travel Planning"] (database w) = (Ok tt, d1)) ->
     runSql host insertMessage
       [uuidv4 host d1; sessionId; role; content; stringify host metadata] d1 = (Throw e, d2) ->
     logged e) /\
  (forall d1 d2,
     (exists row, queryOne host selectSession [sessionId] (database w) = Ok (Some row) /\
                  d1 = database w) \/
     (queryOne host selectSession [sessionId] (database w) = Ok None /\
      runSql host insertSession [sessionId; "Travel Planning"] (database w) = (Ok tt, d1)) ->
     runSql host insertMessage
       [uuidv4 host d1; sessionId; role; content; stringify host metadata] d1 = (Ok tt, d2) ->
     console (snd out) = console w /\ database (snd out) = d2).
Proof.
  cbv zeta.
  unfold ChatService.saveMessage, tryCatch, bind, ChatService.dbQueryOne,
    ChatService.dbRunSql, ChatService.consoleError, ret.
  split; [| split; [| split]].
  - intros e ->. reflexivity.
  - intros e d -> Hinsert. cbn. rewrite Hinsert. reflexivity.
  - intros e d1 d2 [(row & -> & ->) | [-> Hinsert]] Hmessage; cbn.
    + rewrite Hmessage. reflexivity.
    + rewrite Hinsert. cbn. rewrite Hmessage. reflexivity.
  - intros d1 d2 [(row & -> & ->) | [-> Hinsert]] Hmessage; cbn.
    + rewrite Hmessage. split; reflexivity.
    + rewrite Hinsert. cbn. rewrite Hmessage. split; reflexivity.
Qed.

(** C7. [saveMessage] returns normally whatever the SQL helpers do.  Each
    way the append can fail is logged: whether the SELECT of the session
    throws, or the INSERT of a session that is not there, or the INSERT of
    the message, the console gains the line of that error and nothing else;
    when none throws the console is left as it is.  And what
    [processMessage] returns (and the sessions it leaves) does not depend on
    the helpers: it is the same with helpers that throw as with helpers that
    succeed. *)
Theorem persistence_failure_not_surfaced {D : Type} (host : Host D)
    (queryOne' : string -> list string -> D -> Result (option string))
    (runSql' : string -> list string -> D -> Result () * D)
    (sessionId message : string) (w : World D) :
  let selectSession := "SELECT id FROM sessions WHERE id = ?" in
  let insertSession := "INSERT INTO sessions (id, title) VALUES (?, ?)" in
  let insertMessage :=
    "INSERT INTO messages (id, session_id, role, content, metadata) VALUES (?, ?, ?, ?, ?)" in
  (forall role content metadata w0,
     let out := ChatService.saveMessage host sessionId role content metadata w0 in
     let logged e := console (snd out) = console w0 ++ ["Failed to save message: " +:+ e] in
     fst out = Ok tt /\
     sessions (snd out) = sessions w0 /\
     (forall e,
        queryOne host selectSession [sessionId] (database w0) = Throw e -> logged e) /\
     (forall e d,
        queryOne host selectSession [sessionId] (database w0) = Ok None ->
        runSql host insertSession [sessionId; "Travel Planning"] (database w0) = (Throw e, d) ->
        logged e) /\
     (forall e d1 d2,
        (exists row, queryOne host selectSession [sessionId] (database w0) = Ok (Some row) /\
                     d1 = database w0) \/
        (queryOne host selectSession [sessionId] (database w0) = Ok None /\
         runSql host insertSession [sessionId; "Travel Planning"] (database w0) = (Ok tt, d1)) ->
        runSql host insertMessage
          [uuidv4 host d1; sessionId; role; content; stringify host metadata] d1
          = (Throw e, d2) ->
        logged e) /\
     (forall d1 d2,
        (exists row, queryOne host selectSession [sessionId] (database w0) = Ok (Some row) /\
                     d1 = database w0) \/
        (queryOne host selectSession [sessionId] (database w0) = Ok None /\
         runSql host insertSession [sessionId; "Travel Planning"] (database w0) = (Ok tt, d1)) ->
        runSql host insertMessage
          [uuidv4 host d1; sessionId; role; content; stringify host metadata] d1
          = (Ok tt, d2) ->
        console (snd out) = console w0 /\ database (snd out) = d2)) /\
  fst (ChatService.processMessage (withPersistence host queryOne' runSql') sessionId message w)
  = fst (ChatService.processMessage host sessionId message w) /\
  sessions (snd (ChatService.processMessage (withPersistence host queryOne' runSql')
                   sessionId message w))
  = sessions (snd (ChatService.processMessage host sessionId message w)).
Proof.
  cbv zeta. split.
  { intros role content metadata w0.
    split; [apply saveMessage_spec |]. split; [apply saveMessage_spec |].
    apply saveMessage_logged. }
  assert (Hobs : observed (ChatService.processMessage
                             (withPersistence host queryOne' runSql') sessionId message w)
                 = observed (ChatService.processMessage host sessionId message w)).
  { unfold ChatService.processMessage.
    apply observed_bind. intros ctx w1. cbv zeta.
    apply observed_bind. intros _ w2.
    apply observed_bind. intros [response metadata] w3.
    apply observed_bind. intros _ w4.
    rewrite !observed_saves. reflexivity. }
  unfold observed in Hobs. injection Hobs as Hfst Hsnd. split; assumption.
Qed.

(** A failure of either INSERT is logged like a failure of the SELECT. *)
Lemma persistence_failure_not_surfaced_witness :
  console (snd (ChatService.saveMessage Example2.readOnly "s1" "user" "hello" noMetadata
                  Example.start))
  = ["Failed to save message: attempt to write a readonly database"] /\
  console (snd (ChatService.saveMessage Example2.noMessagesTable "s1" "user" "hello"
                  noMetadata Example.start))
  = ["Failed to save message: no such table: messages"].
Proof.
  split.
  - apply (proj1 (proj2 (proj2 (proj2
             (proj1 (persistence_failure_not_surfaced Example2.readOnly
                       (queryOne Example2.readOnly) (runSql Example2.readOnly)
                       "s1" "hello" Example.start)
                    "user" "hello" noMetadata Example.start))))
           "attempt to write a readonly database" []);
      reflexivity.
  - apply (proj1 (proj2 (proj2 (proj2 (proj2
             (proj1 (persistence_failure_not_surfaced Example2.noMessagesTable
                       (queryOne Example2.noMessagesTable)
                       (runSql Example2.noMessagesTable)
                       "s1" "hello" Example.start)
                    "user" "hello" noMetadata Example.start)))))
           "no such table: messages" [] []).
    + left. exists "s1". split; reflexivity.
    + reflexivity.
Defined.

(** With a full disk the reply is the one of a working database, and the
    two failed appends are on the console. *)
Example full_disk_same_reply :
  let ok := Example.host [Example.deccan] false in
  let full := Example.host [Example.deccan] true in
  fst (ChatService.processMessage full "s1" "Mumbai to Pune" Example.start)
  = fst (ChatService.processMessage ok "s1" "Mumbai to Pune" Example.start) /\
  console (snd (ChatService.processMessage full "s1" "Mumbai to Pune" Example.start))
  = ["Failed to save message: disk full"; "Failed to save message: disk full"] /\
  console (snd (ChatService.processMessage ok "s1" "Mumbai to Pune" Example.start)) = [].
Proof. vm_compute. repeat split. Qed.

Lemma saveMessage_console {D : Type} (host : Host D) (sessionId role content : string)
    (metadata : Metadata) (w : World D) :
  let out := ChatService.saveMessage host sessionId role content metadata w in
  console (snd out) = console w \/
  exists e, console (snd out) = console w ++ ["Failed to save message: " +:+ e].
Proof.
  unfold ChatService.saveMessage, tryCatch, bind, ChatService.dbQueryOne,
    ChatService.dbRunSql, ChatService.consoleError, ret. cbv zeta.
  destruct (queryOne host _ _ (database w)) as [[row |] | e]; cbn.
  - destruct (runSql host _ _ (database w)) as [[[] | e] d]; cbn; eauto.
  - destruct (runSql host _ _ (database w)) as [[[] | e] d]; cbn; eauto.
    destruct (runSql host _ _ d) as [[[] | e] d']; cbn; eauto.
  - eauto.
Qed.

(* ====================================================================== *)
(** ** More of the engine: what extraction and detection can yield *)
(* ====================================================================== *)

(** *** What an extraction pass can produce *)

Lemma allSlots_empty : allSlots ∅.
Proof. intros key v. rewrite lookup_empty. congruence. Qed.

Lemma allSlots_setIfTruthy (key : string) (x : option value) (o : gmap string value) :
  (forall v, x = Some v -> truthy v = true -> slotValue key v) ->
  allSlots o -> allSlots (setIfTruthy key x o).
Proof.
  intros Hx Ho. unfold setIfTruthy.
  destruct x as [v |]; [| exact Ho].
  destruct (truthy v) eqn:Hv; [| exact Ho].
  intros k v'. destruct (decide (key = k)) as [<- | Hne].
  - rewrite lookup_insert_eq. intros [= <-]. auto.
  - rewrite lookup_insert_ne by exact Hne. apply Ho.
Qed.

Lemma resolveCity_in_cities (text : string) :
  truthy (resolveCity text) = true -> cityValue (resolveCity text).
Proof.
  intros Htruthy.
  destruct (resolveCity_cases text) as [H0 | [(c & Hc & Hin) | (n & Hn & _)]].
  - rewrite H0 in Htruthy. discriminate.
  - left. exists c. split; [exact Hc |].
    cbn in Hin. unfold canonicalCities.
    repeat (destruct Hin as [<- | Hin]; [cbn; tauto |]). contradiction.
  - right. rewrite Hn. f_equal. apply (resolveCity_inherited text), Hn.
Qed.

Lemma resolveGroup_in_cities (m : RegExp.MatchResult) (n : nat) :
  truthy (resolveGroup m n) = true -> cityValue (resolveGroup m n).
Proof. apply resolveCity_in_cities. Qed.

Lemma extractLocations_in_cities (text : string) :
  (truthy (loc_origin (extractLocations text)) = true ->
   cityValue (loc_origin (extractLocations text))) /\
  (truthy (loc_destination (extractLocations text)) = true ->
   cityValue (loc_destination (extractLocations text))).
Proof.
  unfold extractLocations.
  destruct (RegExp.exec _ text) as [fromTo |].
  { cbn [loc_origin loc_destination]. split; apply resolveGroup_in_cities. }
  destruct (RegExp.exec _ text) as [xToY |]; cbn [mbind option_bind]; cbv zeta;
    [destruct (truthy (resolveGroup xToY 1) && truthy (resolveGroup xToY 2)) |];
    try (cbn [loc_origin loc_destination]; split; apply resolveGroup_in_cities);
    (destruct (RegExp.exec _ text) as [toFrom |];
     [ cbn [loc_origin loc_destination]; split; apply resolveGroup_in_cities |];
     cbn [loc_origin loc_destination];
     split;
     (destruct (RegExp.exec _ text) as [m |];
      [apply resolveGroup_in_cities | discriminate])).
Qed.

Lemma extractMode_values (text m : string) :
  extractMode text = Some m -> In (VStr m) [VStr "train"; VStr "bus"; VStr "any"].
Proof.
  unfold extractMode.
  repeat (destruct (RegExp.test _ text); [intros [= <-]; cbn; tauto |]). congruence.
Qed.

Lemma extractClass_values (text c : string) :
  extractClass text = Some c ->
  In (VStr c) [VStr "first"; VStr "second"; VStr "sleeper"; VStr "ac"; VStr "general"].
Proof.
  unfold extractClass.
  repeat (destruct (RegExp.test _ text); [intros [= <-]; cbn; tauto |]). congruence.
Qed.

Lemma extractBudget_values (text b : string) :
  extractBudget text = Some b ->
  In (VStr b) [VStr "budget"; VStr "premium"; VStr "balanced"].
Proof.
  unfold extractBudget.
  repeat (destruct (RegExp.test _ text); [intros [= <-]; cbn; tauto |]). congruence.
Qed.

Lemma nonEmpty_ne (s : string) : Js.nonEmpty s = true -> s <> EmptyString.
Proof. destruct s; simpl; congruence. Qed.

(** The entries an extraction pass finds in the message. *)
Lemma extractEntities_found (now : Clock) (message : string) :
  exists found : gmap string value,
    allTruthy found /\ allSlots found /\
    forall context, extractEntities now message context = mergeWithContext found context.
Proof.
  unfold extractEntities. eexists. split; [| split; [| intros context; reflexivity]].
  - repeat apply allTruthy_setIfTruthy. apply allTruthy_empty.
  - pose proof (extractLocations_in_cities (Js.trim (Js.toLowerCase message))) as Hloc.
    repeat apply allSlots_setIfTruthy; try apply allSlots_empty; intros v Hv Htruthy.
    + do 5 right. split; [reflexivity |].
      destruct (extractBudget _) as [b |] eqn:Hb; [| discriminate]. injection Hv as <-.
      eapply extractBudget_values; eassumption.
    + do 4 right. left. split; [reflexivity |].
      destruct (extractClass _) as [c |] eqn:Hc; [| discriminate]. injection Hv as <-.
      eapply extractClass_values; eassumption.
    + do 3 right. left. split; [reflexivity |].
      destruct (extractTime _) as [t |]; [| discriminate]. injection Hv as <-. eauto.
    + do 2 right. left. split; [reflexivity |].
      destruct (extractDate _ _) as [d |]; [| discriminate]. injection Hv as <-.
      exists d. split; [reflexivity | apply nonEmpty_ne, Htruthy].
    + right. left. split; [reflexivity |].
      destruct (extractMode _) as [m |] eqn:Hm; [| discriminate]. injection Hv as <-.
      eapply extractMode_values; eassumption.
    + left. split; [right; reflexivity |].
      injection Hv as <-. apply (proj2 Hloc), Htruthy.
    + left. split; [left; reflexivity |].
      injection Hv as <-. apply (proj1 Hloc), Htruthy.
Qed.

(** X1. What a message alone yields is a record of slots: each key is one of
    the seven slot names and its value is of the slot's kind: for origin and
    destination a canonical city or, where the text names the city
    "constructor", the function every object inherits under that name;
    train, bus or any for the mode, a non-empty date string, a time range, a
    seat class, a budget preference.  Whatever else the record
    [extractEntities] returns holds, it has from the context, unchanged. *)
Theorem extracted_entries_are_slots (now : Clock) (message : string)
    (context : gmap string value) (key : string) (v : value) :
  extractEntities now message context !! key = Some v ->
  (extractEntities now message ∅ !! key = Some v /\ slotValue key v) \/
  (extractEntities now message ∅ !! key = None /\ context !! key = Some v).
Proof.
  destruct (extractEntities_found now message) as (found & Htruthy & Hslots & Hmerge).
  rewrite !Hmerge, !lookup_mergeWithContext, lookup_empty.
  destruct (found !! key) as [x |] eqn:Hx; [| auto].
  rewrite (truthy_defined x (Htruthy key x Hx)). intros [= <-]. left.
  split; [reflexivity | apply Hslots, Hx].
Qed.

Lemma extracted_entries_are_slots_witness :
  slotValue "origin" (VInherited "constructor").
Proof.
  destruct (extracted_entries_are_slots Example.clock "from constructor to pune"
              {["origin" := VStr "Mumbai"]} "origin" (VInherited "constructor"))
    as [[_ H] | [H _]].
  - vm_compute. reflexivity.
  - exact H.
  - vm_compute in H. discriminate H.
Defined.

Lemma extractEntities_union (now : Clock) (message : string)
    (context : gmap string value) :
  extractEntities now message context ∪ context = extractEntities now message context.
Proof.
  apply map_eq. intros key. rewrite lookup_union.
  rewrite (lookup_extractEntities now message context).
  destruct (extractEntities now message ∅ !! key) as [x |];
    destruct (context !! key); reflexivity.
Qed.

(** X2. Extraction composes: a second pass over the same message changes
    nothing, and the record a pass returns already holds every entry of the
    context it was given, so that merging it over the stored entities, as
    [updateContext] does, gives the record itself. *)
Theorem extractEntities_absorbs (now : Clock) (message : string)
    (context : gmap string value) :
  extractEntities now message (extractEntities now message context)
    = extractEntities now message context /\
  extractEntities now message context ∪ context = extractEntities now message context /\
  dom context ⊆ dom (extractEntities now message context).
Proof.
  split; [| split].
  - apply map_eq. intros key. rewrite (lookup_extractEntities now message (extractEntities _ _ _)).
    rewrite (lookup_extractEntities now message context).
    destruct (extractEntities now message ∅ !! key); reflexivity.
  - apply extractEntities_union.
  - intros key. rewrite !elem_of_dom. intros [v Hv].
    rewrite lookup_extractEntities, Hv.
    destruct (extractEntities now message ∅ !! key); eauto.
Qed.

(** *** Which intents can win *)

Lemma countMatches_le_from (patterns : list RegExp.t) (normalized : string) (n : Z) :
  (fold_left (fun n pattern => if RegExp.test pattern normalized then n + 1 else n)
             patterns n <= n + Z.of_nat (length patterns))%Z.
Proof.
  revert n. induction patterns as [| p rest IH]; intros n; simpl length; simpl fold_left; [lia |].
  destruct (RegExp.test p normalized); [specialize (IH (n + 1)%Z) | specialize (IH n)]; lia.
Qed.

Lemma countMatches_le (patterns : list RegExp.t) (normalized : string) :
  (countMatches patterns normalized <= Z.of_nat (length patterns))%Z.
Proof. apply (countMatches_le_from patterns normalized 0). Qed.

Lemma patternScores_In (i : Intent) (s : Z) (normalized : string) :
  In (i, s) (patternScores normalized) ->
  exists patterns, In (i, patterns) INTENT_PATTERNS /\ s = countMatches patterns normalized.
Proof.
  unfold patternScores. intros H. apply List.in_map_iff in H as ([j ps] & Heq & Hin).
  injection Heq as <- <-. eauto.
Qed.

(** The intents that have more than one pattern. *)
Lemma single_pattern_intents (i : Intent) (patterns : list RegExp.t) :
  In (i, patterns) INTENT_PATTERNS ->
  length patterns <= 1 \/ In i [GREETING; HELP; SELECT_ROUTE; TRAVEL_SEARCH].
Proof.
  intros Hin.
  assert (Hall : forallb (fun kv => Nat.leb (length (snd kv)) 1 ||
                                    existsb (fun j => bool_decide (fst kv = j))
                                            [GREETING; HELP; SELECT_ROUTE; TRAVEL_SEARCH])
                         INTENT_PATTERNS = true) by (vm_compute; reflexivity).
  rewrite forallb_forall in Hall. specialize (Hall _ Hin). cbn [fst snd] in Hall.
  apply orb_true_iff in Hall as [H | H].
  - left. apply Nat.leb_le, H.
  - right. apply existsb_exists in H as (j & Hj & Heq).
    apply bool_decide_eq_true_1 in Heq. subst j. exact Hj.
Qed.

Lemma located_intent_cases (message : string) (entities : gmap string value) :
  located entities = true ->
  In (intent (detectIntent message entities))
     [GREETING; HELP; SELECT_ROUTE; TRAVEL_SEARCH].
Proof.
  intros Hloc. unfold located in Hloc.
  rewrite (detectIntent_located message entities Hloc). cbn [intent].
  set (scores := boostedScores (Js.trim (Js.toLowerCase message)) entities).
  pose proof (best_at_least_two message entities Hloc) as Hbest. fold scores in Hbest.
  assert (Hpos : (0 < fst (bestOf scores))%Z) by lia.
  pose proof (bestOf_selected scores Hpos) as Hsel.
  unfold scores in Hsel at 3. rewrite (boosted_eq message entities Hloc) in Hsel.
  apply setScore_In_inv in Hsel as [[-> _] | Hsel]; [cbn; tauto |].
  apply patternScores_In in Hsel as (patterns & Hin & Hscore).
  destruct (single_pattern_intents _ _ Hin) as [Hone | Hfour]; [| exact Hfour].
  pose proof (countMatches_le patterns (Js.trim (Js.toLowerCase message))). lia.
Qed.

(** X3. Once origin or destination is present the winner is travel_search,
    greeting, help or select_route, whatever the text: goodbye, thanks,
    price_query, schedule_query, compare_routes and route_preference have one
    pattern each, so their score is at most 1, below the boosted 2. *)
Theorem located_intent_is_one_of_four (message : string) (entities : gmap string value) :
  located entities = true ->
  In (intent (detectIntent message entities))
     [GREETING; HELP; SELECT_ROUTE; TRAVEL_SEARCH].
Proof. apply located_intent_cases. Qed.

Lemma located_intent_is_one_of_four_witness :
  In (intent (detectIntent "bye, thanks" Example.mumbaiPune))
     [GREETING; HELP; SELECT_ROUTE; TRAVEL_SEARCH].
Proof.
  apply (located_intent_is_one_of_four "bye, thanks" Example.mumbaiPune).
  vm_compute. reflexivity.
Defined.

Section Unlocated.

Variables (message : string) (entities : gmap string value).
Hypothesis unlocated : located entities = false.

Local Abbreviation normalized := (Js.trim (Js.toLowerCase message)).

Lemma detectIntent_unlocated :
  detectIntent message entities =
  mkDetection (snd (bestOf (patternScores normalized)))
              (Qmin (inject_Z (fst (bestOf (patternScores normalized))) / 3) 1).
Proof.
  unfold located in unlocated.
  unfold detectIntent, boostedScores. rewrite unlocated.
  destruct (bestOf (patternScores normalized)) as [m b]. cbn [fst snd].
  rewrite andb_false_r. reflexivity.
Qed.

End Unlocated.

Lemma bestOf_nonneg (scores : Scores) : (0 <= fst (bestOf scores))%Z.
Proof.
  unfold bestOf. pose proof (bestOf_from scores 0%Z UNKNOWN) as H.
  destruct (fold_left _ scores (0%Z, UNKNOWN)) as [m b]. cbn [fst]. tauto.
Qed.

Lemma bestOf_zero (scores : Scores) :
  fst (bestOf scores) = 0%Z -> snd (bestOf scores) = UNKNOWN.
Proof.
  unfold bestOf. pose proof (bestOf_from scores 0%Z UNKNOWN) as H.
  destruct (fold_left _ scores (0%Z, UNKNOWN)) as [m b]. cbn [fst snd].
  destruct H as (_ & _ & [[_ ->] | [_ Hlt]]); [reflexivity | lia].
Qed.

(** X4. The confidence is always between 0 and 1. Without a location
    entity the intent is unknown exactly when no pattern of any intent
    matches the text, which is also exactly when the confidence is 0. *)
Theorem detectIntent_confidence (message : string) (entities : gmap string value) :
  (0 <= confidence (detectIntent message entities) /\
   confidence (detectIntent message entities) <= 1)%Q /\
  (located entities = false ->
   (intent (detectIntent message entities) = UNKNOWN <->
    forall i patterns, In (i, patterns) INTENT_PATTERNS ->
                       countMatches patterns (Js.trim (Js.toLowerCase message)) = 0%Z) /\
   (intent (detectIntent message entities) = UNKNOWN <->
    (confidence (detectIntent message entities) == 0)%Q)).
Proof.
  split.
  - unfold detectIntent.
    set (scores := boostedScores _ _).
    pose proof (bestOf_nonneg scores) as Hnn.
    destruct (bestOf scores) as [m b]. cbn [fst confidence] in *.
    split; [apply Q.min_glb; [| lra] | apply Q.le_min_r].
    unfold Qle, Qdiv, Qmult, Qinv, inject_Z. simpl. lia.
  - intros Hun. rewrite (detectIntent_unlocated message entities Hun). cbn [intent confidence].
    set (scores := patternScores (Js.trim (Js.toLowerCase message))).
    pose proof (bestOf_nonneg scores) as Hnn.
    assert (Hzero : snd (bestOf scores) = UNKNOWN <-> fst (bestOf scores) = 0%Z).
    { split; [| apply bestOf_zero].
      intros Hunk. destruct (Z.eq_dec (fst (bestOf scores)) 0%Z) as [| Hne]; [assumption |].
      assert (Hpos : (0 < fst (bestOf scores))%Z) by lia.
      pose proof (in_map fst _ _ (bestOf_selected scores Hpos)) as Hin.
      cbn [fst] in Hin. unfold scores in Hin at 2.
      rewrite patternScores_keys, Hunk in Hin. vm_compute in Hin.
      repeat (destruct Hin as [Hin | Hin]; [discriminate Hin |]). contradiction. }
    split.
    + rewrite Hzero. split.
      * intros Hmax i patterns Hin.
        pose proof (countMatches_nonneg patterns (Js.trim (Js.toLowerCase message))) as H0.
        assert (Hs : In (i, countMatches patterns (Js.trim (Js.toLowerCase message))) scores).
        { unfold scores, patternScores.
          apply List.in_map_iff. exists (i, patterns). split; [reflexivity | exact Hin]. }
        apply bestOf_upper in Hs. lia.
      * intros Hall. destruct (Z.eq_dec (fst (bestOf scores)) 0%Z) as [| Hne]; [assumption |].
        assert (Hpos : (0 < fst (bestOf scores))%Z) by lia.
        pose proof (bestOf_selected scores Hpos) as Hsel.
        apply patternScores_In in Hsel as (patterns & Hin & Hscore).
        rewrite (Hall _ _ Hin) in Hscore. lia.
    + rewrite Hzero. split.
      * intros ->. reflexivity.
      * intros Hq. destruct (Z.eq_dec (fst (bestOf scores)) 0%Z) as [| Hne]; [assumption |].
        exfalso. assert (Hpos : (1 <= fst (bestOf scores))%Z) by lia.
        assert (H13 : (1 # 3 <= Qmin (inject_Z (fst (bestOf scores)) / 3) 1)%Q).
        { apply Q.min_glb; [| lra].
          unfold Qle, Qdiv, Qmult, Qinv, inject_Z. simpl. lia. }
        rewrite Hq in H13. lra.
Qed.

Lemma detectIntent_confidence_witness :
  intent (detectIntent "asdfghjkl" ∅) = UNKNOWN <->
  (confidence (detectIntent "asdfghjkl" ∅) == 0)%Q.
Proof.
  apply (proj2 (detectIntent_confidence "asdfghjkl" ∅)).
  vm_compute. reflexivity.
Defined.

(** *** Substrings *)

Lemma startsWith_spec (s p : string) :
  Js.startsWith s p = true <-> exists r, s = p +:+ r.
Proof.
  revert s. induction p as [| a p IH]; intros s.
  - split; [intros _; exists s; reflexivity | intros _; destruct s; reflexivity].
  - destruct s as [| b s]; [split; [discriminate | intros [r Hr]; discriminate] |].
    cbn [Js.startsWith]. rewrite andb_true_iff, Ascii.eqb_eq, IH. split.
    + intros [-> [r ->]]. exists r. reflexivity.
    + intros [r [= -> ->]]. eauto.
Qed.

Lemma includes_spec (s p : string) :
  Js.includes s p = true <-> exists l r, s = l +:+ p +:+ r.
Proof.
  induction s as [| c s IH].
  - cbn [Js.includes]. rewrite orb_false_r, startsWith_spec. split.
    + intros [r Hr]. exists EmptyString, r. exact Hr.
    + intros (l & r & Hlr). destruct l; [exists r; exact Hlr | discriminate].
  - cbn [Js.includes]. rewrite orb_true_iff, startsWith_spec, IH. split.
    + intros [[r Hr] | (l & r & ->)].
      * exists EmptyString, r. exact Hr.
      * exists (String c l), r. reflexivity.
    + intros ([| a l] & r & Hlr).
      * left. exists r. exact Hlr.
      * right. injection Hlr as <- ->. eauto.
Qed.

Lemma append_assoc (a b c : string) : (a +:+ b) +:+ c = a +:+ b +:+ c.
Proof.
  induction a as [| x a IH]; [reflexivity |].
  change (String x ((a +:+ b) +:+ c) = String x (a +:+ b +:+ c)). f_equal. exact IH.
Qed.

Lemma includes_trans (s p q : string) :
  Js.includes s p = true -> Js.includes p q = true -> Js.includes s q = true.
Proof.
  rewrite !includes_spec. intros (l & r & ->) (l' & r' & ->).
  exists (l +:+ l'), (r' +:+ r). rewrite !append_assoc. reflexivity.
Qed.

(** X5. The relative dates are tried in the order today, tomorrow, day after
    tomorrow: a text that says "day after tomorrow" also says "tomorrow", so
    its date is tomorrow's (or today's when it says "today" too), never the
    one two days ahead. *)
Theorem day_after_tomorrow_is_tomorrow (now : Clock) (text : string) :
  Js.includes text "day after tomorrow" = true ->
  extractDate now text
  = Some (isoDateAfter now (if Js.includes text "today" then 0%Z else 1%Z)).
Proof.
  intros Hday.
  assert (Htom : Js.includes text "tomorrow" = true).
  { apply (includes_trans text "day after tomorrow"); [exact Hday |].
    vm_compute. reflexivity. }
  unfold extractDate, DATE_ALIASES. cbn [List.find fst].
  destruct (Js.includes text "today"); [reflexivity |].
  rewrite Htom. reflexivity.
Qed.

Lemma day_after_tomorrow_is_tomorrow_witness :
  extractDate Example.clock "the day after tomorrow" = Some "+1".
Proof.
  rewrite (day_after_tomorrow_is_tomorrow Example.clock "the day after tomorrow").
  - vm_compute. reflexivity.
  - vm_compute. reflexivity.
Defined.

(* ====================================================================== *)
(** ** More of the planner: ranking, tags and recommendations *)
(* ====================================================================== *)

Section Ranking.

Import RoutePlanner.
Local Open Scope Q_scope.

Lemma Qlt_bool_true (x y : Q) : Qlt_bool x y = true -> x < y.
Proof.
  unfold Qlt_bool. intros H. apply negb_true_iff in H.
  destruct (Qlt_le_dec x y) as [Hlt | Hle]; [exact Hlt |].
  apply Qle_bool_iff in Hle. congruence.
Qed.

Lemma Qlt_bool_false (x y : Q) : Qlt_bool x y = false -> y <= x.
Proof.
  unfold Qlt_bool. intros H. apply negb_false_iff in H. apply Qle_bool_iff, H.
Qed.









Lemma fold_Qmin_In (xs : list Q) (a : Q) : In (fold_left Qmin xs a) (a :: xs).
Proof.
  revert a. induction xs as [| y rest IH]; intros a; [left; reflexivity |].
  cbn [fold_left]. destruct (IH (Qmin a y)) as [H | H].
  - rewrite <- H. unfold Qmin, GenericMinMax.gmin.
    destruct (a ?= y); [left | left | right; left]; reflexivity.
  - right. right. exact H.
Qed.

Lemma fold_Qmax_In (xs : list Q) (a : Q) : In (fold_left Qmax xs a) (a :: xs).
Proof.
  revert a. induction xs as [| y rest IH]; intros a; [left; reflexivity |].
  cbn [fold_left]. destruct (IH (Qmax a y)) as [H | H].
  - rewrite <- H. unfold Qmax, GenericMinMax.gmax.
    destruct (a ?= y); [left | right; left | left]; reflexivity.
  - right. right. exact H.
Qed.

Lemma minOf_In (xs : list Q) : xs <> [] -> In (minOf xs) xs.
Proof. destruct xs as [| a rest]; [congruence |]. intros _. apply fold_Qmin_In. Qed.

Lemma maxOf_In (xs : list Q) : xs <> [] -> In (maxOf xs) xs.
Proof. destruct xs as [| a rest]; [congruence |]. intros _. apply fold_Qmax_In. Qed.

Lemma In_tagsOf (tag : string) (minPrice minDuration : Q) (route : Route.t) :
  In tag (tagsOf minPrice minDuration route) <->
  (tag = "cheapest" /\ Route.base_price route == minPrice) \/
  (tag = "fastest" /\ durationOf route == minDuration) \/
  (tag = "frequent" /\ 4 <= scheduleCountOf route)%nat.
Proof.
  rewrite <- !Qeq_bool_iff, <- Nat.leb_le. unfold tagsOf.
  destruct (Qeq_bool (Route.base_price route) minPrice),
           (Qeq_bool (durationOf route) minDuration),
           (Nat.leb 4 (scheduleCountOf route));
    cbn [app In];
    (split;
     [ intros H; repeat (destruct H as [<- | H]; [auto 6 |]); destruct H
     | intros [[-> H] | [[-> H] | [-> H]]]; auto; discriminate ]).
Qed.

Lemma scoreRoutes_In (routes : list Route.t) (entities : gmap string value)
    (scored : Route.t) :
  In scored (scoreRoutes routes entities) ->
  routes <> [] /\
  exists route, In route routes /\
    Route.base_price scored = Route.base_price route /\
    Route.duration_minutes scored = Route.duration_minutes route /\
    Route.schedules scored = Route.schedules route /\
    Route.operator scored = Route.operator route /\
    Route.id scored = Route.id route /\
    Route._tags scored =
      Some (tagsOf (minOf (List.map Route.base_price routes))
                   (minOf (List.map durationOf routes)) route) /\
    Route._score scored =
      Some (add (add (add (Finite (price (weightsFor entities) *
                             priceScoreOf (minOf (List.map Route.base_price routes))
                                          (maxOf (List.map Route.base_price routes)) route))
                          (Finite (duration (weightsFor entities) *
                             durationScoreOf (minOf (List.map durationOf routes))
                                             (maxOf (List.map durationOf routes)) route)))
                     (Finite (schedule (weightsFor entities) * scheduleScoreOf route)))
                (mul (Finite (operator (weightsFor entities)))
                     (toNumber (getOperatorScore (Route.operator route))))).
Proof.
  unfold scoreRoutes. destruct routes as [| r0 rest]; [intros [] |].
  change (Nat.eqb (length (r0 :: rest)) 0) with false. cbv iota.
  intros Hin. split; [congruence |].
  apply List.in_map_iff in Hin as (route & <- & Hin).
  exists route. cbn. repeat split; auto.
Qed.

Lemma In_scoreRoutes (routes : list Route.t) (entities : gmap string value)
    (route : Route.t) :
  In route routes ->
  exists scored, In scored (scoreRoutes routes entities) /\
    Route.base_price scored = Route.base_price route /\
    Route.duration_minutes scored = Route.duration_minutes route /\
    Route._tags scored =
      Some (tagsOf (minOf (List.map Route.base_price routes))
                   (minOf (List.map durationOf routes)) route).
Proof.
  intros Hin. unfold scoreRoutes. destruct routes as [| r0 rest]; [destruct Hin |].
  change (Nat.eqb (length (r0 :: rest)) 0) with false. cbv iota.
  eexists. split; [apply List.in_map_iff; exists route; split; [reflexivity | exact Hin] |].
  cbn. auto.
Qed.

(** X7. Among the scored candidates of a search that found some, one is
    tagged cheapest and one fastest; a route tagged cheapest is priced no
    higher than any other candidate, one tagged fastest takes no longer
    than any other, and a route is tagged frequent exactly when it has four
    departures or more. *)
Theorem tags_mark_the_extremes (routes : list Route.t) (entities : gmap string value) :
  routes <> [] ->
  (exists scored, In scored (scoreRoutes routes entities) /\ tagged "cheapest" scored) /\
  (exists scored, In scored (scoreRoutes routes entities) /\ tagged "fastest" scored) /\
  forall scored, In scored (scoreRoutes routes entities) ->
    (tagged "cheapest" scored ->
     forall other, In other (scoreRoutes routes entities) ->
       Route.base_price scored <= Route.base_price other) /\
    (tagged "fastest" scored ->
     forall other, In other (scoreRoutes routes entities) ->
       (Route.duration_minutes scored <= Route.duration_minutes other)%Z) /\
    (tagged "frequent" scored <-> (4 <= scheduleCountOf scored)%nat).
Proof.
  intros Hne. split; [| split].
  - assert (Hmin : In (minOf (List.map Route.base_price routes))
                      (List.map Route.base_price routes)).
    { apply minOf_In. destruct routes; [congruence | discriminate]. }
    apply List.in_map_iff in Hmin as (route & Hprice & Hin).
    destruct (In_scoreRoutes routes entities route Hin) as (scored & Hs & _ & _ & Htags).
    exists scored. split; [exact Hs |]. eexists. split; [exact Htags |].
    apply In_tagsOf. left. split; [reflexivity |]. rewrite Hprice. reflexivity.
  - assert (Hmin : In (minOf (List.map durationOf routes)) (List.map durationOf routes)).
    { apply minOf_In. destruct routes; [congruence | discriminate]. }
    apply List.in_map_iff in Hmin as (route & Hduration & Hin).
    destruct (In_scoreRoutes routes entities route Hin) as (scored & Hs & _ & _ & Htags).
    exists scored. split; [exact Hs |]. eexists. split; [exact Htags |].
    apply In_tagsOf. right. left. split; [reflexivity |]. rewrite Hduration. reflexivity.
  - intros scored Hin.
    destruct (scoreRoutes_In _ _ _ Hin)
      as (_ & route & Hroute & Hp & Hd & Hsch & _ & _ & Htags & _).
    split; [| split].
    + intros (tags & Ht & Hc) other Hother.
      rewrite Htags in Ht. injection Ht as <-.
      apply In_tagsOf in Hc as [[_ Hc] | [[Hc _] | [Hc _]]]; try discriminate.
      destruct (scoreRoutes_In _ _ _ Hother) as (_ & r' & Hr' & Hp' & _).
      rewrite Hp, Hp', Hc. apply minOf_le, List.in_map, Hr'.
    + intros (tags & Ht & Hc) other Hother.
      rewrite Htags in Ht. injection Ht as <-.
      apply In_tagsOf in Hc as [[Hc _] | [[_ Hc] | [Hc _]]]; try discriminate.
      destruct (scoreRoutes_In _ _ _ Hother) as (_ & r' & Hr' & _ & Hd' & _).
      rewrite Hd, Hd'. rewrite Zle_Qle. fold (durationOf route). fold (durationOf r').
      rewrite Hc. apply minOf_le, (List.in_map durationOf), Hr'.
    + assert (Hcount : scheduleCountOf scored = scheduleCountOf route).
      { unfold scheduleCountOf. rewrite Hsch. reflexivity. }
      rewrite Hcount. split.
      * intros (tags & Ht & Hc). rewrite Htags in Ht. injection Ht as <-.
        apply In_tagsOf in Hc as [[Hc _] | [[Hc _] | [_ Hc]]]; try discriminate. exact Hc.
      * intros Hc. eexists. split; [exact Htags |]. apply In_tagsOf. auto.
Qed.

Lemma tags_mark_the_extremes_witness :
  exists scored,
    In scored (scoreRoutes [Example.deccan; Example.shivneri] ∅) /\
    tagged "cheapest" scored.
Proof.
  apply (tags_mark_the_extremes [Example.deccan; Example.shivneri] ∅). discriminate.
Defined.








(** X9. When every candidate of a search has the same price, the
    normalisation does not divide: the price factor of each is 1 and each
    is tagged cheapest. *)
Theorem equal_prices_score_full (routes : list Route.t) (entities : gmap string value)
    (p : Q) :
  (forall route, In route routes -> Route.base_price route == p) ->
  forall scored, In scored (scoreRoutes routes entities) ->
    priceScoreOf (minOf (List.map Route.base_price routes))
                 (maxOf (List.map Route.base_price routes)) scored = 1 /\
    tagged "cheapest" scored.
Proof.
  intros Hsame scored Hin.
  destruct (scoreRoutes_In _ _ _ Hin) as (Hne & route & Hroute & Hp & _ & _ & _ & _ & Htags & _).
  assert (Hne' : List.map Route.base_price routes <> []).
  { destruct routes; [congruence | discriminate]. }
  assert (Hmin : minOf (List.map Route.base_price routes) == p).
  { destruct (proj1 (List.in_map_iff _ _ _) (minOf_In _ Hne')) as (r & <- & Hr).
    apply Hsame, Hr. }
  assert (Hmax : maxOf (List.map Route.base_price routes) == p).
  { destruct (proj1 (List.in_map_iff _ _ _) (maxOf_In _ Hne')) as (r & <- & Hr).
    apply Hsame, Hr. }
  split.
  - unfold priceScoreOf.
    replace (Qeq_bool _ _) with true; [reflexivity |].
    symmetry. apply Qeq_bool_iff. rewrite Hmin, Hmax. reflexivity.
  - eexists. split; [exact Htags |]. apply In_tagsOf. left. split; [reflexivity |].
    rewrite Hmin. apply Hsame, Hroute.
Qed.

Lemma equal_prices_score_full_witness :
  tagged "cheapest"
    (nth 1 (scoreRoutes [Example.deccan; Example.deccan] ∅) Example.deccan).
Proof.
  apply (equal_prices_score_full [Example.deccan; Example.deccan] ∅ 350).
  - intros route [<- | [<- | []]]; reflexivity.
  - right. left. reflexivity.
Defined.

End Ranking.

Section Reduce.

Local Open Scope Q_scope.

Variable key : Route.t -> Q.
Variable better : Route.t -> Route.t -> bool.
Hypothesis better_lt : forall a b, better a b = true -> key a < key b.
Hypothesis better_ge : forall a b, better a b = false -> key b <= key a.

(** [reduce] keeps the last of the routes with the least key. *)
Lemma reduceBest_last_least (first : Route.t) (rest : list Route.t) :
  exists before after,
    first :: rest = before ++ reduceBest better first rest :: after /\
    (forall r, In r before -> key (reduceBest better first rest) <= key r) /\
    (forall r, In r after -> key (reduceBest better first rest) < key r).
Proof.
  unfold reduceBest. induction rest as [| x rest' IH] using rev_ind.
  - exists [], []. split; [reflexivity |]. split; intros r [].
  - rewrite fold_left_app. cbn [fold_left].
    destruct IH as (before & after & Hsplit & Hbefore & Hafter).
    set (c := fold_left (fun a b => if better a b then a else b) rest' first) in *.
    destruct (better c x) eqn:Hb.
    + exists before, (after ++ [x]). split; [| split].
      * rewrite app_comm_cons, Hsplit, <- app_assoc. reflexivity.
      * exact Hbefore.
      * intros r Hr. apply in_app_or in Hr as [Hr | [<- | []]]; auto.
    + exists (first :: rest'), []. split; [| split].
      * rewrite app_comm_cons. reflexivity.
      * intros r Hr. rewrite Hsplit in Hr.
        apply better_ge in Hb.
        apply in_app_or in Hr as [Hr | [<- | Hr]].
        -- eapply Qle_trans; [exact Hb | auto].
        -- exact Hb.
        -- eapply Qle_trans; [exact Hb | apply Qlt_le_weak; auto].
      * intros r [].
Qed.

End Reduce.

Lemma cheapestOf_last_least (first : Route.t) (rest : list Route.t) :
  exists before after,
    first :: rest = before ++ cheapestOf first rest :: after /\
    (forall r, In r before ->
       (Route.base_price (cheapestOf first rest) <= Route.base_price r)%Q) /\
    (forall r, In r after ->
       (Route.base_price (cheapestOf first rest) < Route.base_price r)%Q).
Proof.
  apply (reduceBest_last_least Route.base_price).
  - intros a b. apply Qlt_bool_true.
  - intros a b. apply Qlt_bool_false.
Qed.

Lemma fastestOf_last_least (first : Route.t) (rest : list Route.t) :
  exists before after,
    first :: rest = before ++ fastestOf first rest :: after /\
    (forall r, In r before ->
       (Route.duration_minutes (fastestOf first rest) <= Route.duration_minutes r)%Z) /\
    (forall r, In r after ->
       (Route.duration_minutes (fastestOf first rest) < Route.duration_minutes r)%Z).
Proof.
  destruct (reduceBest_last_least RoutePlanner.durationOf
              (fun a b => (Route.duration_minutes a <? Route.duration_minutes b)%Z))
    with (first := first) (rest := rest) as (before & after & Hsplit & Hbefore & Hafter).
  - intros a b Hlt. unfold RoutePlanner.durationOf. rewrite <- Zlt_Qlt. lia.
  - intros a b Hge. unfold RoutePlanner.durationOf. rewrite <- Zle_Qle. lia.
  - exists before, after. split; [exact Hsplit |]. unfold RoutePlanner.durationOf in *.
    split; intros r Hr; [rewrite Zle_Qle | rewrite Zlt_Qlt]; auto.
Qed.

Lemma generateRecommendations_shape (rt : Runtime) (bestScored : Route.t)
    (rest : list Route.t) (entities : gmap string value) :
  List.map (fun r => (Recommendation.type r, Recommendation.routeId r))
           (generateRecommendations rt (bestScored :: rest) entities) =
    (if negb (String.eqb (Route.id (cheapestOf bestScored rest))
                         (Route.id (fastestOf bestScored rest)))
     then [ ("cheapest", Some (Route.id (cheapestOf bestScored rest)));
            ("fastest", Some (Route.id (fastestOf bestScored rest))) ]
     else []) ++
    (if negb (String.eqb (Route.id bestScored) (Route.id (cheapestOf bestScored rest))) &&
        negb (String.eqb (Route.id bestScored) (Route.id (fastestOf bestScored rest)))
     then [ ("best_value", Some (Route.id bestScored)) ]
     else []) ++
    (if truthyAt entities "timePreference" &&
        existsb (fun r => match Route.schedules r with
                          | Some (_ :: _) => true
                          | _ => false
                          end) (bestScored :: rest)
     then [ ("time_match", None) ]
     else []).
Proof.
  unfold generateRecommendations, truthyAt.
  set (hasSchedules := fun r : Route.t => match Route.schedules r with
                                          | Some (_ :: _) => true
                                          | _ => false
                                          end).
  assert (Hmatching : Nat.ltb 0 (length (List.filter hasSchedules (bestScored :: rest)))
                      = existsb hasSchedules (bestScored :: rest)).
  { generalize (bestScored :: rest). intros l. induction l as [| r l IH]; [reflexivity |].
    cbn [List.filter existsb]. destruct (hasSchedules r); [reflexivity | exact IH]. }
  rewrite Hmatching.
  destruct (negb (String.eqb (Route.id (cheapestOf bestScored rest)) _)),
           (negb (String.eqb (Route.id bestScored) _) && _),
           (entities !! "timePreference") as [tp |];
    [destruct (truthy tp), (existsb hasSchedules _) | |
     destruct (truthy tp), (existsb hasSchedules _) | |
     destruct (truthy tp), (existsb hasSchedules _) | |
     destruct (truthy tp), (existsb hasSchedules _) | ];
    reflexivity.
Qed.

Lemma existsb_departures (routes : list Route.t) :
  existsb (fun r => match Route.schedules r with
                    | Some (_ :: _) => true
                    | _ => false
                    end) routes
  = existsb (fun r => Nat.ltb 0 (RoutePlanner.scheduleCountOf r)) routes.
Proof.
  induction routes as [| r rest IH]; [reflexivity |]. cbn [existsb]. rewrite IH.
  unfold RoutePlanner.scheduleCountOf. destruct (Route.schedules r) as [[| x xs] |]; reflexivity.
Qed.

(** X10. The recommendations, in full.  An empty list gives none.
    Otherwise, with [cheapest] the last-ranked of the routes with the least
    price and [fastest] the last-ranked of the routes with the least
    duration: the cheapest and the fastest callouts are given, in this
    order and naming these two routes, exactly when the ids of the two
    differ; then the best-value callout, naming the top-ranked route, exactly
    when its id is neither the id of [cheapest] nor the id of [fastest]
    (whether or not those two callouts were given); then the time note, which
    names no route, exactly when there is a time preference and some route
    has a departure.  Nothing else is given. *)
Theorem recommendations_name_the_extremes (rt : Runtime) (routes : list Route.t)
    (entities : gmap string value) :
  let given := callouts (generateRecommendations rt routes entities) in
  (routes = [] -> generateRecommendations rt routes entities = []) /\
  forall top rest, routes = top :: rest ->
    exists cheapest fastest,
      lastLeast Qle Qlt Route.base_price cheapest routes /\
      lastLeast Z.le Z.lt Route.duration_minutes fastest routes /\
      given =
        (if negb (String.eqb (Route.id cheapest) (Route.id fastest))
         then [ ("cheapest", Some (Route.id cheapest));
                ("fastest", Some (Route.id fastest)) ]
         else []) ++
        (if negb (String.eqb (Route.id top) (Route.id cheapest)) &&
            negb (String.eqb (Route.id top) (Route.id fastest))
         then [ ("best_value", Some (Route.id top)) ]
         else []) ++
        (if truthyAt entities "timePreference" &&
            existsb (fun r => Nat.ltb 0 (RoutePlanner.scheduleCountOf r)) routes
         then [ ("time_match", None) ]
         else []).
Proof.
  cbv zeta. split; [intros ->; reflexivity |].
  intros top rest ->.
  exists (cheapestOf top rest), (fastestOf top rest).
  split; [apply cheapestOf_last_least |]. split; [apply fastestOf_last_least |].
  unfold callouts. rewrite generateRecommendations_shape, existsb_departures.
  reflexivity.
Qed.

Lemma recommendations_name_the_extremes_witness :
  exists cheapest fastest,
    lastLeast Qle Qlt Route.base_price cheapest [Example.deccan; Example2.asiad] /\
    lastLeast Z.le Z.lt Route.duration_minutes fastest [Example.deccan; Example2.asiad] /\
    callouts (generateRecommendations Example.rt [Example.deccan; Example2.asiad] ∅) =
      (if negb (String.eqb (Route.id cheapest) (Route.id fastest))
       then [ ("cheapest", Some (Route.id cheapest));
              ("fastest", Some (Route.id fastest)) ]
       else []) ++
      (if negb (String.eqb (Route.id Example.deccan) (Route.id cheapest)) &&
          negb (String.eqb (Route.id Example.deccan) (Route.id fastest))
       then [ ("best_value", Some (Route.id Example.deccan)) ]
       else []) ++
      (if truthyAt ∅ "timePreference" &&
          existsb (fun r => Nat.ltb 0 (RoutePlanner.scheduleCountOf r))
                  [Example.deccan; Example2.asiad]
       then [ ("time_match", None) ]
       else []).
Proof.
  apply (proj2 (recommendations_name_the_extremes Example.rt
                  [Example.deccan; Example2.asiad] ∅) Example.deccan [Example2.asiad]).
  reflexivity.
Defined.

(** With the two routes of the sample, the cheaper one is not the faster
    one, and the top-ranked is the faster: two callouts. *)
Example recommendations_of_two :
  callouts (generateRecommendations Example.rt [Example.deccan; Example2.asiad] ∅)
  = [ ("cheapest", Some "r3"); ("fastest", Some "r1") ].
Proof. vm_compute. reflexivity. Qed.

(* ====================================================================== *)
(** ** More of the service: what every turn keeps *)
(* ====================================================================== *)

Section Keeping.

Context {D : Type} (host : Host D).
Variable sessionId : string.
Variable P : gmap string Session.t -> Prop.

Lemma keeps_ret {A : Type} (a : A) : keeps (D := D) P (ret a).
Proof. intros w H. exact H. Qed.

Lemma keeps_bind {A B : Type} (m : M D A) (k : A -> M D B) :
  keeps P m -> (forall a, keeps P (k a)) -> keeps P (bind m k).
Proof.
  intros Hm Hk w H. rewrite bind_run. specialize (Hm w H).
  destruct (m w) as [[a | e] w1]; [apply Hk |]; exact Hm.
Qed.

Lemma keeps_saveMessage (role content : string) (metadata : Metadata) :
  keeps P (ChatService.saveMessage host sessionId role content metadata).
Proof.
  intros w H. rewrite (proj2 (saveMessage_spec host sessionId role content metadata w)).
  exact H.
Qed.

Lemma keeps_planRoutes (entities : gmap string value) :
  keeps P (ChatService.planRoutes host entities).
Proof. intros w H. rewrite planRoutes_spec. exact H. Qed.

Section Handlers.

Hypothesis kept : keptByHandlers sessionId P.

Lemma keeps_getContext : keeps (D := D) P (ChatService.getContext sessionId).
Proof.
  intros w H. unfold ChatService.getContext, ChatService.onContext.
  pose proof (proj1 kept _ H) as H'.
  destruct (ConversationContext.getContext sessionId (sessions w)). exact H'.
Qed.

Lemma keeps_getMissingEntities :
  keeps (D := D) P (ChatService.getMissingEntities sessionId).
Proof.
  intros w H. unfold ChatService.getMissingEntities, ChatService.onContext,
    ConversationContext.getMissingEntities.
  pose proof (proj1 kept _ H) as H'.
  destruct (ConversationContext.getContext sessionId (sessions w)). exact H'.
Qed.

Lemma keeps_setPhase (state : option Phase) (lastRoutes : option (list Route.t)) :
  keeps (D := D) P
    (ChatService.updateContext sessionId (mkUpdates None None state lastRoutes None)).
Proof.
  intros w H. unfold ChatService.updateContext, ChatService.onContext.
  pose proof (proj2 kept state lastRoutes _ H) as H'.
  destruct (ConversationContext.updateContext sessionId _ (sessions w)). exact H'.
Qed.

Lemma keeps_handleTravelQuery (entities : gmap string value) (i : Intent) :
  keeps P (ChatService.handleTravelQuery host sessionId entities i).
Proof.
  unfold ChatService.handleTravelQuery.
  apply keeps_bind; [apply keeps_getMissingEntities | intros missing].
  destruct (Nat.ltb 0 (length missing)).
  - apply keeps_bind; [apply keeps_setPhase | intros _; apply keeps_ret].
  - apply keeps_bind; [apply keeps_setPhase | intros _].
    apply keeps_bind; [apply keeps_planRoutes | intros routes].
    apply keeps_bind; [apply keeps_setPhase | intros _; apply keeps_ret].
Qed.

Lemma keeps_handleCompareRoutes (entities : gmap string value) :
  keeps P (ChatService.handleCompareRoutes host sessionId entities).
Proof.
  unfold ChatService.handleCompareRoutes.
  apply keeps_bind; [apply keeps_getContext | intros ctx].
  destruct (Session.lastRoutes ctx) as [[| r rest] |]; try apply keeps_ret;
    (destruct (_ && _); [apply keeps_handleTravelQuery | apply keeps_ret]).
Qed.

Lemma keeps_handlePreference (entities : gmap string value) :
  keeps P (ChatService.handlePreference host sessionId entities).
Proof.
  unfold ChatService.handlePreference.
  apply keeps_bind; [apply keeps_getContext | intros ctx].
  destruct (_ && _); [apply keeps_handleTravelQuery | apply keeps_ret].
Qed.

Lemma keeps_handleRouteSelection (message : string) :
  keeps P (ChatService.handleRouteSelection host sessionId message).
Proof.
  intros w H. rewrite handleRouteSelection_run. cbn [snd].
  apply keeps_getContext, H.
Qed.

End Handlers.

End Keeping.

Section Closed.

Context {D : Type} (host : Host D).
Variable sessionId : string.
Variable P : gmap string Session.t -> Prop.
Hypothesis closed : closedUnder sessionId P.

Lemma closed_kept : keptByHandlers sessionId P.
Proof.
  destruct closed as (Hget & Hupd & _). split; [exact Hget |].
  intros state lastRoutes s. apply Hupd.
Qed.

Lemma keeps_updateContext (updates : Updates) :
  keeps (D := D) P (ChatService.updateContext sessionId updates).
Proof.
  intros w H. unfold ChatService.updateContext, ChatService.onContext.
  pose proof (proj1 (proj2 closed) updates _ H) as H'.
  destruct (ConversationContext.updateContext sessionId _ (sessions w)). exact H'.
Qed.

Lemma keeps_clearContext : keeps (D := D) P (ChatService.clearContext sessionId).
Proof.
  intros w H. unfold ChatService.clearContext, ChatService.onContext. cbn.
  apply (proj2 (proj2 closed)), H.
Qed.

Lemma processMessage_closed (message : string) :
  keeps P (ChatService.processMessage host sessionId message).
Proof.
  pose proof closed_kept as Hkept.
  unfold ChatService.processMessage.
  apply keeps_bind; [apply keeps_getContext, Hkept | intros ctx]. cbv zeta.
  apply keeps_bind; [apply keeps_updateContext | intros _].
  apply keeps_bind.
  - destruct (intent _); try destruct (_ && _);
      repeat first
        [ apply keeps_ret
        | apply keeps_bind;
          [ first [ apply keeps_updateContext
                  | apply keeps_clearContext
                  | apply keeps_getContext, Hkept
                  | apply keeps_handleTravelQuery, Hkept
                  | apply keeps_handleCompareRoutes, Hkept
                  | apply keeps_handlePreference, Hkept
                  | apply keeps_handleRouteSelection, Hkept ]
          | intros ? ] ].
  - intros [response metadata].
    apply keeps_bind; [apply keeps_updateContext | intros _].
    apply keeps_bind; [apply keeps_saveMessage | intros _].
    apply keeps_bind; [apply keeps_saveMessage | intros _; apply keeps_ret].
Qed.

End Closed.

Section Handled.

Context {D : Type} (host : Host D).
Variables (sessionId message : string) (w : World D).
Variable P : gmap string Session.t -> Prop.
Hypothesis kept : keptByHandlers sessionId P.
Hypothesis stays : detectedIntent host sessionId message w <> GOODBYE.
Hypothesis heard : P (heardSessions host sessionId message w).

(** A turn that is not a goodbye: what holds once the user turn is
    recorded, and is kept by the handlers, holds when the assistant turn is
    recorded, or when the turn throws. *)
Lemma processMessage_handled :
  match fst (ChatService.processMessage host sessionId message w) with
  | Ok reply =>
      exists s,
        P s /\
        sessions (snd (ChatService.processMessage host sessionId message w)) =
        snd (ConversationContext.updateContext sessionId
               (mkUpdates None None None None
                  (Some (mkMessage "assistant" (text reply) (replyTime host)))) s)
  | Throw _ => P (sessions (snd (ChatService.processMessage host sessionId message w)))
  end.
Proof.
  unfold detectedIntent, heardSessions, sessionOf in *.
  remember (ChatService.processMessage host sessionId message w) as out eqn:Hout.
  unfold ChatService.processMessage in Hout.
  rewrite bind_run in Hout.
  unfold ChatService.getContext at 1, ChatService.onContext at 1 in Hout.
  destruct (ConversationContext.getContext sessionId (sessions w)) as [ctx s1] eqn:Hget.
  cbn [fst snd] in *. cbv zeta in Hout.
  rewrite bind_run in Hout.
  unfold ChatService.updateContext at 1, ChatService.onContext at 1 in Hout.
  cbn [sessions] in Hout.
  destruct (ConversationContext.updateContext sessionId _ s1) as [ctx1 s2] eqn:Hupd.
  cbn [fst snd] in *. cbv beta iota in Hout.
  match type of Hout with
  | _ = bind ?m ?k ?w1 =>
      assert (Hanswer : keeps P m);
      [| specialize (Hanswer w1 heard); rewrite (bind_run m k w1) in Hout;
         destruct (m w1) as [[[response metadata] | e] w2] ]
  end.
  - destruct (intent _); try contradiction; try destruct (_ && _);
      repeat first
        [ apply keeps_ret
        | apply keeps_bind;
          [ first [ apply keeps_setPhase, kept
                  | apply keeps_getContext, kept
                  | apply keeps_handleTravelQuery, kept
                  | apply keeps_handleCompareRoutes, kept
                  | apply keeps_handlePreference, kept
                  | apply keeps_handleRouteSelection, kept ]
          | intros ? ] ].
  - cbn [snd] in Hanswer. rewrite bind_run in Hout.
    unfold ChatService.updateContext at 1, ChatService.onContext at 1 in Hout.
    destruct (ConversationContext.updateContext sessionId _ (sessions w2))
      as [ctx2 s3] eqn:Hupd2.
    rewrite bind_run in Hout.
    match type of Hout with
    | context [ChatService.saveMessage host ?s ?role ?c ?md ?w0] =>
        pose proof (saveMessage_spec host s role c md w0) as Hsave;
        destruct (ChatService.saveMessage host s role c md w0) as [r3 w3];
        cbn [fst snd] in Hsave; destruct Hsave as (-> & Hsave)
    end.
    rewrite bind_run in Hout.
    match type of Hout with
    | context [ChatService.saveMessage host ?s ?role ?c ?md ?w0] =>
        pose proof (saveMessage_spec host s role c md w0) as Hsave';
        destruct (ChatService.saveMessage host s role c md w0) as [r4 w4];
        cbn [fst snd] in Hsave'; destruct Hsave' as (-> & Hsave')
    end.
    unfold ret in Hout. subst out. cbn [fst snd text].
    exists (sessions w2). split; [exact Hanswer |].
    rewrite Hsave', Hsave, Hupd2. reflexivity.
  - subst out. exact Hanswer.
Qed.

End Handled.

(* ====================================================================== *)
(** ** Sessions side by side *)
(* ====================================================================== *)

(** X11. A message of one session leaves every other session as it was,
    whatever the message and however the turn ends. *)
Theorem other_sessions_untouched {D : Type} (host : Host D)
    (sessionId message other : string) (w : World D) :
  other <> sessionId ->
  sessions (snd (ChatService.processMessage host sessionId message w)) !! other
  = sessions w !! other.
Proof.
  intros Hne.
  apply (processMessage_closed host sessionId
           (fun s => s !! other = sessions w !! other)); [| reflexivity].
  unfold closedUnder, ConversationContext.getContext,
    ConversationContext.updateContext, ConversationContext.clearContext.
  split; [| split].
  - intros s Hs. destruct (s !! sessionId); cbn [snd]; [exact Hs |].
    rewrite lookup_insert_ne by congruence. exact Hs.
  - intros updates s Hs. unfold ConversationContext.getContext.
    destruct (s !! sessionId); cbn [snd];
      rewrite ?insert_insert_eq, !lookup_insert_ne by congruence; exact Hs.
  - intros s Hs. rewrite lookup_delete_ne by congruence. exact Hs.
Qed.

Lemma other_sessions_untouched_witness :
  sessions (snd (ChatService.processMessage (Example.host [] false) "s1" "bye"
                   Example.start)) !! "s2"
  = sessions Example.start !! "s2".
Proof.
  apply (other_sessions_untouched (Example.host [] false) "s1" "bye" "s2" Example.start).
  discriminate.
Defined.

(* ====================================================================== *)
(** ** The history *)
(* ====================================================================== *)

Lemma pushHistory_length (message : Message) (history : list Message) :
  length (ConversationContext.pushHistory message history) <= 20.
Proof.
  unfold ConversationContext.pushHistory.
  destruct (Nat.ltb 20 (length (history ++ [message]))) eqn:Hlen.
  - apply Nat.ltb_lt in Hlen. rewrite length_drop. lia.
  - apply Nat.ltb_ge in Hlen. exact Hlen.
Qed.

Lemma pushHistory_ends (message : Message) (earlier recent : list Message) :
  length recent < 20 ->
  exists earlier',
    ConversationContext.pushHistory message (earlier ++ recent)
    = earlier' ++ recent ++ [message].
Proof.
  intros Hrecent. unfold ConversationContext.pushHistory.
  rewrite <- app_assoc.
  destruct (Nat.ltb 20 (length (earlier ++ recent ++ [message]))) eqn:Hlen.
  - apply Nat.ltb_lt in Hlen. rewrite !length_app in *. cbn [length] in *.
    exists (drop (length earlier + (length recent + 1) - 20) earlier).
    rewrite drop_app_le by lia. reflexivity.
  - exists earlier. reflexivity.
Qed.

(** X12. The history of a session holds the 20 most recent turns at most:
    if no stored session has more, none has more after a message, whatever
    the message and however the turn ends. *)
Theorem history_stays_bounded {D : Type} (host : Host D) (sessionId message : string)
    (w : World D) :
  historyBounded (sessions w) ->
  historyBounded (sessions (snd (ChatService.processMessage host sessionId message w))).
Proof.
  apply (processMessage_closed host sessionId historyBounded).
  unfold closedUnder, historyBounded, ConversationContext.getContext,
    ConversationContext.updateContext, ConversationContext.clearContext.
  split; [| split].
  - intros s Hs id ctx. destruct (s !! sessionId) eqn:Hctx; cbn [snd]; [apply Hs |].
    destruct (decide (sessionId = id)) as [<- | Hne].
    + rewrite lookup_insert_eq. intros [= <-]. cbn. lia.
    + rewrite lookup_insert_ne by exact Hne. apply Hs.
  - intros updates s Hs id ctx. unfold ConversationContext.getContext.
    assert (Hstored : length (Session.history
                                (default ConversationContext.newSession (s !! sessionId)))
                      <= 20).
    { destruct (s !! sessionId) as [c |] eqn:Hc; [exact (Hs _ _ Hc) | cbn; lia]. }
    destruct (s !! sessionId) as [c |] eqn:Hc; cbn [snd default] in *;
      rewrite ?insert_insert_eq;
      (destruct (decide (sessionId = id)) as [<- | Hne];
       [ rewrite lookup_insert_eq; intros [= <-]; cbn [Session.history];
         destruct (u_message updates); [apply pushHistory_length | exact Hstored]
       | rewrite lookup_insert_ne by exact Hne ]).
    + apply Hs.
    + apply Hs.
  - intros s Hs id ctx. destruct (decide (sessionId = id)) as [<- | Hne].
    + rewrite lookup_delete_eq. discriminate.
    + rewrite lookup_delete_ne by exact Hne. apply Hs.
Qed.

Lemma history_stays_bounded_witness :
  historyBounded
    (sessions (snd (ChatService.processMessage (Example.host [] false) "s1" "hello"
                      Example.start))).
Proof.
  apply (history_stays_bounded (Example.host [] false) "s1" "hello" Example.start).
  intros id ctx Hctx. vm_compute in Hctx. discriminate.
Defined.

(* ====================================================================== *)
(** ** What a turn records *)
(* ====================================================================== *)

Section Recorded.

Context {D : Type} (host : Host D).
Variables (sessionId message : string) (w : World D).

Local Abbreviation before := (sessionOf sessionId w).
Local Abbreviation entities :=
  (extractEntities (now host) message (Session.entities before)).
Local Abbreviation userTurn := (mkMessage "user" message (isoNow (now host))).

(** The session holds the entities and the intent of the message, and its
    history ends with the user turn. *)
Local Abbreviation heardAs :=
  (fun s : gmap string Session.t =>
     exists ctx earlier,
       s !! sessionId = Some ctx /\
       Session.entities ctx = entities /\
       Session.lastIntent ctx = Some (detectedIntent host sessionId message w) /\
       Session.history ctx = earlier ++ [userTurn]).

Lemma heardAs_kept : keptByHandlers sessionId heardAs.
Proof.
  unfold keptByHandlers, ConversationContext.updateContext,
    ConversationContext.getContext.
  split.
  - intros s (ctx & earlier & Hctx & H). rewrite Hctx. cbn [snd]. eauto.
  - intros state lastRoutes s (ctx & earlier & Hctx & He & Hi & Hh).
    rewrite Hctx. cbn [snd fst]. rewrite lookup_insert_eq.
    eexists _, earlier. split; [reflexivity |]. cbn. auto.
Qed.

Lemma heardAs_heard : heardAs (heardSessions host sessionId message w).
Proof.
  unfold heardSessions, detectedIntent, sessionOf, ConversationContext.updateContext,
    ConversationContext.getContext.
  destruct (pushHistory_ends userTurn
              (Session.history
                 (default ConversationContext.newSession (sessions w !! sessionId))) [])
    as (earlier & Hpush); [cbn; lia |].
  rewrite app_nil_r in Hpush.
  destruct (sessions w !! sessionId) as [ctx |] eqn:Hctx; cbn [fst snd default] in *;
    rewrite ?Hctx, ?lookup_insert_eq; cbn [fst snd];
    rewrite lookup_insert_eq;
    (eexists _, earlier; split; [reflexivity |];
     cbn [Session.entities Session.lastIntent Session.history u_entities u_lastIntent
          u_message];
     rewrite INTENTS_nonEmpty, extractEntities_union; auto).
Qed.

End Recorded.

(** X13. A turn that returns, and is not a goodbye, is recorded: the session
    then holds the entities extracted from the message over those it had,
    the intent detected, and a history that ends with the text of the user
    and the text of the reply, in this order. *)
Theorem turn_is_recorded {D : Type} (host : Host D) (sessionId message : string)
    (w w' : World D) (reply : Reply) :
  detectedIntent host sessionId message w <> GOODBYE ->
  ChatService.processMessage host sessionId message w = (Ok reply, w') ->
  exists ctx earlier,
    sessions w' !! sessionId = Some ctx /\
    Session.entities ctx
      = extractEntities (now host) message (Session.entities (sessionOf sessionId w)) /\
    Session.lastIntent ctx = Some (detectedIntent host sessionId message w) /\
    Session.history ctx
      = earlier ++ [ mkMessage "user" message (isoNow (now host));
                     mkMessage "assistant" (text reply) (replyTime host) ].
Proof.
  intros Hstays Hrun.
  pose proof (processMessage_handled host sessionId message w _
                (heardAs_kept host sessionId message w) Hstays
                (heardAs_heard host sessionId message w)) as H.
  rewrite Hrun in H. cbn [fst snd] in H.
  destruct H as (s & (ctx & earlier & Hctx & He & Hi & Hh) & ->).
  unfold ConversationContext.updateContext, ConversationContext.getContext.
  rewrite Hctx. cbn [fst snd]. rewrite lookup_insert_eq.
  destruct (pushHistory_ends (mkMessage "assistant" (text reply) (replyTime host))
              earlier [mkMessage "user" message (isoNow (now host))])
    as (earlier' & Hpush); [cbn; lia |].
  eexists _, earlier'. split; [reflexivity |].
  cbn [Session.entities Session.lastIntent Session.history u_entities u_lastIntent
       u_message].
  rewrite Hh, Hpush. auto.
Qed.

Lemma turn_is_recorded_witness :
  exists ctx earlier,
    sessions (snd (ChatService.processMessage (Example.host [] false) "s1" "hello"
                     Example.start)) !! "s1" = Some ctx /\
    Session.history ctx
      = earlier ++ [ mkMessage "user" "hello" (isoNow Example.clock);
                     mkMessage "assistant"
                       (ResponseGenerator.generateGreeting Example.rt)
                       "2024-01-01T09:00:01.000Z" ].
Proof.
  destruct (turn_is_recorded (Example.host [] false) "s1" "hello" Example.start
              (snd (ChatService.processMessage (Example.host [] false) "s1" "hello"
                      Example.start))
              (mkReply (ResponseGenerator.generateGreeting Example.rt)
                       (mkMetadata (Some GREETING) (Some (1 # 3))
                                   (Some ∅) None) "s1"))
    as (ctx & earlier & Hctx & _ & _ & Hhistory).
  - vm_compute. discriminate.
  - vm_compute. reflexivity.
  - exists ctx, earlier. split; [exact Hctx | exact Hhistory].
Defined.

Lemma located_extractEntities (now : Clock) (message : string)
    (context : gmap string value) :
  located context = true -> located (extractEntities now message context) = true.
Proof.
  unfold located, truthyAt. rewrite !(lookup_extractEntities now message context).
  intros H.
  destruct (extractEntities now message ∅ !! "origin") as [o |] eqn:Ho;
    [rewrite (extracted_truthy _ _ _ _ Ho); reflexivity |].
  destruct (extractEntities now message ∅ !! "destination") as [d |] eqn:Hd;
    [rewrite (extracted_truthy _ _ _ _ Hd); apply orb_true_r |].
  exact H.
Qed.

(** X14. A session that knows an origin or a destination is never cleared:
    no message is taken for a goodbye, and however the turn ends the session
    is still stored, with the entities extracted from the message over those
    it had, none of its slots lost and an origin or a destination among
    them. *)
Theorem located_session_is_kept {D : Type} (host : Host D) (sessionId message : string)
    (w : World D) :
  let before := Session.entities (sessionOf sessionId w) in
  located before = true ->
  detectedIntent host sessionId message w <> GOODBYE /\
  exists ctx,
    sessions (snd (ChatService.processMessage host sessionId message w)) !! sessionId
      = Some ctx /\
    Session.entities ctx = extractEntities (now host) message before /\
    located (Session.entities ctx) = true /\
    forall key, is_Some (before !! key) -> is_Some (Session.entities ctx !! key).
Proof.
  intros before Hlocated.
  assert (Hstays : detectedIntent host sessionId message w <> GOODBYE).
  { unfold detectedIntent. fold before.
    pose proof (located_intent_cases message _
                  (located_extractEntities (now host) message before Hlocated)) as Hin.
    intros Heq. rewrite Heq in Hin. cbn in Hin. intuition discriminate. }
  split; [exact Hstays |].
  assert (Hkept : exists ctx,
             sessions (snd (ChatService.processMessage host sessionId message w))
               !! sessionId = Some ctx /\
             Session.entities ctx = extractEntities (now host) message before).
  { pose proof (processMessage_handled host sessionId message w _
                  (heardAs_kept host sessionId message w) Hstays
                  (heardAs_heard host sessionId message w)) as H.
    destruct (fst (ChatService.processMessage host sessionId message w)) as [reply | e].
    - destruct H as (s & (ctx & earlier & Hctx & He & _) & ->).
      unfold ConversationContext.updateContext, ConversationContext.getContext.
      rewrite Hctx. cbn [fst snd]. rewrite lookup_insert_eq.
      eexists. split; [reflexivity |]. exact He.
    - destruct H as (ctx & earlier & Hctx & He & _). eauto. }
  destruct Hkept as (ctx & Hctx & He). exists ctx.
  split; [exact Hctx |]. split; [exact He |]. rewrite He. split.
  - apply located_extractEntities, Hlocated.
  - intros key [v Hv]. rewrite lookup_extractEntities, Hv.
    destruct (extractEntities (now host) message ∅ !! key); eauto.
Qed.

Lemma located_session_is_kept_witness :
  detectedIntent (Example.host [] false) "s1" "bye"
    (Example.after (Example.host [] false) "s1" ["from Mumbai to Pune"]) <> GOODBYE.
Proof.
  apply (located_session_is_kept (Example.host [] false) "s1" "bye"
           (Example.after (Example.host [] false) "s1" ["from Mumbai to Pune"])).
  vm_compute. reflexivity.
Defined.

(* ====================================================================== *)
(** ** The route lookup *)
(* ====================================================================== *)

Lemma unlocated_intent (message : string) (entities : gmap string value) :
  ~ In (intent (detectIntent message entities))
       [GREETING; HELP; SELECT_ROUTE; TRAVEL_SEARCH] ->
  truthyAt entities "origin" = false /\ truthyAt entities "destination" = false.
Proof.
  intros Hnot. pose proof (located_intent_cases message entities) as H.
  unfold located in H.
  destruct (truthyAt entities "origin"), (truthyAt entities "destination"); auto;
    exfalso; apply Hnot, H; reflexivity.
Qed.

(** The turns that do not reach the lookup: those of another intent than
    travel_search, and those for which a city is still missing. *)
Lemma processMessage_search_free {D : Type} (host : Host D)
    (searchRoutes' : value -> value -> value -> SearchOptions -> D -> Result (list Route.t))
    (sessionId message : string) (w : World D) :
  let entities :=
    extractEntities (now host) message (Session.entities (sessionOf sessionId w)) in
  detectedIntent host sessionId message w <> TRAVEL_SEARCH \/
  truthyAt entities "origin" && truthyAt entities "destination" = false ->
  ChatService.processMessage (withSearch host searchRoutes') sessionId message w
  = ChatService.processMessage host sessionId message w.
Proof.
  unfold detectedIntent, sessionOf. cbv zeta. intros Hintent.
  unfold ChatService.processMessage.
  rewrite !bind_run. unfold ChatService.getContext, ChatService.onContext.
  destruct (ConversationContext.getContext sessionId (sessions w)) as [ctx s1].
  cbn [fst snd] in Hintent. cbv zeta beta iota.
  change (now (withSearch host searchRoutes')) with (now host).
  set (entities := extractEntities (now host) message (Session.entities ctx)) in *.
  pose proof (unlocated_intent message entities) as Hunlocated.
  destruct (intent (detectIntent message entities)) eqn:Hi; try reflexivity.
  1: { destruct Hintent as [Hintent | Hmissing]; [congruence |].
       unfold ChatService.handleTravelQuery, ChatService.planRoutes.
       destruct (truthyAt entities "origin"), (truthyAt entities "destination");
         try discriminate; reflexivity. }
  all: destruct Hunlocated as [Horigin Hdestination];
    [cbn; intuition discriminate |];
    unfold ChatService.handleCompareRoutes, ChatService.handlePreference,
      ChatService.handleTravelQuery, ChatService.planRoutes;
    rewrite Horigin, Hdestination; reflexivity.
Qed.

(** X15. Only a travel_search turn consults the route lookup: for a message
    of any other intent, the reply and the world the service leaves are the
    same whatever the lookup would answer.  A price, schedule, comparison or
    preference message wins only when no city is known, and then the
    handlers ask for the cities or answer from the session. *)
Theorem lookup_only_for_travel_search {D : Type} (host : Host D)
    (searchRoutes' : value -> value -> value -> SearchOptions -> D -> Result (list Route.t))
    (sessionId message : string) (w : World D) :
  detectedIntent host sessionId message w <> TRAVEL_SEARCH ->
  ChatService.processMessage (withSearch host searchRoutes') sessionId message w
  = ChatService.processMessage host sessionId message w.
Proof. intros Hintent. apply processMessage_search_free. left. exact Hintent. Qed.

Lemma lookup_only_for_travel_search_witness :
  ChatService.processMessage
    (withSearch (Example.host [Example.deccan] false) (fun _ _ _ _ _ => Throw "down"))
    "s1" "how much is the fare" Example.start
  = ChatService.processMessage (Example.host [Example.deccan] false)
      "s1" "how much is the fare" Example.start.
Proof.
  apply (lookup_only_for_travel_search (Example.host [Example.deccan] false)).
  vm_compute. discriminate.
Defined.

Section Travel.

Context {D : Type} (host : Host D).

Lemma getMissingEntities_exact (sessionId : string) (w : World D) :
  let '(r, w') := ChatService.getMissingEntities sessionId w in
  let known := Session.entities (sessionOf sessionId w) in
  r = Ok ((if truthyAt known "origin" then [] else ["origin"]) ++
          (if truthyAt known "destination" then [] else ["destination"])) /\
  sessions w' !! sessionId = Some (sessionOf sessionId w) /\
  database w' = database w /\ console w' = console w.
Proof.
  unfold ChatService.getMissingEntities, ChatService.onContext, sessionOf,
    ConversationContext.getMissingEntities, ConversationContext.getContext.
  destruct (sessions w !! sessionId) as [ctx |] eqn:Hctx; cbn [fst snd sessions].
  - rewrite Hctx.
    destruct (truthyAt (Session.entities ctx) "origin"),
             (truthyAt (Session.entities ctx) "destination"); auto.
  - rewrite lookup_insert_eq. auto.
Qed.

Lemma sessionOf_lookup (sessionId : string) (w : World D) (ctx : Session.t) :
  sessions w !! sessionId = Some ctx -> sessionOf sessionId w = ctx.
Proof.
  intros H. unfold sessionOf, ConversationContext.getContext. rewrite H. reflexivity.
Qed.

(** A travel query for a session whose cities are known, up to the lookup. *)
Lemma handleTravelQuery_located (sessionId : string) (entities : gmap string value)
    (i : Intent) (w : World D) :
  let known := sessionOf sessionId w in
  truthyAt (Session.entities known) "origin" = true ->
  truthyAt (Session.entities known) "destination" = true ->
  exists w1,
    sessions w1 !! sessionId
      = Some (updated (mkUpdates None None (Some showing_results) None None) known) /\
    database w1 = database w /\ console w1 = console w /\
    ChatService.handleTravelQuery host sessionId entities i w =
    match ChatService.planRoutes host entities w1 with
    | (Ok routes, _) =>
        let '(_, w2) :=
          ChatService.updateContext sessionId
            (mkUpdates None None None (Some routes) None) w1 in
        (Ok (ResponseGenerator.generateRouteResults (runtime host) routes entities), w2)
    | (Throw e, _) => (Throw e, w1)
    end.
Proof.
  intros known Horigin Hdestination.
  unfold ChatService.handleTravelQuery.
  rewrite bind_run.
  pose proof (getMissingEntities_exact sessionId w) as Hmiss.
  destruct (ChatService.getMissingEntities sessionId w) as [r w0].
  cbv zeta in Hmiss. fold known in Hmiss. rewrite Horigin, Hdestination in Hmiss.
  destruct Hmiss as (-> & Hlook & Hdb & Hconsole). cbn [app length Nat.ltb Nat.leb].
  cbv iota beta.
  rewrite bind_run.
  pose proof (updateContext_spec sessionId
                (mkUpdates None None (Some showing_results) None None) w0) as Hupd.
  destruct (ChatService.updateContext sessionId _ w0) as [r1 w1].
  destruct Hupd as (-> & _ & Hlook1 & Hdb1 & Hconsole1). cbv iota beta.
  rewrite (sessionOf_lookup _ _ _ Hlook) in Hlook1.
  exists w1. split; [exact Hlook1 |].
  split; [congruence |]. split; [congruence |].
  rewrite bind_run.
  pose proof (planRoutes_spec host entities w1) as Hplan.
  destruct (ChatService.planRoutes host entities w1) as [[routes | e] w2];
    cbn [snd] in Hplan; subst w2; [| reflexivity].
  rewrite bind_run.
  destruct (ChatService.updateContext sessionId _ w1) as [[r2 | e] w2] eqn:Hupd2;
    [reflexivity |].
  pose proof (updateContext_spec sessionId
                (mkUpdates None None None (Some routes) None) w1) as Hspec.
  rewrite Hupd2 in Hspec. destruct Hspec as (Hr & _). discriminate.
Qed.

End Travel.

Section TravelTurn.

Context {D : Type} (host : Host D).
Variables (sessionId message : string) (w : World D).

Local Abbreviation before := (sessionOf sessionId w).
Local Abbreviation entities :=
  (extractEntities (now host) message (Session.entities before)).
Local Abbreviation userTurn := (mkMessage "user" message (isoNow (now host))).
Local Abbreviation heard :=
  (updated (mkUpdates (Some entities) (Some TRAVEL_SEARCH) None None (Some userTurn))
           before).
Local Abbreviation searching :=
  (updated (mkUpdates None None (Some showing_results) None None) heard).

(** What the lookup is asked. *)
Local Abbreviation lookup :=
  (searchRoutes host
     (default VUndefined (entities !! "origin"))
     (default VUndefined (entities !! "destination"))
     (if truthyAt entities "mode" then default VUndefined (entities !! "mode")
      else VStr "any")
     (mkSearchOptions (entities !! "timePreference") (entities !! "date")
                      (entities !! "budgetPreference"))
     (database w)).

Hypothesis travel : detectedIntent host sessionId message w = TRAVEL_SEARCH.
Hypothesis origin : truthyAt entities "origin" = true.
Hypothesis destination : truthyAt entities "destination" = true.

(** A travel_search turn with both cities known, step by step. *)
Lemma processMessage_travel :
  exists w1,
    sessions w1 !! sessionId = Some searching /\
    database w1 = database w /\ console w1 = console w /\
    (forall e, lookup = Throw e ->
       ChatService.processMessage host sessionId message w = (Throw e, w1)) /\
    (forall found, lookup = Ok found ->
       let ranked := RoutePlanner.sortByScore (engineSort host)
                  (RoutePlanner.scoreRoutes found entities) in
       let response :=
         ResponseGenerator.generateRouteResults (runtime host) ranked entities in
       exists w',
         ChatService.processMessage host sessionId message w
         = (Ok (mkReply response
                  (mkMetadata (Some TRAVEL_SEARCH)
                              (Some (confidence (detectIntent message entities)))
                              (Some entities) (Some (Some ranked)))
                  sessionId), w') /\
         sessions w' !! sessionId
         = Some (updated (mkUpdates None None None None
                            (Some (mkMessage "assistant" response (replyTime host))))
                   (updated (mkUpdates None None None (Some ranked) None) searching))).
Proof.
  unfold detectedIntent in travel.
  unfold ChatService.processMessage.
  rewrite bind_run.
  pose proof (getContext_spec sessionId w) as Hget.
  destruct (ChatService.getContext sessionId w) as [r0 w0].
  destruct Hget as (-> & Hget & _ & Hdb0 & Hconsole0). cbv iota beta zeta.
  rewrite travel. rewrite bind_run.
  pose proof (updateContext_spec sessionId
                (mkUpdates (Some entities) (Some TRAVEL_SEARCH) None None (Some userTurn))
                w0) as Hupd.
  destruct (ChatService.updateContext sessionId _ w0) as [r1 w1].
  destruct Hupd as (-> & Hupd & _ & Hdb1 & Hconsole1). cbv iota beta.
  rewrite Hget in Hupd.
  rewrite bind_run, bind_run.
  destruct (handleTravelQuery_located host sessionId entities TRAVEL_SEARCH w1)
    as (w2 & Hlook2 & Hdb2 & Hconsole2 & Hrun).
  { rewrite Hupd. unfold updated. cbn [Session.entities u_entities].
    rewrite extractEntities_union. exact origin. }
  { rewrite Hupd. unfold updated. cbn [Session.entities u_entities].
    rewrite extractEntities_union. exact destination. }
  rewrite Hupd in Hlook2. rewrite Hrun. clear Hrun.
  exists w2. split; [exact Hlook2 |].
  split; [congruence |]. split; [congruence |].
  unfold ChatService.planRoutes. rewrite origin, destination.
  cbn [negb orb]. rewrite bind_run.
  replace (database w2) with (database w) by congruence.
  split.
  - intros e ->. reflexivity.
  - intros found ->. cbv zeta. unfold ret at 1. cbv iota beta.
    set (ranked := RoutePlanner.sortByScore (engineSort host)
                  (RoutePlanner.scoreRoutes found entities)).
    pose proof (updateContext_spec sessionId
                  (mkUpdates None None None (Some ranked) None) w2) as Hupd3.
    destruct (ChatService.updateContext sessionId _ w2) as [r3 w3].
    destruct Hupd3 as (_ & Hupd3 & _). cbv iota beta.
    rewrite (sessionOf_lookup _ _ _ Hlook2) in Hupd3.
    rewrite bind_run.
    pose proof (getContext_spec sessionId w3) as Hget4.
    destruct (ChatService.getContext sessionId w3) as [r4 w4].
    destruct Hget4 as (-> & Hget4 & _). cbv iota beta. rewrite Hupd3 in Hget4 |- *.
    unfold ret at 1. cbv iota beta.
    set (response := ResponseGenerator.generateRouteResults (runtime host) ranked entities).
    rewrite bind_run.
    pose proof (updateContext_spec sessionId
                  (mkUpdates None None None None
                     (Some (mkMessage "assistant" response (replyTime host)))) w4)
      as Hupd5.
    destruct (ChatService.updateContext sessionId _ w4) as [r5 w5].
    destruct Hupd5 as (-> & _ & Hlook5 & _). cbv iota beta.
    rewrite Hget4 in Hlook5.
    run_saveMessage host. run_saveMessage host.
    eexists. split; [reflexivity |].
    rewrite Hsave0, Hsave. exact Hlook5.
Qed.

End TravelTurn.

(** X16. A failure of the route lookup is not caught: the travel_search turn
    throws the error of the lookup.  The user turn is then recorded in the
    session, which is left in the phase showing_results with the routes it
    had; no assistant turn is recorded, and neither message is saved. *)
Theorem lookup_failure_surfaces {D : Type} (host : Host D) (sessionId message : string)
    (w : World D) (e : string) :
  let before := sessionOf sessionId w in
  let entities := extractEntities (now host) message (Session.entities before) in
  detectedIntent host sessionId message w = TRAVEL_SEARCH ->
  truthyAt entities "origin" = true ->
  truthyAt entities "destination" = true ->
  searchRoutes host
    (default VUndefined (entities !! "origin"))
    (default VUndefined (entities !! "destination"))
    (if truthyAt entities "mode" then default VUndefined (entities !! "mode")
     else VStr "any")
    (mkSearchOptions (entities !! "timePreference") (entities !! "date")
                     (entities !! "budgetPreference"))
    (database w) = Throw e ->
  exists w' after,
    ChatService.processMessage host sessionId message w = (Throw e, w') /\
    database w' = database w /\ console w' = console w /\
    sessions w' !! sessionId = Some after /\
    Session.state after = showing_results /\
    Session.lastRoutes after = Session.lastRoutes before /\
    Session.turnCount after = Session.turnCount before + 2 /\
    Session.history after
      = ConversationContext.pushHistory (mkMessage "user" message (isoNow (now host)))
          (Session.history before).
Proof.
  intros before entities Htravel Horigin Hdestination Hlookup.
  destruct (processMessage_travel host sessionId message w Htravel Horigin Hdestination)
    as (w1 & Hlook & Hdb & Hconsole & Hthrow & _).
  exists w1. eexists. split; [apply Hthrow, Hlookup |].
  split; [exact Hdb |]. split; [exact Hconsole |]. split; [exact Hlook |].
  unfold updated.
  cbn [Session.state Session.lastRoutes Session.turnCount Session.history
       u_state u_lastRoutes u_message default].
  repeat split; try reflexivity. subst before. lia.
Qed.

Lemma lookup_failure_surfaces_witness :
  exists w',
    ChatService.processMessage Example2.noRoutesTable "s1" "from Mumbai to Pune"
      Example.start
    = (Throw "no such table: routes", w') /\
    database w' = [].
Proof.
  destruct (lookup_failure_surfaces Example2.noRoutesTable "s1" "from Mumbai to Pune"
              Example.start "no such table: routes")
    as (w' & after & Hrun & Hdb & _).
  - vm_compute. reflexivity.
  - vm_compute. reflexivity.
  - vm_compute. reflexivity.
  - reflexivity.
  - exists w'. split; [exact Hrun | exact Hdb].
Defined.

(** X17. A travel_search turn with both cities known stores what it shows:
    the routes of the lookup, scored with the entities of the turn and
    ranked, are the routes of the reply and the routes the session keeps for
    a later selection, even when the lookup found none; the session is left
    in the phase showing_results. *)
Theorem found_routes_are_kept {D : Type} (host : Host D) (sessionId message : string)
    (w : World D) (found : list Route.t) :
  let before := sessionOf sessionId w in
  let entities := extractEntities (now host) message (Session.entities before) in
  let ranked := RoutePlanner.sortByScore (engineSort host)
                  (RoutePlanner.scoreRoutes found entities) in
  detectedIntent host sessionId message w = TRAVEL_SEARCH ->
  truthyAt entities "origin" = true ->
  truthyAt entities "destination" = true ->
  searchRoutes host
    (default VUndefined (entities !! "origin"))
    (default VUndefined (entities !! "destination"))
    (if truthyAt entities "mode" then default VUndefined (entities !! "mode")
     else VStr "any")
    (mkSearchOptions (entities !! "timePreference") (entities !! "date")
                     (entities !! "budgetPreference"))
    (database w) = Ok found ->
  exists reply w' after,
    ChatService.processMessage host sessionId message w = (Ok reply, w') /\
    text reply = ResponseGenerator.generateRouteResults (runtime host) ranked entities /\
    md_routes (metadata reply) = Some (Some ranked) /\
    sessions w' !! sessionId = Some after /\
    Session.lastRoutes after = Some ranked /\
    Session.state after = showing_results /\
    Session.turnCount after = Session.turnCount before + 4.
Proof.
  intros before entities ranked Htravel Horigin Hdestination Hlookup.
  destruct (processMessage_travel host sessionId message w Htravel Horigin Hdestination)
    as (w1 & _ & _ & _ & _ & Hfound).
  destruct (Hfound found Hlookup) as (w' & Hrun & Hlook).
  eexists _, w', _. split; [exact Hrun |].
  split; [reflexivity |]. split; [reflexivity |]. split; [exact Hlook |].
  unfold updated.
  cbn [Session.state Session.lastRoutes Session.turnCount u_state u_lastRoutes default].
  repeat split; try reflexivity. subst before. lia.
Qed.

Lemma found_routes_are_kept_witness :
  exists reply w' after,
    ChatService.processMessage (Example.host [Example.shivneri; Example.deccan] false)
      "s1" "from Mumbai to Pune" Example.start = (Ok reply, w') /\
    sessions w' !! "s1" = Some after /\
    List.map Route.id (default [] (Session.lastRoutes after)) = ["r1"; "r2"].
Proof.
  destruct (found_routes_are_kept (Example.host [Example.shivneri; Example.deccan] false)
              "s1" "from Mumbai to Pune" Example.start
              [Example.shivneri; Example.deccan])
    as (reply & w' & after & Hrun & _ & _ & Hlook & Hroutes & _).
  - vm_compute. reflexivity.
  - vm_compute. reflexivity.
  - vm_compute. reflexivity.
  - reflexivity.
  - exists reply, w', after. split; [exact Hrun |]. split; [exact Hlook |].
    rewrite Hroutes. vm_compute. reflexivity.
Defined.

(* ====================================================================== *)
(** ** What can throw *)
(* ====================================================================== *)

Section Returning.

Context {D : Type} (host : Host D).
Variable sessionId : string.

Lemma returns_ret {A : Type} (a : A) : returns (D := D) (ret a).
Proof. intros w. exists a. reflexivity. Qed.

Lemma returns_bind {A B : Type} (m : M D A) (k : A -> M D B) :
  returns m -> (forall a, returns (k a)) -> returns (bind m k).
Proof.
  intros Hm Hk w. rewrite bind_run. destruct (Hm w) as (a & Ha).
  destruct (m w) as [[a' | e] w1]; cbn [fst] in Ha; [| discriminate].
  apply Hk.
Qed.

Lemma returns_onContext {A : Type}
    (f : gmap string Session.t -> A * gmap string Session.t) :
  returns (D := D) (ChatService.onContext f).
Proof.
  intros w. unfold ChatService.onContext. destruct (f (sessions w)) as [a s].
  exists a. reflexivity.
Qed.

Lemma returns_saveMessage (role content : string) (metadata : Metadata) :
  returns (ChatService.saveMessage host sessionId role content metadata).
Proof. intros w. exists tt. apply saveMessage_spec. Qed.

Lemma returns_handleRouteSelection (message : string) :
  returns (ChatService.handleRouteSelection host sessionId message).
Proof. intros w. rewrite handleRouteSelection_run. eexists. reflexivity. Qed.

Hypothesis found :
  forall o d m options db, exists routes, searchRoutes host o d m options db = Ok routes.

Lemma returns_planRoutes (entities : gmap string value) :
  returns (ChatService.planRoutes host entities).
Proof.
  intros w. unfold ChatService.planRoutes.
  destruct (negb _ || negb _); [eexists; reflexivity |].
  rewrite bind_run.
  match goal with
  | |- context [searchRoutes host ?o ?d ?m ?options ?db] =>
      destruct (found o d m options db) as (routes & ->)
  end.
  eexists. reflexivity.
Qed.

Lemma returns_handleTravelQuery (entities : gmap string value) (i : Intent) :
  returns (ChatService.handleTravelQuery host sessionId entities i).
Proof.
  unfold ChatService.handleTravelQuery.
  apply returns_bind; [apply returns_onContext | intros missing].
  destruct (Nat.ltb 0 (length missing));
    repeat first
      [ apply returns_ret
      | apply returns_bind;
        [ first [apply returns_onContext | apply returns_planRoutes] | intros ? ] ].
Qed.

Lemma processMessage_returns (message : string) :
  returns (ChatService.processMessage host sessionId message).
Proof.
  unfold ChatService.processMessage, ChatService.handleCompareRoutes,
    ChatService.handlePreference.
  apply returns_bind; [apply returns_onContext | intros ctx]. cbv zeta.
  apply returns_bind; [apply returns_onContext | intros _].
  apply returns_bind.
  - destruct (intent _);
      repeat first
        [ apply returns_ret
        | apply returns_onContext
        | apply returns_handleTravelQuery
        | apply returns_handleRouteSelection
        | apply returns_bind
        | match goal with
          | |- forall _, returns _ => intros ?
          | |- returns (if ?b then _ else _) => destruct b
          | |- returns (match Session.lastRoutes ?c with _ => _ end) =>
              destruct (Session.lastRoutes c) as [[| ? ?] |]
          end ].
  - intros [response metadata].
    repeat first
      [ apply returns_ret
      | apply returns_onContext
      | apply returns_saveMessage
      | apply returns_bind
      | match goal with |- forall _, returns _ => intros ? end ].
Qed.

End Returning.

Lemma processMessage_throws {D : Type} (host : Host D) (sessionId message : string)
    (w w' : World D) (e : string) :
  let entities :=
    extractEntities (now host) message (Session.entities (sessionOf sessionId w)) in
  ChatService.processMessage host sessionId message w = (Throw e, w') ->
  detectedIntent host sessionId message w = TRAVEL_SEARCH /\
  truthyAt entities "origin" = true /\
  truthyAt entities "destination" = true /\
  searchRoutes host
    (default VUndefined (entities !! "origin"))
    (default VUndefined (entities !! "destination"))
    (if truthyAt entities "mode" then default VUndefined (entities !! "mode")
     else VStr "any")
    (mkSearchOptions (entities !! "timePreference") (entities !! "date")
                     (entities !! "budgetPreference"))
    (database w) = Throw e.
Proof.
  intros entities Hrun.
  assert (Hreached : detectedIntent host sessionId message w = TRAVEL_SEARCH /\
                     truthyAt entities "origin" && truthyAt entities "destination" = true).
  { destruct (decide (detectedIntent host sessionId message w = TRAVEL_SEARCH))
      as [Hi | Hi];
      [destruct (truthyAt entities "origin" && truthyAt entities "destination") eqn:Hb;
       [auto |] |];
      exfalso;
      (rewrite <- (processMessage_search_free host noRoutes) in Hrun; [| auto]);
      (destruct (processMessage_returns (withSearch host noRoutes) sessionId
                   (fun _ _ _ _ _ => ex_intro _ [] eq_refl) message w) as (reply & Hok));
      rewrite Hrun in Hok; discriminate. }
  destruct Hreached as (Hintent & Hboth).
  apply andb_true_iff in Hboth as (Horigin & Hdestination).
  split; [exact Hintent |]. split; [exact Horigin |]. split; [exact Hdestination |].
  destruct (processMessage_travel host sessionId message w Hintent Horigin Hdestination)
    as (w1 & _ & _ & _ & Hthrow & Hfound).
  fold entities in Hthrow, Hfound.
  destruct (searchRoutes host _ _ _ _ (database w)) as [found | e'].
  - destruct (Hfound found eq_refl) as (w2 & Hok & _). congruence.
  - rewrite (Hthrow e' eq_refl) in Hrun. congruence.
Qed.

(** X18. Nothing but the route lookup makes a turn fail: when
    [processMessage] throws, the message was a travel_search with both
    cities known and the error is the one the lookup threw.  Failures of
    the database are caught where the messages are saved. *)
Theorem only_the_lookup_throws {D : Type} (host : Host D) (sessionId message : string)
    (w w' : World D) (e : string) :
  let entities :=
    extractEntities (now host) message (Session.entities (sessionOf sessionId w)) in
  ChatService.processMessage host sessionId message w = (Throw e, w') ->
  detectedIntent host sessionId message w = TRAVEL_SEARCH /\
  truthyAt entities "origin" = true /\
  truthyAt entities "destination" = true /\
  searchRoutes host
    (default VUndefined (entities !! "origin"))
    (default VUndefined (entities !! "destination"))
    (if truthyAt entities "mode" then default VUndefined (entities !! "mode")
     else VStr "any")
    (mkSearchOptions (entities !! "timePreference") (entities !! "date")
                     (entities !! "budgetPreference"))
    (database w) = Throw e.
Proof. apply processMessage_throws. Qed.

Lemma only_the_lookup_throws_witness :
  detectedIntent Example2.noRoutesTable "s1" "from Mumbai to Pune" Example.start
  = TRAVEL_SEARCH.
Proof.
  apply (only_the_lookup_throws Example2.noRoutesTable "s1" "from Mumbai to Pune"
           Example.start
           (snd (ChatService.processMessage Example2.noRoutesTable "s1"
                   "from Mumbai to Pune" Example.start))
           "no such table: routes").
  vm_compute. reflexivity.
Defined.

(* ====================================================================== *)
(** ** Stored routes *)
(* ====================================================================== *)

Section StoredRoutes.

Context {D : Type} (host : Host D).
Variable sessionId : string.

Lemma routesNeedCities_getContext (s : gmap string Session.t) :
  routesNeedCities s -> routesNeedCities (snd (ConversationContext.getContext sessionId s)).
Proof.
  intros Hs. unfold ConversationContext.getContext.
  destruct (s !! sessionId) eqn:Hctx; cbn [snd]; [exact Hs |].
  intros id ctx. destruct (decide (sessionId = id)) as [<- | Hne].
  - rewrite lookup_insert_eq. intros [= <-]. cbn. congruence.
  - rewrite lookup_insert_ne by exact Hne. apply Hs.
Qed.

(** An update that stores routes only for a session that knows a city, and
    entities only if they keep the cities known. *)
Lemma routesNeedCities_updateContext (updates : Updates) (s : gmap string Session.t) :
  let known := Session.entities (fst (ConversationContext.getContext sessionId s)) in
  (u_lastRoutes updates <> None -> located known = true) ->
  (forall e, u_entities updates = Some e ->
             located known = true -> located (e ∪ known) = true) ->
  routesNeedCities s ->
  routesNeedCities (snd (ConversationContext.updateContext sessionId updates s)).
Proof.
  intros known Hroutes Hentities Hs.
  pose proof (routesNeedCities_getContext s Hs) as Hs'.
  unfold ConversationContext.updateContext.
  destruct (ConversationContext.getContext sessionId s) as [ctx s1] eqn:Hget.
  cbn [fst snd] in *. subst known.
  assert (Hctx : Session.lastRoutes ctx <> None -> located (Session.entities ctx) = true).
  { intros Hsome. apply (Hs' sessionId); [| exact Hsome].
    revert Hget. unfold ConversationContext.getContext.
    destruct (s !! sessionId) eqn:Hlook; intros [= <- <-];
      [exact Hlook | apply lookup_insert_eq]. }
  intros id c. destruct (decide (sessionId = id)) as [<- | Hne].
  - rewrite lookup_insert_eq. intros [= <-].
    cbn [Session.lastRoutes Session.entities]. intros Hstored.
    assert (Hlocated : located (Session.entities ctx) = true).
    { destruct (u_lastRoutes updates); [apply Hroutes; congruence | apply Hctx, Hstored]. }
    destruct (u_entities updates) as [e |]; [apply Hentities; auto | exact Hlocated].
  - rewrite lookup_insert_ne by exact Hne. apply Hs'.
Qed.

Lemma keeps_routes_getContext :
  keeps (D := D) routesNeedCities (ChatService.getContext sessionId).
Proof.
  intros w H. unfold ChatService.getContext, ChatService.onContext.
  pose proof (routesNeedCities_getContext _ H) as H'.
  destruct (ConversationContext.getContext sessionId (sessions w)). exact H'.
Qed.

Lemma keeps_routes_plain (state : option Phase) (message : option Message) :
  keeps (D := D) routesNeedCities
    (ChatService.updateContext sessionId (mkUpdates None None state None message)).
Proof.
  intros w H. unfold ChatService.updateContext, ChatService.onContext.
  pose proof (routesNeedCities_updateContext
                (mkUpdates None None state None message) (sessions w)) as H'.
  cbv zeta in H'. cbn [u_lastRoutes u_entities] in H'.
  destruct (ConversationContext.updateContext sessionId _ (sessions w)).
  apply H'; [congruence | discriminate | exact H].
Qed.

(** Routes are stored only for sessions that know a city, and the session
    at hand knows one. *)
Local Abbreviation locatedHere :=
  (fun s : gmap string Session.t =>
     routesNeedCities s /\
     exists ctx, s !! sessionId = Some ctx /\ located (Session.entities ctx) = true).

Lemma locatedHere_kept : keptByHandlers sessionId locatedHere.
Proof.
  split.
  - intros s (Hs & ctx & Hctx & Hlocated). split.
    + apply routesNeedCities_getContext, Hs.
    + unfold ConversationContext.getContext. rewrite Hctx. eauto.
  - intros state lastRoutes s (Hs & ctx & Hctx & Hlocated).
    assert (Hknown : fst (ConversationContext.getContext sessionId s) = ctx).
    { unfold ConversationContext.getContext. rewrite Hctx. reflexivity. }
    split.
    + apply routesNeedCities_updateContext; cbn [u_lastRoutes u_entities];
        [rewrite Hknown; auto | discriminate | exact Hs].
    + unfold ConversationContext.updateContext, ConversationContext.getContext.
      rewrite Hctx. cbn [snd]. rewrite lookup_insert_eq.
      eexists. split; [reflexivity | exact Hlocated].
Qed.

Lemma keeps_routes_handleTravelQuery (entities : gmap string value) (i : Intent) :
  keeps routesNeedCities (ChatService.handleTravelQuery host sessionId entities i).
Proof.
  intros w H. unfold ChatService.handleTravelQuery.
  rewrite bind_run.
  pose proof (getMissingEntities_exact sessionId w) as Hmiss.
  unfold ChatService.getMissingEntities, ChatService.onContext,
    ConversationContext.getMissingEntities, sessionOf in *.
  pose proof (routesNeedCities_getContext _ H) as H0.
  destruct (ConversationContext.getContext sessionId (sessions w)) as [ctx s0] eqn:Hget.
  cbn [fst snd] in *.
  destruct Hmiss as (_ & Hlook & _). cbn [sessions] in Hlook.
  destruct (truthyAt (Session.entities ctx) "origin") eqn:Horigin,
           (truthyAt (Session.entities ctx) "destination") eqn:Hdestination;
    cbn [app length Nat.ltb Nat.leb];
    try (apply keeps_bind;
         [apply keeps_routes_plain | intros ?; apply keeps_ret | exact H0]).
  match goal with
  | |- routesNeedCities (sessions (snd (?m ?w0))) =>
      cut (locatedHere (sessions (snd (m w0)))); [intros [Hr _]; exact Hr |];
      apply (keeps_bind (D := D) locatedHere)
  end.
  - apply keeps_setPhase, locatedHere_kept.
  - intros _. apply keeps_bind; [apply keeps_planRoutes | intros routes].
    apply keeps_bind; [apply keeps_setPhase, locatedHere_kept | intros ?; apply keeps_ret].
  - cbn [sessions]. split; [exact H0 |]. exists ctx. split; [exact Hlook |].
    unfold located. rewrite Horigin. reflexivity.
Qed.

Lemma keeps_routes_handleCompareRoutes (entities : gmap string value) :
  keeps routesNeedCities (ChatService.handleCompareRoutes host sessionId entities).
Proof.
  unfold ChatService.handleCompareRoutes.
  apply keeps_bind; [apply keeps_routes_getContext | intros ctx].
  destruct (Session.lastRoutes ctx) as [[| r rest] |]; try apply keeps_ret;
    (destruct (_ && _); [apply keeps_routes_handleTravelQuery | apply keeps_ret]).
Qed.

Lemma keeps_routes_handlePreference (entities : gmap string value) :
  keeps routesNeedCities (ChatService.handlePreference host sessionId entities).
Proof.
  unfold ChatService.handlePreference.
  apply keeps_bind; [apply keeps_routes_getContext | intros ctx].
  destruct (_ && _); [apply keeps_routes_handleTravelQuery | apply keeps_ret].
Qed.

Lemma keeps_routes_handleRouteSelection (message : string) :
  keeps routesNeedCities (ChatService.handleRouteSelection host sessionId message).
Proof.
  intros w H. rewrite handleRouteSelection_run. cbn [snd].
  apply keeps_routes_getContext, H.
Qed.

Lemma keeps_routes_clearContext :
  keeps (D := D) routesNeedCities (ChatService.clearContext sessionId).
Proof.
  intros w H. unfold ChatService.clearContext, ChatService.onContext,
    ConversationContext.clearContext. cbn.
  intros id ctx. destruct (decide (sessionId = id)) as [<- | Hne].
  - rewrite lookup_delete_eq. discriminate.
  - rewrite lookup_delete_ne by exact Hne. apply H.
Qed.

Lemma routesNeedCities_heard (message : string) (w : World D) :
  routesNeedCities (sessions w) ->
  routesNeedCities (heardSessions host sessionId message w).
Proof.
  intros H. unfold heardSessions.
  apply routesNeedCities_updateContext; cbn [u_lastRoutes u_entities].
  - congruence.
  - intros e [= <-]. unfold sessionOf.
    assert (Hsame : fst (ConversationContext.getContext sessionId
                           (snd (ConversationContext.getContext sessionId (sessions w))))
                    = fst (ConversationContext.getContext sessionId (sessions w))).
    { unfold ConversationContext.getContext.
      destruct (sessions w !! sessionId) as [c |] eqn:Hc; cbn [fst snd];
        [rewrite Hc | rewrite lookup_insert_eq]; reflexivity. }
    rewrite Hsame, extractEntities_union. apply located_extractEntities.
  - apply routesNeedCities_getContext, H.
Qed.

(** Stored routes imply known cities, before and after every turn. *)
Lemma processMessage_routesNeedCities (message : string) (w : World D) :
  routesNeedCities (sessions w) ->
  routesNeedCities (sessions (snd (ChatService.processMessage host sessionId message w))).
Proof.
  intros H. pose proof (routesNeedCities_heard message w H) as Hheard.
  unfold heardSessions, sessionOf in Hheard.
  unfold ChatService.processMessage.
  rewrite bind_run. unfold ChatService.getContext at 1, ChatService.onContext at 1.
  destruct (ConversationContext.getContext sessionId (sessions w)) as [ctx s1] eqn:Hget.
  cbn [fst snd] in *. cbv zeta.
  rewrite bind_run. unfold ChatService.updateContext at 1, ChatService.onContext at 1.
  cbn [sessions].
  destruct (ConversationContext.updateContext sessionId _ s1) as [ctx1 s2] eqn:Hupd.
  cbn [fst snd] in *. cbv beta iota.
  match goal with
  | |- routesNeedCities (sessions (snd (?m ?w1))) =>
      cut (keeps routesNeedCities m); [intros Hkeeps; apply Hkeeps, Hheard |]
  end.
  apply keeps_bind.
  - destruct (intent _); try destruct (_ && _);
      repeat first
        [ apply keeps_ret
        | apply keeps_bind;
          [ first [ apply keeps_routes_plain
                  | apply keeps_routes_clearContext
                  | apply keeps_routes_getContext
                  | apply keeps_routes_handleTravelQuery
                  | apply keeps_routes_handleCompareRoutes
                  | apply keeps_routes_handlePreference
                  | apply keeps_routes_handleRouteSelection ]
          | intros ? ] ].
  - intros [response metadata].
    apply keeps_bind; [apply keeps_routes_plain | intros _].
    apply keeps_bind; [apply keeps_saveMessage | intros _].
    apply keeps_bind; [apply keeps_saveMessage | intros _; apply keeps_ret].
Qed.

End StoredRoutes.

Lemma unlocated_session {D : Type} (sessionId : string) (w : World D) :
  routesNeedCities (sessions w) ->
  located (Session.entities (sessionOf sessionId w)) = false ->
  Session.lastRoutes (sessionOf sessionId w) = None.
Proof.
  intros H Hun. unfold sessionOf, ConversationContext.getContext in *.
  destruct (sessions w !! sessionId) as [ctx |] eqn:Hctx; cbn [fst] in *; [| reflexivity].
  destruct (Session.lastRoutes ctx) as [routes |] eqn:Hroutes; [| reflexivity].
  rewrite (H sessionId ctx Hctx) in Hun; [discriminate | congruence].
Qed.

(** X20. Routes are stored only for sessions that know a city, an invariant of
    the service; and a session that knows a city never has a message taken
    for compare_routes.  So in every world the service reaches from one
    without stored routes, a compare_routes turn finds no routes to compare
    and answers that it has none: the comparison table is never shown. *)
Theorem comparison_is_never_shown {D : Type} (host : Host D) (sessionId message : string)
    (w : World D) :
  routesNeedCities (sessions w) ->
  routesNeedCities
    (sessions (snd (ChatService.processMessage host sessionId message w))) /\
  (detectedIntent host sessionId message w = COMPARE_ROUTES ->
   exists reply w',
     ChatService.processMessage host sessionId message w = (Ok reply, w') /\
     text reply = nothingToCompare).
Proof.
  intros H. split; [apply processMessage_routesNeedCities, H |].
  unfold detectedIntent. intros Hintent.
  set (entities := extractEntities (now host) message
                     (Session.entities (sessionOf sessionId w))) in *.
  destruct (unlocated_intent message entities) as [Horigin Hdestination];
    [rewrite Hintent; cbn; intuition discriminate |].
  assert (Hnone : Session.lastRoutes (sessionOf sessionId w) = None).
  { apply unlocated_session; [exact H |].
    destruct (located (Session.entities (sessionOf sessionId w))) eqn:Hloc; [| reflexivity].
    pose proof (located_extractEntities (now host) message _ Hloc) as Hloc'.
    fold entities in Hloc'. unfold located in Hloc'.
    rewrite Horigin, Hdestination in Hloc'. discriminate. }
  unfold ChatService.processMessage.
  run_getContext. cbv zeta. fold entities. rewrite Hintent.
  run_updateContext. rewrite Hget in Hupd.
  rewrite bind_run, bind_run. unfold ChatService.handleCompareRoutes.
  run_getContext. rewrite Hupd. unfold updated at 1.
  cbn [Session.lastRoutes u_lastRoutes]. rewrite Hnone, Horigin. cbn [andb].
  unfold ret at 1. cbv iota beta. unfold ret at 1. cbv iota beta.
  run_updateContext. run_saveMessage host. run_saveMessage host.
  eexists _, _. split; reflexivity.
Qed.

Lemma comparison_is_never_shown_witness :
  exists reply w',
    ChatService.processMessage (Example.host [Example.deccan] false) "s1"
      "compare them" Example.start = (Ok reply, w') /\
    text reply = nothingToCompare.
Proof.
  apply (comparison_is_never_shown (Example.host [Example.deccan] false) "s1"
           "compare them" Example.start).
  - intros id ctx Hctx. vm_compute in Hctx. discriminate.
  - vm_compute. reflexivity.
Defined.
